(** * Smart attendance: geofenced redemption of QR attendance tokens

    A shallow embedding of the decision logic of [main.py]: the distance
    computation ([calculate_distance]), the token codec
    ([generate_qr_code], [read_qr_code]), the two tables the logic reads and
    writes ([qr_codes], [attendance]) and the redemption flow of
    [student_app], together with the administrative edit of
    [edit_attendance] and the issuing step of [generate_qr_page].

    Python [float] is IEEE binary64 and is modelled by the primitive floats
    of the kernel; Python [int] is [Z]; a Python [str] is a [string] whose
    characters stand for code points below 256.  A call that raises is a
    [None] in the [option] monad. *)

From Stdlib Require Import ZArith Bool List String Ascii Lia DecimalString.
From Stdlib Require Import Floats.
Import ListNotations.

#[local] Set Warnings "-register-all,-inexact-float".
Local Open Scope Z_scope.
Local Open Scope string_scope.

(** ** A small error monad for calls that may raise *)

Definition bind {A B : Type} (m : option A) (k : A -> option B) : option B :=
  match m with
  | Some a => k a
  | None => None
  end.

Notation "x <- m ;; k" := (bind m (fun x => k))
  (at level 61, m at next level, right associativity).

(** ** The platform interface

    The functions below belong to the Python runtime and to the libraries
    [math], [json], [datetime], [sqlite3], [qrcode] and [cv2]; the program
    only calls them.  They are the operations of a class, so that every
    definition of the program is stated over an arbitrary platform and a
    concrete scenario supplies the values the platform returns there. *)

Inductive json : Type :=
| JNull
| JBool (b : bool)
| JInt (z : Z)
| JFloat (f : float)
| JStr (s : string)
| JArr (l : list json)
| JObj (items : list (string * json)).

Class Platform : Type := {
  (** [math.sin], [math.cos], [math.atan2]: [None] when the call raises. *)
  math_sin : float -> option float;
  math_cos : float -> option float;
  math_atan2 : float -> float -> option float;
  (** [x ** n] for a float [x] and an int [n]. *)
  float_pow : float -> Z -> option float;
  (** [float(s)] for a string [s]. *)
  float_of_str : string -> option float;
  (** [datetime.fromisoformat(s)] as a naive local instant, in microseconds;
      [None] when parsing raises or the result is not comparable with
      [datetime.now()]. *)
  fromisoformat : string -> option Z;
  (** [t.isoformat()]. *)
  isoformat : Z -> string;
  (** The text SQLite gives a REAL value under TEXT affinity. *)
  sqlite_real_text : float -> string;
  (** [json.dumps] and [json.loads] ([None]: the text does not parse). *)
  json_dumps : json -> string;
  json_loads : string -> option json;
  (** Images; [qrcode]'s rendering of a text ([None]: the text does not fit
      any symbol version) and [cv2.QRCodeDetector().detectAndDecode], which
      yields the decoded text and whether a symbol was located ([None]: the
      conversion or the detector raised). *)
  image : Type;
  qr_make_image : string -> option image;
  detectAndDecode : image -> option (string * bool)
}.

(** ** GeoMath *)

Section GeoMath.
Context {P : Platform}.
Local Open Scope float_scope.

Definition Py_MATH_PI : float := 0x1.921fb54442d18p+1.
Definition degToRad : float := Py_MATH_PI / 180.

(** [math.radians]. *)
Definition math_radians (x : float) : float := x * degToRad.

(** [math.sqrt]: a domain error below zero. *)
Definition math_sqrt (x : float) : option float :=
  if x <? 0 then None else Some (sqrt x).

(** Earth's radius in meters. *)
Definition R : float := 6371000.

Definition calculate_distance (lat1 lon1 lat2 lon2 : float) : option float :=
  let phi1 := math_radians lat1 in
  let phi2 := math_radians lat2 in
  let delta_phi := math_radians (lat2 - lat1) in
  let delta_lambda := math_radians (lon2 - lon1) in
  s1 <- math_sin (delta_phi / 2) ;;
  s1sq <- float_pow s1 2 ;;
  c1 <- math_cos phi1 ;;
  c2 <- math_cos phi2 ;;
  s2 <- math_sin (delta_lambda / 2) ;;
  s2sq <- float_pow s2 2 ;;
  let a := s1sq + c1 * c2 * s2sq in
  ra <- math_sqrt a ;;
  rb <- math_sqrt (1 - a) ;;
  t <- math_atan2 ra rb ;;
  let c := 2 * t in
  Some (R * c).

(** The haversine formula, in its usual form: with
    [hav(theta) = sin^2(theta / 2)] and angles in radians,
    [a = hav(delta_phi) + cos(phi1) * cos(phi2) * hav(delta_lambda)] and the
    distance on a sphere of radius [r] is [r * 2 * atan2(sqrt a, sqrt (1 - a))]. *)
Definition hav (theta : float) : option float :=
  s <- math_sin (theta / 2) ;; float_pow s 2.

Definition haversine (r phi1 phi2 delta_phi delta_lambda : float) : option float :=
  h1 <- hav delta_phi ;;
  c1 <- math_cos phi1 ;;
  c2 <- math_cos phi2 ;;
  h2 <- hav delta_lambda ;;
  let a := h1 + c1 * c2 * h2 in
  ra <- math_sqrt a ;;
  rb <- math_sqrt (1 - a) ;;
  t <- math_atan2 ra rb ;;
  Some (r * (2 * t)).

(** A C library maps NaN to NaN. *)
Definition nan_conventions : Prop :=
  math_sin nan = Some nan
  /\ float_pow nan 2 = Some nan
  /\ math_atan2 nan nan = Some nan.

(** A number: neither a NaN nor an infinity. *)
Definition finite (x : float) : bool := abs x <? infinity.

(** What the C library promises of the functions [calculate_distance] calls:
    the sine is odd, squaring is even, [sin(0) = 0], [pow(0, 2) = 0] and
    [atan2(0, 1) = 0], and the cosine of a latitude is defined with a square
    of at most one. *)
Definition libm_conventions : Prop :=
  (forall x, math_sin (- x) = option_map PrimFloat.opp (math_sin x))
  /\ (forall x, float_pow (- x) 2 = float_pow x 2)
  /\ math_sin 0 = Some 0
  /\ float_pow 0 2 = Some 0
  /\ math_atan2 0 1 = Some 0
  /\ (forall lat, finite lat = true ->
       exists c, math_cos (math_radians lat) = Some c /\ (c * c <=? 1) = true).
End GeoMath.

(** ** Python values: truth, membership, subscription, conversion *)

Section PyValues.
Context {P : Platform}.

(** [bool(v)]. *)
Definition truthy (v : json) : bool :=
  match v with
  | JNull => false
  | JBool b => b
  | JInt z => negb (z =? 0)%Z
  | JFloat f => negb (f =? 0)%float
  | JStr s => negb (s =? "")
  | JArr l => match l with [] => false | _ :: _ => true end
  | JObj items => match items with [] => false | _ :: _ => true end
  end.

(** A dict is kept as the list of its items, one per key. *)
Fixpoint dict_get (items : list (string * json)) (key : string) : option json :=
  match items with
  | [] => None
  | (k, v) :: rest => if k =? key then Some v else dict_get rest key
  end.

Definition is_str (key : string) (v : json) : bool :=
  match v with
  | JStr s => s =? key
  | _ => false
  end.

(** [key in v] for a string [key]: a key of a dict, an element of a list,
    a substring of a string; a [TypeError] otherwise. *)
Definition contains (key : string) (v : json) : option bool :=
  match v with
  | JObj items => Some (match dict_get items key with Some _ => true | None => false end)
  | JArr l => Some (existsb (is_str key) l)
  | JStr s => Some (match index 0 key s with Some _ => true | None => false end)
  | JNull | JBool _ | JInt _ | JFloat _ => None
  end.

(** [v[key]] for a string [key]: a [KeyError] or a [TypeError] is [None]. *)
Definition getitem (v : json) (key : string) : option json :=
  match v with
  | JObj items => dict_get items key
  | _ => None
  end.

(** [float(z)] for an int: rounded to nearest even, an [OverflowError]
    beyond the range of binary64. *)
Definition float_of_int (z : Z) : option float :=
  let f := SF2Prim (binary_normalize prec emax z 0 false) in
  if is_infinity f then None else Some f.

(** [float(v)]. *)
Definition py_float (v : json) : option float :=
  match v with
  | JFloat f => Some f
  | JInt z => float_of_int z
  | JBool b => Some (if b then 1%float else 0%float)
  | JStr s => float_of_str s
  | JNull | JArr _ | JObj _ => None
  end.

(** [str.strip]: white space among the code points below 256. *)
Definition is_space (c : ascii) : bool :=
  let n := Z.of_nat (nat_of_ascii c) in
  (((9 <=? n) && (n <=? 13)) || ((28 <=? n) && (n <=? 32))
   || (n =? 133) || (n =? 160))%Z.

Fixpoint lstrip (s : string) : string :=
  match s with
  | EmptyString => EmptyString
  | String c s' => if is_space c then lstrip s' else s
  end.

Fixpoint rstrip (s : string) : string :=
  match s with
  | EmptyString => EmptyString
  | String c s' =>
      let r := rstrip s' in
      if is_space c && (r =? "") then EmptyString else String c r
  end.

Definition strip (s : string) : string := rstrip (lstrip s).
End PyValues.

(** ** Values as SQLite receives them *)

Inductive sqlval : Type :=
| SqlNull
| SqlInt (z : Z)
| SqlReal (f : float)
| SqlText (s : string).

Section Sqlite.
Context {P : Platform}.

(** A Python float as a parameter: SQLite takes a NaN for NULL. *)
Definition sql_real (f : float) : sqlval :=
  if is_nan f then SqlNull else SqlReal f.

(** The adaptation of a bound parameter: [None] when [sqlite3] raises (a
    list, a dict, an int outside 64 bits). *)
Definition sql_bind (v : json) : option sqlval :=
  match v with
  | JNull => Some SqlNull
  | JBool b => Some (SqlInt (if b then 1 else 0))
  | JInt z =>
      if ((- 2 ^ 63 <=? z) && (z <? 2 ^ 63))%Z then Some (SqlInt z) else None
  | JFloat f => Some (sql_real f)
  | JStr s => Some (SqlText s)
  | JArr _ | JObj _ => None
  end.

(** TEXT affinity, applied to a value stored in or compared with a TEXT
    column: [None] is NULL. *)
Definition sql_text (v : sqlval) : option string :=
  match v with
  | SqlNull => None
  | SqlInt z => Some (NilZero.string_of_int (Z.to_int z))
  | SqlReal f => Some (sqlite_real_text f)
  | SqlText s => Some s
  end.

(** [column = ?] for a TEXT column that is NOT NULL. *)
Definition text_eq (column : string) (param : sqlval) : bool :=
  match sql_text param with
  | Some t => column =? t
  | None => false
  end.
End Sqlite.

(** ** The two tables

    [qr_codes] and [attendance] as [init_database] creates them.  A DATETIME
    written from [isoformat()] is kept as the instant it denotes, in
    microseconds of naive local time, so that SQLite's [DATE(timestamp)] and
    Python's [datetime.now().date()] both are [date_of].  The column
    [created_date] of [attendance], which nothing reads, is left out. *)

Inductive status : Type := present | absent | late.

Record qr_row : Type := {
  qr_id : string;               (* TEXT UNIQUE NOT NULL *)
  qr_subject : string;
  qr_period : string;
  qr_latitude : float;
  qr_longitude : float;
  qr_created_at : Z;
  qr_expires_at : Z;
  qr_created_by : option string;
  is_active : bool              (* BOOLEAN DEFAULT 1 *)
}.

Record attendance_row : Type := {
  att_id : Z;                   (* INTEGER PRIMARY KEY AUTOINCREMENT *)
  student_name : string;
  student_roll : option string;
  att_subject : string;
  att_period : string;
  timestamp : Z;
  device_id : string;
  student_latitude : sqlval;    (* the four REAL columns hold the value *)
  student_longitude : sqlval;   (* bound, before REAL affinity *)
  att_qr_latitude : sqlval;
  att_qr_longitude : sqlval;
  att_status : status;
  marked_by : option string;
  modified_by : option string;
  modification_reason : option string
}.

Record database : Type := {
  qr_codes : list qr_row;
  attendance : list attendance_row
}.

Definition usec_per_day : Z := 86400000000.

(** The calendar day of an instant. *)
Definition date_of (t : Z) : Z := t / usec_per_day.

(** ** TokenCodec *)

Section TokenCodec.
Context {P : Platform}.

(** The payload [generate_qr_page] builds for a new code. *)
Definition qr_payload (id subject period : string) (latitude longitude : float)
    (created expires : Z) : json :=
  JObj [ ("qr_id", JStr id);
         ("subject", JStr subject);
         ("period", JStr period);
         ("latitude", JFloat latitude);
         ("longitude", JFloat longitude);
         ("created_at", JStr (isoformat created));
         ("expires_at", JStr (isoformat expires)) ].

(** [generate_qr_code]: the image of the serialized payload (the PNG bytes
    returned beside it are that image, saved without loss). *)
Definition generate_qr_code (qr_data : json) : option image :=
  qr_make_image (json_dumps qr_data).

(** [read_qr_code]: Python's [None] is [JNull]. *)
Definition read_qr_code (img : image) : json :=
  match detectAndDecode img with
  | Some (data, vertices_found) =>
      if vertices_found && (0 <? length data)%nat then
        match json_loads data with
        | Some v => v
        | None => JNull
        end
      else JNull
  | None => JNull
  end.
End TokenCodec.

(** ** TokenStore *)

Section TokenStore.
Context {P : Platform}.

(** [SELECT * FROM qr_codes WHERE qr_id = ? AND is_active = 1], then
    [fetchone()]. *)
Definition select_active_qr (rows : list qr_row) (id : sqlval) : option qr_row :=
  find (fun r => text_eq (qr_id r) id && is_active r) rows.

(** [INSERT INTO qr_codes]: the UNIQUE constraint on [qr_id] rejects a
    second row with the same id. *)
Definition insert_qr_code (rows : list qr_row) (r : qr_row) : option (list qr_row) :=
  if existsb (fun r' => qr_id r' =? qr_id r) rows then None
  else Some (rows ++ [r])%list.

Record issue_form : Type := {
  generate_button : bool;
  form_subject : string;
  form_period : string;
  form_latitude : float;
  form_longitude : float;
  duration : Z                (* minutes, from the slider *)
}.

Inductive issue_result : Type :=
| NothingIssued
| IssueRaised
| Issued (db : database) (qr_data : json) (img : option image).

Definition usec_per_minute : Z := 60000000.

(** [generate_qr_page], from the submitted form on: [new_id] is the fresh
    [uuid4], [now] the reading of the clock. *)
Definition generate_qr_page (db : database) (f : issue_form) (new_id : string)
    (now : Z) (faculty_id : string) : issue_result :=
  if generate_button f && negb (form_subject f =? "") then
    let created := now in
    let expires := (created + duration f * usec_per_minute)%Z in
    let qr_data := qr_payload new_id (form_subject f) (form_period f)
                     (form_latitude f) (form_longitude f) created expires in
    let row := {| qr_id := new_id; qr_subject := form_subject f;
                  qr_period := form_period f;
                  qr_latitude := form_latitude f;
                  qr_longitude := form_longitude f;
                  qr_created_at := created; qr_expires_at := expires;
                  qr_created_by := Some faculty_id; is_active := true |} in
    match insert_qr_code (qr_codes db) row with
    | None => IssueRaised
    | Some rows =>
        Issued {| qr_codes := rows; attendance := attendance db |}
               qr_data (generate_qr_code qr_data)
    end
  else NothingIssued.
End TokenStore.

(** ** The attendance table *)

Section AttendanceStore.
Context {P : Platform}.

(** The row of the duplicate query:
    [student_name = ? AND subject = ? AND period = ? AND DATE(timestamp) = ?]. *)
Definition same_attendance (name : string) (subject period : sqlval) (today : Z)
    (r : attendance_row) : bool :=
  (student_name r =? name) && text_eq (att_subject r) subject
  && text_eq (att_period r) period && (date_of (timestamp r) =? today)%Z.

(** The count the duplicate query returns. *)
Definition count_attendance (rows : list attendance_row) (name : string)
    (subject period : sqlval) (today : Z) : Z :=
  Z.of_nat (List.length (filter (same_attendance name subject period today) rows)).

(** AUTOINCREMENT: above every id in use. *)
Definition next_id (rows : list attendance_row) : Z :=
  fold_right (fun r m => Z.max (att_id r) m) 0%Z rows + 1.

(** The twelve values of the INSERT of [student_app]. *)
Record insert_values : Type := {
  v_student_name : string;
  v_student_roll : string;
  v_subject : sqlval;
  v_period : sqlval;
  v_timestamp : Z;
  v_device_id : string;
  v_student_latitude : float;
  v_student_longitude : float;
  v_qr_latitude : json;
  v_qr_longitude : json
}.

(** The row the INSERT writes: status ['present'], marked_by
    ['student_app'], no modification. *)
Definition present_row (id : Z) (v : insert_values) (subject period : string)
    (qlat qlon : sqlval) : attendance_row :=
  {| att_id := id;
     student_name := v_student_name v;
     student_roll := Some (v_student_roll v);
     att_subject := subject;
     att_period := period;
     timestamp := v_timestamp v;
     device_id := v_device_id v;
     student_latitude := sql_real (v_student_latitude v);
     student_longitude := sql_real (v_student_longitude v);
     att_qr_latitude := qlat;
     att_qr_longitude := qlon;
     att_status := present;
     marked_by := Some "student_app";
     modified_by := None;
     modification_reason := None |}.

(** [INSERT INTO attendance (...) VALUES (...)], then [commit]: it raises
    ([None]) when a value cannot be bound or a NOT NULL column would
    receive NULL; the table declares no other constraint. *)
Definition insert_attendance (rows : list attendance_row) (v : insert_values)
    : option (list attendance_row) :=
  subject <- sql_text (v_subject v) ;;
  period <- sql_text (v_period v) ;;
  qlat <- sql_bind (v_qr_latitude v) ;;
  qlon <- sql_bind (v_qr_longitude v) ;;
  Some (rows ++ [present_row (next_id rows) v subject period qlat qlon])%list.

(** [UPDATE attendance SET status = ?, modified_by = ?,
    modification_reason = ? WHERE id = ?] of [edit_attendance]. *)
Definition update_row (record_id : Z) (new_status : status)
    (faculty_id reason : string) (r : attendance_row) : attendance_row :=
  if (att_id r =? record_id)%Z then
    {| att_id := att_id r;
       student_name := student_name r;
       student_roll := student_roll r;
       att_subject := att_subject r;
       att_period := att_period r;
       timestamp := timestamp r;
       device_id := device_id r;
       student_latitude := student_latitude r;
       student_longitude := student_longitude r;
       att_qr_latitude := att_qr_latitude r;
       att_qr_longitude := att_qr_longitude r;
       att_status := new_status;
       marked_by := marked_by r;
       modified_by := Some faculty_id;
       modification_reason := Some reason |}
  else r.

Definition edit_attendance (db : database) (record_id : Z) (new_status : status)
    (faculty_id reason : string) : database :=
  {| qr_codes := qr_codes db;
     attendance := map (update_row record_id new_status faculty_id reason)
                       (attendance db) |}.
End AttendanceStore.

(** ** RedemptionEngine: [student_app] *)

Section Redemption.
Context {P : Platform}.

(** What the page says about the validity of the scanned code. *)
Inductive validity : Type :=
| QRExpired (expires : Z)       (* the warning "QR Code expired at ..." *)
| ValidUntil (expires : Z)
| ValidityChecking.

(** What the page ends on. *)
Inductive outcome : Type :=
| AwaitingUpload
| Unreadable (debug : bool)     (* "Unable to read QR code!" *)
| ApplicationError              (* an exception leaves [student_app] *)
| InvalidQRCode                 (* "not found in the system or has been deactivated" *)
| DetailsForm                   (* the form, not submitted *)
| MissingDetails                (* "Please enter both your name and roll number!" *)
| AlreadyMarked                 (* "You have already marked attendance ..." *)
| OutOfRange (distance : float) (* "Location verification failed!" *)
| Accepted (distance : float)   (* "Attendance marked successfully!" *)
| DatabaseError.                (* an exception inside the [try] *)

(** The readings of [datetime.now()]: for the validity line, for the
    duplicate query and for the timestamp of the new row. *)
Record clock : Type := {
  now_display : Z;
  now_check : Z;
  now_commit : Z
}.

Record attendance_form : Type := {
  submit_attendance : bool;
  form_student_name : string;
  form_student_roll : string;
  student_lat : float;
  student_lon : float
}.

(** The [try] around the expiry line: any failure shows "Checking...". *)
Definition shown_validity (qr_data : json) (now : Z) : validity :=
  match getitem qr_data "expires_at" with
  | Some (JStr s) =>
      match fromisoformat s with
      | Some expires_at =>
          if (now >? expires_at)%Z then QRExpired expires_at
          else ValidUntil expires_at
      | None => ValidityChecking
      end
  | _ => ValidityChecking
  end.

(** Where the reads of an attempt leave it: on a final page, or about to
    insert. *)
Inductive pending : Type :=
| Finished (o : outcome)
| ToInsert (distance : float) (v : insert_values).

(** The body of the [try]: lookup, form, duplicate query, distance. *)
Definition verify_and_check (db : database)
    (qr_data subject period latitude longitude : json)
    (clk : clock) (frm : attendance_form) (dev : string) : option pending :=
  id <- getitem qr_data "qr_id" ;;
  key <- sql_bind id ;;
  match select_active_qr (qr_codes db) key with
  | None => Some (Finished InvalidQRCode)
  | Some qr_record =>
      let name := strip (form_student_name frm) in
      let roll := strip (form_student_roll frm) in
      if submit_attendance frm && negb (name =? "") && negb (roll =? "") then
        let today := date_of (now_check clk) in
        s <- sql_bind subject ;;
        p <- sql_bind period ;;
        let existing_count := count_attendance (attendance db) name s p today in
        if (existing_count >? 0)%Z then Some (Finished AlreadyMarked)
        else
          lat <- py_float latitude ;;
          lon <- py_float longitude ;;
          distance <- calculate_distance lat lon (student_lat frm) (student_lon frm) ;;
          if (distance <=? 1000)%float then
            Some (ToInsert distance
                    {| v_student_name := name;
                       v_student_roll := roll;
                       v_subject := s;
                       v_period := p;
                       v_timestamp := now_commit clk;
                       v_device_id := dev;
                       v_student_latitude := student_lat frm;
                       v_student_longitude := student_lon frm;
                       v_qr_latitude := latitude;
                       v_qr_longitude := longitude |})
          else Some (Finished (OutOfRange distance))
      else if submit_attendance frm then Some (Finished MissingDetails)
      else Some (Finished DetailsForm)
  end.

(** Everything [student_app] does with a decoded payload before it writes:
    the test [qr_data and 'qr_id' in qr_data], the display of the four
    fields, the validity line, and the [try]. *)
Definition redeem_check (db : database) (qr_data : json) (clk : clock)
    (frm : attendance_form) (dev : string) : option validity * pending :=
  match (if truthy qr_data then contains "qr_id" qr_data else Some false) with
  | None => (None, Finished ApplicationError)
  | Some false => (None, Finished (Unreadable (truthy qr_data)))
  | Some true =>
      match getitem qr_data "subject", getitem qr_data "period",
            getitem qr_data "latitude", getitem qr_data "longitude" with
      | Some subject, Some period, Some latitude, Some longitude =>
          (Some (shown_validity qr_data (now_display clk)),
           match verify_and_check db qr_data subject period latitude longitude
                   clk frm dev with
           | Some p => p
           | None => Finished DatabaseError
           end)
      | _, _, _, _ => (None, Finished ApplicationError)
      end
  end.

(** The write: the INSERT and its [commit]. *)
Definition redeem_commit (db : database) (p : pending) : outcome * database :=
  match p with
  | Finished o => (o, db)
  | ToInsert distance v =>
      match insert_attendance (attendance db) v with
      | Some rows => (Accepted distance,
                      {| qr_codes := qr_codes db; attendance := rows |})
      | None => (DatabaseError, db)
      end
  end.

(** One attempt on a decoded payload. *)
Definition redeem (db : database) (qr_data : json) (clk : clock)
    (frm : attendance_form) (dev : string) : option validity * outcome * database :=
  let '(note, p) := redeem_check db qr_data clk frm dev in
  let '(o, db') := redeem_commit db p in
  (note, o, db').

(** [student_app]: nothing without an upload, else decode and redeem. *)
Definition student_app (db : database) (uploaded_file : option image)
    (clk : clock) (frm : attendance_form) (dev : string)
    : option validity * outcome * database :=
  match uploaded_file with
  | None => (None, AwaitingUpload, db)
  | Some img => redeem db (read_qr_code img) clk frm dev
  end.
End Redemption.

(** ** Concurrent attempts

    Every attempt runs in a session of its own, on a connection of its own:
    its reads ([redeem_check]) and its write ([redeem_commit]) are separate
    statements, and a schedule says whose turn it is. *)

Section Sessions.
Context {P : Platform}.

Record attempt : Type := {
  at_payload : json;
  at_clock : clock;
  at_form : attendance_form;
  at_device : string
}.

Inductive session : Type :=
| Scanned (a : attempt)
| Checked (p : pending)
| Shown (o : outcome).

Definition step (db : database) (s : session) : session * database :=
  match s with
  | Scanned a =>
      (Checked (snd (redeem_check db (at_payload a) (at_clock a) (at_form a)
                       (at_device a))), db)
  | Checked p => let '(o, db') := redeem_commit db p in (Shown o, db')
  | Shown o => (Shown o, db)
  end.

Inductive turn : Type := First | Second.

Fixpoint run (schedule : list turn) (db : database) (s1 s2 : session)
    : session * session * database :=
  match schedule with
  | [] => (s1, s2, db)
  | First :: rest => let '(s1', db') := step db s1 in run rest db' s1' s2
  | Second :: rest => let '(s2', db') := step db s2 in run rest db' s1 s2'
  end.
End Sessions.

(** ** Predicates of the statements *)

Section Predicates.
Context {P : Platform}.

(** The decoded payload carries the fields of an issued token: text for
    the id and the classifiers, floats for the anchor. *)
Definition carries (qr_data : json) (id subject period : string)
    (latitude longitude : float) : Prop :=
  getitem qr_data "qr_id" = Some (JStr id)
  /\ getitem qr_data "subject" = Some (JStr subject)
  /\ getitem qr_data "period" = Some (JStr period)
  /\ getitem qr_data "latitude" = Some (JFloat latitude)
  /\ getitem qr_data "longitude" = Some (JFloat longitude).

(** The form was submitted with a name and a roll number. *)
Definition submitted (frm : attendance_form) : Prop :=
  submit_attendance frm = true
  /\ strip (form_student_name frm) <> ""
  /\ strip (form_student_roll frm) <> "".

(** The key of the duplicate query. *)
Definition has_key (name subject period : string) (day : Z)
    (r : attendance_row) : Prop :=
  student_name r = name /\ att_subject r = subject
  /\ att_period r = period /\ date_of (timestamp r) = day.

(** A row written by a redemption. *)
Definition redemption_origin (r : attendance_row) : Prop :=
  marked_by r = Some "student_app".

(** The values of an accepted attempt. *)
Definition accepted_values (subject period : string) (latitude longitude : float)
    (clk : clock) (frm : attendance_form) (dev : string) : insert_values :=
  {| v_student_name := strip (form_student_name frm);
     v_student_roll := strip (form_student_roll frm);
     v_subject := SqlText subject;
     v_period := SqlText period;
     v_timestamp := now_commit clk;
     v_device_id := dev;
     v_student_latitude := student_lat frm;
     v_student_longitude := student_lon frm;
     v_qr_latitude := JFloat latitude;
     v_qr_longitude := JFloat longitude |}.

(** The row an accepted attempt appends to [rows]. *)
Definition accepted_row (rows : list attendance_row) (subject period : string)
    (latitude longitude : float) (clk : clock) (frm : attendance_form)
    (dev : string) : attendance_row :=
  present_row (next_id rows)
    (accepted_values subject period latitude longitude clk frm dev)
    subject period (sql_real latitude) (sql_real longitude).

(** The reads of an attempt on a payload that carries the fields of a
    token, spelled out. *)
Definition token_reads (db : database) (id subject period : string)
    (latitude longitude : float) (clk : clock) (frm : attendance_form)
    (dev : string) : pending :=
  match select_active_qr (qr_codes db) (SqlText id) with
  | None => Finished InvalidQRCode
  | Some _ =>
      let name := strip (form_student_name frm) in
      let roll := strip (form_student_roll frm) in
      if submit_attendance frm && negb (name =? "") && negb (roll =? "") then
        if (count_attendance (attendance db) name (SqlText subject)
              (SqlText period) (date_of (now_check clk)) >? 0)%Z
        then Finished AlreadyMarked
        else
          match calculate_distance latitude longitude (student_lat frm)
                  (student_lon frm) with
          | Some distance =>
              if (distance <=? 1000)%float then
                ToInsert distance
                  (accepted_values subject period latitude longitude clk frm dev)
              else Finished (OutOfRange distance)
          | None => Finished DatabaseError
          end
      else if submit_attendance frm then Finished MissingDetails
      else Finished DetailsForm
  end.

(** What the duplicate query looks at in a row, and where the row comes
    from. *)
Definition row_key (r : attendance_row) : string * string * string * Z * option string :=
  (student_name r, att_subject r, att_period r, date_of (timestamp r), marked_by r).

(** The states the application reaches from an empty attendance table:
    by issuing codes, by attempts of redemption on any decoded payload and
    by administrative edits. *)
Inductive reachable : database -> Prop :=
| reach_fresh (codes : list qr_row) :
    reachable {| qr_codes := codes; attendance := [] |}
| reach_issue (db db' : database) (f : issue_form) (new_id : string) (now : Z)
    (faculty_id : string) (qr_data : json) (img : option image) :
    reachable db ->
    generate_qr_page db f new_id now faculty_id = Issued db' qr_data img ->
    reachable db'
| reach_redeem (db : database) (qr_data : json) (clk : clock)
    (frm : attendance_form) (dev : string) :
    reachable db -> reachable (snd (redeem db qr_data clk frm dev))
| reach_edit (db : database) (record_id : Z) (new_status : status)
    (faculty_id reason : string) :
    reachable db ->
    reachable (edit_attendance db record_id new_status faculty_id reason).
End Predicates.

(** ** A recorded platform

    One classroom scenario, used by the closed examples below: the values
    the libraries return on the arguments that occur in it, as CPython
    returns them (binary64, written in hexadecimal), and an ideal camera: a
    picture either shows the symbol of a text or shows none. *)

Module Recorded.
Local Open Scope float_scope.

Definition lookup1 {A : Type} (table : list (float * A)) (x : float) : option A :=
  option_map snd (find (fun kv => Leibniz.eqb (fst kv) x) table).

Definition lookup2 (table : list (float * float * float)) (y x : float)
    : option float :=
  option_map snd
    (find (fun kv => Leibniz.eqb (fst (fst kv)) y && Leibniz.eqb (snd (fst kv)) x)
          table).

Definition sin_table : list (float * float) :=
  [ (0, 0);
    (0x1.e3262dd032a41p-14, 0x1.e3262dbe457d3p-14);
    (0x1.a4ece5f94368ap-14, 0x1.a4ece5ed68ca3p-14);
    (-0x1.e3262dd032a41p-14, -0x1.e3262dbe457d3p-14);
    (-0x1.a4ece5f94368ap-14, -0x1.a4ece5ed68ca3p-14);
    (-0x1.becde5da115a9p-1, -0x1.8836fa2cf5039p-1);
    (-0x1.849a4877eb758p+0, -0x1.ff49384a19ec6p-1);
    (0x1.921fb54442d18p+0, 1) ].

Definition cos_table : list (float * float) :=
  [ (0, 1);
    (0x1.3c19fd7362a55p-2, 0x1.e7cc6c561c8d0p-1);
    (0x1.3c5662391cabap-2, 0x1.e7c33ee449408p-1);
    (0x1.becde5da115a9p+0, -0x1.63a1a7e0b7388p-3);
    (0x1.849a4877eb758p+0, 0x1.b07a1b7d87459p-5);
    (-0x1.849a4877eb758p+0, 0x1.b07a1b7d87459p-5) ].

Definition square_table : list (float * float) :=
  [ (0, 0);
    (1, 1);
    (0x1.e3262dbe457d3p-14, 0x1.c7ec8b26cb6fcp-27);
    (0x1.a4ece5ed68ca3p-14, 0x1.5a0d16d5de09ap-27);
    (-0x1.e3262dbe457d3p-14, 0x1.c7ec8b26cb6fcp-27);
    (-0x1.a4ece5ed68ca3p-14, 0x1.5a0d16d5de09ap-27);
    (-0x1.8836fa2cf5039p-1, 0x1.2c7434fc16e71p-1);
    (-0x1.ff49384a19ec6p-1, 0x1.fe92b1d47d108p-1) ].

Definition atan2_table : list (float * float * float) :=
  [ (0, 1, 0);
    (0x1.39f1e05897795p-13, 0x1.ffffff9fbfa93p-1, 0x1.39f1e06c43bddp-13);
    (0x1.8836fa2cf5039p-1, 0x1.491b7523c161dp-1, 0x1.becde5da115a9p-1) ].

Definition repr_table : list (float * string) :=
  [ (17.6868, "17.6868"); (83.2185, "83.2185");
    (17.70, "17.7"); (83.23, "83.23") ].

Definition iso_table : list (Z * string) :=
  [ (1709546400250000%Z, "2024-03-04T10:00:00.250000");
    (1709548200250000%Z, "2024-03-04T10:30:00.250000") ].

Definition float_repr (f : float) : string :=
  match lookup1 repr_table f with Some s => s | None => "nan" end.

(** A double quote. *)
Definition dq : string := String (ascii_of_nat 34) EmptyString.
Definition quoted (s : string) : string := dq ++ s ++ dq.

Definition dumps_scalar (v : json) : string :=
  match v with
  | JStr s => quoted s
  | JFloat f => float_repr f
  | _ => "null"
  end.

Fixpoint dumps_items (items : list (string * json)) : string :=
  match items with
  | [] => ""
  | [(k, v)] => quoted k ++ ": " ++ dumps_scalar v
  | (k, v) :: rest => quoted k ++ ": " ++ dumps_scalar v ++ ", " ++ dumps_items rest
  end.

(** [json.dumps] on a flat object of plain strings and recorded floats. *)
Definition dumps (v : json) : string :=
  match v with
  | JObj items => "{" ++ dumps_items items ++ "}"
  | _ => dumps_scalar v
  end.

Inductive picture : Type :=
| Symbol (text : string)
| Blank.

(** The payloads that occur in the scenario. *)
Definition class_id : string := "3f2b8c1e-0d4a-4c7e-9b1a-5e6f7a8b9c0d".
Definition issued_at : Z := 1709546400250000.
Definition expires : Z := 1709548200250000.

Definition class_payload : json :=
  JObj [ ("qr_id", JStr class_id);
         ("subject", JStr "Mathematics");
         ("period", JStr "Period 1");
         ("latitude", JFloat 17.6868);
         ("longitude", JFloat 83.2185);
         ("created_at", JStr "2024-03-04T10:00:00.250000");
         ("expires_at", JStr "2024-03-04T10:30:00.250000") ].

(** A payload that carries an id and nothing else. *)
Definition bare_payload : json := JObj [ ("qr_id", JStr class_id) ].

Definition loads (text : string) : option json :=
  find (fun v => dumps v =? text)%string [class_payload; bare_payload].

#[local] Instance platform : Platform := {|
  math_sin := lookup1 sin_table;
  math_cos := lookup1 cos_table;
  math_atan2 := lookup2 atan2_table;
  float_pow := fun x n => if (n =? 2)%Z then lookup1 square_table x else None;
  float_of_str := fun s =>
    option_map fst (find (fun kv => snd kv =? s)%string repr_table);
  fromisoformat := fun s =>
    option_map fst (find (fun kv => snd kv =? s)%string iso_table);
  isoformat := fun t =>
    match find (fun kv => (fst kv =? t)%Z) iso_table with
    | Some kv => snd kv
    | None => ""
    end;
  sqlite_real_text := float_repr;
  json_dumps := dumps;
  json_loads := loads;
  image := picture;
  qr_make_image := fun text =>
    if (length text <=? 2331)%nat then Some (Symbol text) else None;
  detectAndDecode := fun img =>
    match img with
    | Symbol text => Some (text, true)
    | Blank => Some ("", false)
    end
|}.

(** A platform that computes everywhere, with the small-angle
    approximations [sin x = x], [cos x = 1] and [atan2(y, x) = y]. *)
Definition small_angle : Platform := {|
  math_sin := fun x => Some x;
  math_cos := fun _ => Some 1;
  math_atan2 := fun y _ => Some y;
  float_pow := fun x n => if (n =? 2)%Z then Some (x * x) else None;
  float_of_str := @float_of_str platform;
  fromisoformat := @fromisoformat platform;
  isoformat := @isoformat platform;
  sqlite_real_text := float_repr;
  json_dumps := dumps;
  json_loads := loads;
  image := picture;
  qr_make_image := @qr_make_image platform;
  detectAndDecode := @detectAndDecode platform
|}.

Definition class_row : qr_row :=
  {| qr_id := class_id; qr_subject := "Mathematics"; qr_period := "Period 1";
     qr_latitude := 17.6868; qr_longitude := 83.2185;
     qr_created_at := issued_at; qr_expires_at := expires;
     qr_created_by := Some "FAC001"; is_active := true |}.

Definition class_db : database :=
  {| qr_codes := [class_row]; attendance := [] |}.

(** The claimant stands at the anchor. *)
Definition john_at_anchor : attendance_form :=
  {| submit_attendance := true;
     form_student_name := " John Smith ";
     form_student_roll := "2024001";
     student_lat := 17.6868;
     student_lon := 83.2185 |}.

(** The claimant stands at (17.70, 83.23). *)
Definition john_far_away : attendance_form :=
  {| submit_attendance := true;
     form_student_name := "John Smith";
     form_student_roll := "2024001";
     student_lat := 17.70;
     student_lon := 83.23 |}.

(** 10:05 on the day of issue, inside the window. *)
Definition in_time : clock :=
  {| now_display := 1709546700000000;
     now_check := 1709546701500000;
     now_commit := 1709546702750000 |}.

(** 11:45 on the same day, after [expires]. *)
Definition too_late : clock :=
  {| now_display := 1709552700000000;
     now_check := 1709552701000000;
     now_commit := 1709552702000000 |}.

Definition device : string := "0b9d6f2a-7c3e-4f1b-8a5d-2e4c6a8b0d1f".
Definition device' : string := "5a1c3e7b-9d2f-4b6a-a8c0-1f3e5d7b9a2c".

Definition john_row (t : Z) (dev : string) (id : Z) : attendance_row :=
  {| att_id := id; student_name := "John Smith";
     student_roll := Some "2024001";
     att_subject := "Mathematics"; att_period := "Period 1";
     timestamp := t; device_id := dev;
     student_latitude := SqlReal 17.6868;
     student_longitude := SqlReal 83.2185;
     att_qr_latitude := SqlReal 17.6868;
     att_qr_longitude := SqlReal 83.2185;
     att_status := present; marked_by := Some "student_app";
     modified_by := None; modification_reason := None |}.

(** A second reading of the clock, a minute later. *)
Definition a_minute_later : clock :=
  {| now_display := 1709546760000000;
     now_check := 1709546761000000;
     now_commit := 1709546762000000 |}.

(** The picture the teacher shows and the picture of the bare payload. *)
Definition class_picture : picture := Symbol (dumps class_payload).

Definition first_scan : attempt :=
  {| at_payload := class_payload; at_clock := in_time;
     at_form := john_at_anchor; at_device := device |}.

Definition second_scan : attempt :=
  {| at_payload := class_payload; at_clock := a_minute_later;
     at_form := john_at_anchor; at_device := device' |}.

(** The table after the first scan. *)
Definition after_first_scan : database :=
  snd (redeem class_db class_payload in_time john_at_anchor device).

(** The row of the class, deactivated; and a row under the same id whose
    other columns differ. *)
Definition deactivated_row : qr_row :=
  {| qr_id := class_id; qr_subject := "Mathematics"; qr_period := "Period 1";
     qr_latitude := 17.6868; qr_longitude := 83.2185;
     qr_created_at := issued_at; qr_expires_at := expires;
     qr_created_by := Some "FAC001"; is_active := false |}.

Definition altered_row : qr_row :=
  {| qr_id := class_id; qr_subject := "Physics"; qr_period := "Period 6";
     qr_latitude := 0; qr_longitude := 0;
     qr_created_at := 0; qr_expires_at := 1;
     qr_created_by := None; is_active := true |}.
End Recorded.

(** ** Predicates on stored records *)

Section RecordPredicates.
Context {P : Platform}.

(** A text as [str.strip] leaves it, and not empty. *)
Definition trimmed (s : string) : Prop := s <> "" /\ strip s = s.

(** What every record written by [student_app] looks like. *)
Definition well_formed_record (r : attendance_row) : Prop :=
  (0 < att_id r)%Z
  /\ trimmed (student_name r)
  /\ (exists roll, student_roll r = Some roll /\ trimmed roll)
  /\ marked_by r = Some "student_app".

(** The page "Attendance marked successfully". *)
Definition is_accepted (o : outcome) : bool :=
  match o with
  | Accepted _ => true
  | _ => false
  end.

(** The row [r] after the UPDATE of [edit_attendance]. *)
Definition edited (new_status : status) (faculty_id reason : string)
    (r : attendance_row) : attendance_row :=
  {| att_id := att_id r;
     student_name := student_name r;
     student_roll := student_roll r;
     att_subject := att_subject r;
     att_period := att_period r;
     timestamp := timestamp r;
     device_id := device_id r;
     student_latitude := student_latitude r;
     student_longitude := student_longitude r;
     att_qr_latitude := att_qr_latitude r;
     att_qr_longitude := att_qr_longitude r;
     att_status := new_status;
     marked_by := marked_by r;
     modified_by := Some faculty_id;
     modification_reason := Some reason |}.

(** The row [generate_qr_page] stores for a submitted form. *)
Definition issued_row (f : issue_form) (new_id : string) (now : Z)
    (faculty_id : string) : qr_row :=
  {| qr_id := new_id; qr_subject := form_subject f;
     qr_period := form_period f;
     qr_latitude := form_latitude f;
     qr_longitude := form_longitude f;
     qr_created_at := now;
     qr_expires_at := (now + duration f * usec_per_minute)%Z;
     qr_created_by := Some faculty_id; is_active := true |}.

(** The causes of the page "Database error" of [student_app]: a value of
    the payload that SQLite cannot bind, a coordinate that [float] rejects,
    an error of the distance computation, or a NULL subject or period. *)
Definition database_error_cause (qr_data : json) (frm : attendance_form) : Prop :=
  (exists id, getitem qr_data "qr_id" = Some id /\ sql_bind id = None)
  \/ (exists v, getitem qr_data "subject" = Some v
                /\ (sql_bind v = None \/ sql_bind v = Some SqlNull))
  \/ (exists v, getitem qr_data "period" = Some v
                /\ (sql_bind v = None \/ sql_bind v = Some SqlNull))
  \/ (exists v, getitem qr_data "latitude" = Some v
                /\ (py_float v = None \/ sql_bind v = None))
  \/ (exists v, getitem qr_data "longitude" = Some v
                /\ (py_float v = None \/ sql_bind v = None))
  \/ (exists latitude longitude lat lon,
        getitem qr_data "latitude" = Some latitude
        /\ getitem qr_data "longitude" = Some longitude
        /\ py_float latitude = Some lat /\ py_float longitude = Some lon
        /\ calculate_distance lat lon (student_lat frm) (student_lon frm) = None).
End RecordPredicates.

(** * The application around the engine

    The accounts, the pages and the routing of [main].  A run of the script
    is a function of the session state, of the database, of the state of
    the widgets in that run and of what the clock and [uuid4] return; it
    ends with a page drawn, with [st.rerun()], or in the handler of [main].
    Calls that only draw (titles, tables, charts) are left out, and with
    them the tables [events], which nothing reads or writes, and the
    columns [id] and [created_at] of the tables below, which nothing
    reads. *)

(** ** The runtime: hashing and case mapping *)

Class Runtime : Type := {
  (** [hashlib.sha256(s.encode()).hexdigest()]. *)
  sha256_hexdigest : string -> string;
  (** [s.upper()]. *)
  str_upper : string -> string
}.

(** ** The tables of accounts, students and announcements *)

Record faculty_row : Type := {
  fac_faculty_id : string;          (* TEXT UNIQUE NOT NULL *)
  fac_name : string;
  fac_email : option string;
  fac_department : option string;
  fac_subjects : option string;
  password_hash : string;
  role : string;                    (* TEXT DEFAULT 'faculty' *)
  fac_is_active : bool;             (* BOOLEAN DEFAULT 1 *)
  last_login : option Z
}.

Record student_row : Type := {
  roll_number : string;             (* TEXT UNIQUE NOT NULL *)
  stu_name : string;
  class_grade : option string;
  stu_department : option string;
  stu_email : option string;
  phone : option string;
  parent_phone : option string;
  stu_is_active : bool
}.

Record announcement_row : Type := {
  title : string;
  message : string;
  target_audience : string;
  priority : string;
  ann_created_by : option string;
  ann_is_active : bool
}.

Record school : Type := {
  tables : database;                (* qr_codes and attendance *)
  faculty : list faculty_row;
  students : list student_row;
  announcements : list announcement_row
}.

(** A database file that was just created. *)
Definition empty_school : school :=
  {| tables := {| qr_codes := []; attendance := [] |};
     faculty := []; students := []; announcements := [] |}.

Definition with_tables (db : school) (t : database) : school :=
  {| tables := t; faculty := faculty db; students := students db;
     announcements := announcements db |}.

Definition with_faculty (db : school) (rows : list faculty_row) : school :=
  {| tables := tables db; faculty := rows; students := students db;
     announcements := announcements db |}.

Definition with_announcements (db : school) (rows : list announcement_row) : school :=
  {| tables := tables db; faculty := faculty db; students := students db;
     announcements := rows |}.

(** ** Accounts *)

Section Accounts.
Context {Rt : Runtime}.

Definition hash_password (password : string) : string :=
  sha256_hexdigest password.

Definition verify_password (password hashed : string) : bool :=
  sha256_hexdigest password =? hashed.

(** [SELECT COUNT] of the rows with role ['admin'], compared with 0. *)
Definition admin_exists (rows : list faculty_row) : bool :=
  (Z.of_nat (List.length (filter (fun r => (role r =? "admin")%string) rows)) >? 0)%Z.

(** [INSERT INTO faculty]: the UNIQUE constraint on [faculty_id]. *)
Definition insert_faculty (rows : list faculty_row) (r : faculty_row)
    : option (list faculty_row) :=
  if existsb (fun r' => fac_faculty_id r' =? fac_faculty_id r) rows then None
  else Some (rows ++ [r])%list.

(** [INSERT INTO students]: the UNIQUE constraint on [roll_number]. *)
Definition insert_student (rows : list student_row) (r : student_row)
    : option (list student_row) :=
  if existsb (fun r' => roll_number r' =? roll_number r) rows then None
  else Some (rows ++ [r])%list.

(** A [for] loop of inserts: the first that raises ends it. *)
Fixpoint insert_all {A : Type} (insert : list A -> A -> option (list A))
    (rows new : list A) : option (list A) :=
  match new with
  | [] => Some rows
  | r :: rest => rows' <- insert rows r ;; insert_all insert rows' rest
  end.

(** The default admin (password: admin123). *)
Definition default_admin : faculty_row :=
  {| fac_faculty_id := "ADMIN001";
     fac_name := "Principal Administrator";
     fac_email := Some "admin@school.edu";
     fac_department := Some "Administration";
     fac_subjects := None;
     password_hash := sha256_hexdigest "admin123";
     role := "admin";
     fac_is_active := true;
     last_login := None |}.

Definition sample_faculty : list (string * string * string * string * string) :=
  [ ("FAC001", "Dr. Smith Johnson", "smith@school.edu", "Mathematics",
     "Mathematics,Algebra,Geometry");
    ("FAC002", "Prof. Emily Davis", "emily@school.edu", "Science",
     "Physics,Chemistry,Biology");
    ("FAC003", "Mr. Robert Wilson", "robert@school.edu", "English",
     "English Literature,Grammar");
    ("FAC004", "Ms. Sarah Brown", "sarah@school.edu", "History",
     "World History,Social Studies");
    ("FAC005", "Dr. Michael Lee", "michael@school.edu", "Computer Science",
     "Programming,Database,Web Development") ].

(** The row of a sample faculty member (password: pass123). *)
Definition sample_faculty_row (f : string * string * string * string * string)
    : faculty_row :=
  let '(id, name, email, department, subjects) := f in
  {| fac_faculty_id := id;
     fac_name := name;
     fac_email := Some email;
     fac_department := Some department;
     fac_subjects := Some subjects;
     password_hash := sha256_hexdigest "pass123";
     role := "faculty";
     fac_is_active := true;
     last_login := None |}.

Definition sample_students
    : list (string * string * string * string * string * string * string) :=
  [ ("2024001", "John Smith", "10-A", "Science", "john@student.edu",
     "9876543210", "9876543211");
    ("2024002", "Jane Doe", "10-A", "Science", "jane@student.edu",
     "9876543212", "9876543213");
    ("2024003", "Bob Johnson", "10-B", "Commerce", "bob@student.edu",
     "9876543214", "9876543215");
    ("2024004", "Alice Wilson", "11-A", "Science", "alice@student.edu",
     "9876543216", "9876543217");
    ("2024005", "Charlie Brown", "11-B", "Arts", "charlie@student.edu",
     "9876543218", "9876543219") ].

Definition sample_student_row
    (s : string * string * string * string * string * string * string)
    : student_row :=
  let '(roll, name, grade, department, email, ph, parent) := s in
  {| roll_number := roll;
     stu_name := name;
     class_grade := Some grade;
     stu_department := Some department;
     stu_email := Some email;
     phone := Some ph;
     parent_phone := Some parent;
     stu_is_active := true |}.

(** [init_database], the tables being created where they do not exist:
    without a row of role ['admin'] it inserts the default admin, the
    sample faculty and the sample students and commits; an insert that
    raises ([None]) leaves the function before its commit. *)
Definition init_database (db : school) : option school :=
  if admin_exists (faculty db) then Some db
  else
    with_admin <- insert_faculty (faculty db) default_admin ;;
    with_samples <- insert_all insert_faculty with_admin
                      (map sample_faculty_row sample_faculty) ;;
    with_students <- insert_all insert_student (students db)
                       (map sample_student_row sample_students) ;;
    Some {| tables := tables db; faculty := with_samples;
            students := with_students; announcements := announcements db |}.

(** *** [user_management]: the form "Add New Faculty" *)

Record add_faculty_form : Type := {
  add_faculty_submitted : bool;
  new_faculty_id : string;
  new_name : string;
  new_email : string;
  new_department : string;
  new_subjects : string;
  new_password : string
}.

Inductive add_faculty_message : Type :=
| NoFacultyMessage
| FacultyAdded                  (* "Faculty ... added successfully!" *)
| FacultyIdExists               (* "Faculty ID already exists!" *)
| RequiredFieldsMissing.        (* "Please fill in required fields!" *)

(** The row the form inserts: role and flag by their defaults. *)
Definition new_faculty_row (f : add_faculty_form) : faculty_row :=
  {| fac_faculty_id := str_upper (new_faculty_id f);
     fac_name := new_name f;
     fac_email := Some (new_email f);
     fac_department := Some (new_department f);
     fac_subjects := Some (new_subjects f);
     password_hash := hash_password (new_password f);
     role := "faculty";
     fac_is_active := true;
     last_login := None |}.

Definition user_management (rows : list faculty_row) (f : add_faculty_form)
    : add_faculty_message * list faculty_row :=
  if add_faculty_submitted f then
    if negb (new_faculty_id f =? "") && negb (new_name f =? "")
       && negb (new_password f =? "") then
      match insert_faculty rows (new_faculty_row f) with
      | Some rows' => (FacultyAdded, rows')
      | None => (FacultyIdExists, rows)
      end
    else (RequiredFieldsMissing, rows)
  else (NoFacultyMessage, rows).

(** *** The lookup and the update of [faculty_login] *)

(** [SELECT ... FROM faculty WHERE faculty_id = ?], then [fetchone()]. *)
Definition select_faculty (rows : list faculty_row) (id : string)
    : option faculty_row :=
  find (fun r => fac_faculty_id r =? id) rows.

(** [UPDATE faculty SET last_login = ? WHERE faculty_id = ?]. *)
Definition touch_last_login (now : Z) (id : string) (r : faculty_row)
    : faculty_row :=
  if fac_faculty_id r =? id then
    {| fac_faculty_id := fac_faculty_id r;
       fac_name := fac_name r;
       fac_email := fac_email r;
       fac_department := fac_department r;
       fac_subjects := fac_subjects r;
       password_hash := password_hash r;
       role := role r;
       fac_is_active := fac_is_active r;
       last_login := Some now |}
  else r.
End Accounts.

(** ** The session state *)

(** [st.session_state]: a key that is absent is [None]. *)
Record session_state : Type := {
  page : option string;
  faculty_logged_in : option bool;
  faculty_id : option string;
  faculty_name : option string;
  faculty_role : option string;
  faculty_department : option (option string);
  edit_record_id : option Z
}.

(** The state of a session that has not run yet. *)
Definition new_session : session_state :=
  {| page := None; faculty_logged_in := None; faculty_id := None;
     faculty_name := None; faculty_role := None; faculty_department := None;
     edit_record_id := None |}.

Definition set_page (s : session_state) (p : string) : session_state :=
  {| page := Some p;
     faculty_logged_in := faculty_logged_in s;
     faculty_id := faculty_id s;
     faculty_name := faculty_name s;
     faculty_role := faculty_role s;
     faculty_department := faculty_department s;
     edit_record_id := edit_record_id s |}.

Definition set_edit_record_id (s : session_state) (v : option Z) : session_state :=
  {| page := page s;
     faculty_logged_in := faculty_logged_in s;
     faculty_id := faculty_id s;
     faculty_name := faculty_name s;
     faculty_role := faculty_role s;
     faculty_department := faculty_department s;
     edit_record_id := v |}.

(** The five assignments of a successful login. *)
Definition log_in (s : session_state) (r : faculty_row) : session_state :=
  {| page := page s;
     faculty_logged_in := Some true;
     faculty_id := Some (fac_faculty_id r);
     faculty_name := Some (fac_name r);
     faculty_role := Some (role r);
     faculty_department := Some (fac_department r);
     edit_record_id := edit_record_id s |}.

(** The loop of the two logout buttons: the five keys are deleted. *)
Definition log_out (s : session_state) : session_state :=
  {| page := page s;
     faculty_logged_in := None;
     faculty_id := None;
     faculty_name := None;
     faculty_role := None;
     faculty_department := None;
     edit_record_id := edit_record_id s |}.

(** The two defaults [main] sets. *)
Definition initialise (s : session_state) : session_state :=
  {| page := Some (match page s with Some p => p | None => "home" end);
     faculty_logged_in :=
       Some (match faculty_logged_in s with Some b => b | None => false end);
     faculty_id := faculty_id s;
     faculty_name := faculty_name s;
     faculty_role := faculty_role s;
     faculty_department := faculty_department s;
     edit_record_id := edit_record_id s |}.

(** [st.session_state.get('faculty_logged_in')] as a condition. *)
Definition logged_in (s : session_state) : bool :=
  match faculty_logged_in s with
  | Some b => b
  | None => false
  end.

(** [st.session_state.get('faculty_role') == 'admin']. *)
Definition is_admin (s : session_state) : bool :=
  match faculty_role s with
  | Some r => r =? "admin"
  | None => false
  end.

(** The page of the button "Back to Dashboard". *)
Definition back_page (s : session_state) : string :=
  if is_admin s then "admin_dashboard" else "faculty_dashboard".

(** ** SQLite's LIKE, ORDER BY and LIMIT *)

(** Upper and lower case are one for LIKE among the ASCII letters. *)
Definition like_fold (c : ascii) : ascii :=
  let n := nat_of_ascii c in
  if ((65 <=? n) && (n <=? 90))%nat then ascii_of_nat (n + 32) else c.

(** [s LIKE pattern]: [%] stands for any run of characters, [_] for one. *)
Fixpoint like (pattern s : string) {struct pattern} : bool :=
  match pattern with
  | EmptyString => match s with EmptyString => true | String _ _ => false end
  | String c rest =>
      if (c =? "%")%char then
        (fix skip (t : string) : bool :=
           like rest t
           || match t with
              | EmptyString => false
              | String _ t' => skip t'
              end) s
      else
        match s with
        | EmptyString => false
        | String d s' =>
            ((c =? "_")%char || (like_fold c =? like_fold d)%char) && like rest s'
        end
  end.

(** [ORDER BY timestamp DESC]; rows with one timestamp keep their order. *)
Fixpoint insert_by_timestamp (r : attendance_row) (sorted : list attendance_row)
    : list attendance_row :=
  match sorted with
  | [] => [r]
  | x :: rest =>
      if (timestamp x <=? timestamp r)%Z then r :: sorted
      else x :: insert_by_timestamp r rest
  end.

Definition order_by_timestamp_desc (rows : list attendance_row)
    : list attendance_row :=
  fold_right insert_by_timestamp [] rows.

(** ** The pages *)

Section Pages.
Context {P : Platform} {Rt : Runtime}.

(** What the clock and [uuid4] return in a run. *)
Record environment : Type := {
  env_now : Z;                  (* [datetime.now()] of the page *)
  env_clock : clock;            (* the readings of [student_app] *)
  env_uuid : string             (* [str(uuid.uuid4())] *)
}.

(** The statistics of [faculty_dashboard]. *)
Record dashboard_stats : Type := {
  qr_today : Z;
  attendance_today : Z;
  avg_attendance : string;
  recent_attendance : list attendance_row
}.

Inductive login_message : Type :=
| NoLoginMessage
| EnterCredentials              (* "Please enter both Faculty ID and Password!" *)
| InvalidPassword               (* "Invalid password!" *)
| InvalidFacultyId.             (* "Invalid Faculty ID or account is inactive!" *)

Inductive announcement_message : Type :=
| NoAnnouncementMessage
| AnnouncementCreated
| FillAllFields.

(** How a run ends. *)
Inductive view : Type :=
| Rerun                         (* [st.rerun()] *)
| Raised                        (* an exception left the page: "Application Error" *)
| HomePage (attendance_today students faculty : Z)
| FacultyLoginPage (m : login_message)
| FacultyDashboardPage (name : string) (department : option string)
    (stats : option dashboard_stats)
| AdminDashboardPage (name : string) (m : add_faculty_message)
    (a : announcement_message)
| GenerateQRPage (qr : option (json * image))
| ViewAttendancePage
| EditAttendancePage (found : list attendance_row)
    (selected : option attendance_row)
| AnalyticsPage
| StudentAppPage (note : option validity) (o : outcome).

(** *** [home_page] *)

Record home_widgets : Type := {
  faculty_login_clicked : bool;
  student_app_clicked : bool
}.

(** [COUNT] of the records with [DATE(timestamp) = ?]. *)
Definition attendance_on (rows : list attendance_row) (today : Z) : Z :=
  Z.of_nat (List.length (filter (fun r => (date_of (timestamp r) =? today)%Z) rows)).

Definition active_students (rows : list student_row) : Z :=
  Z.of_nat (List.length (filter stu_is_active rows)).

Definition active_faculty (rows : list faculty_row) : Z :=
  Z.of_nat (List.length
              (filter (fun r => fac_is_active r && negb (role r =? "admin")%string) rows)).

Definition home_page (s : session_state) (db : school) (w : home_widgets)
    (env : environment) : session_state * school * view :=
  if faculty_login_clicked w then (set_page s "faculty_login", db, Rerun)
  else if student_app_clicked w then (set_page s "student_app", db, Rerun)
  else (s, db, HomePage (attendance_on (attendance (tables db)) (date_of (env_now env)))
                        (active_students (students db))
                        (active_faculty (faculty db))).

(** *** [faculty_login] *)

Record login_widgets : Type := {
  back_to_home : bool;
  faculty_id_input : string;
  password_input : string;
  login_button : bool
}.

Definition faculty_login (s : session_state) (db : school) (w : login_widgets)
    (env : environment) : session_state * school * view :=
  if back_to_home w then (set_page s "home", db, Rerun)
  else if login_button w then
    if (faculty_id_input w =? "") || (password_input w =? "") then
      (s, db, FacultyLoginPage EnterCredentials)
    else
      let id := str_upper (faculty_id_input w) in
      match select_faculty (faculty db) id with
      | Some row =>
          if fac_is_active row then
            if verify_password (password_input w) (password_hash row) then
              let rows := map (touch_last_login (env_now env) id) (faculty db) in
              let s' := log_in s row in
              (set_page s' (if role row =? "admin" then "admin_dashboard"
                            else "faculty_dashboard"),
               with_faculty db rows, Rerun)
            else (s, db, FacultyLoginPage InvalidPassword)
          else (s, db, FacultyLoginPage InvalidFacultyId)
      | None => (s, db, FacultyLoginPage InvalidFacultyId)
      end
  else (s, db, FacultyLoginPage NoLoginMessage).

(** *** [faculty_dashboard] *)

Record faculty_dashboard_widgets : Type := {
  generate_qr_clicked : bool;
  view_records_clicked : bool;
  edit_attendance_clicked : bool;
  analytics_clicked : bool;
  logout_clicked : bool
}.

(** The three queries of the dashboard for the faculty id of the session. *)
Definition dashboard (t : database) (today : Z) (id : string) : dashboard_stats :=
  let issued :=
    filter (fun r => (date_of (qr_created_at r) =? today)%Z
                     && match qr_created_by r with
                        | Some by_whom => by_whom =? id
                        | None => false
                        end) (qr_codes t) in
  let marked r :=
    match marked_by r with
    | Some by_whom => by_whom =? id
    | None => false
    end in
  let attended :=
    filter (fun r => (date_of (timestamp r) =? today)%Z && marked r) (attendance t) in
  {| qr_today := Z.of_nat (List.length issued);
     attendance_today := Z.of_nat (List.length attended);
     avg_attendance :=
       if (Z.of_nat (List.length attended) >? 0)%Z then "85%" else "0%";
     recent_attendance :=
       firstn 10 (order_by_timestamp_desc (filter marked (attendance t))) |}.

Definition faculty_dashboard (s : session_state) (db : school)
    (w : faculty_dashboard_widgets) (env : environment)
    : session_state * school * view :=
  match faculty_name s, faculty_department s with
  | Some name, Some department =>
      if generate_qr_clicked w then (set_page s "generate_qr", db, Rerun)
      else if view_records_clicked w then (set_page s "view_attendance", db, Rerun)
      else if edit_attendance_clicked w then (set_page s "edit_attendance", db, Rerun)
      else if analytics_clicked w then (set_page s "analytics", db, Rerun)
      else if logout_clicked w then (set_page (log_out s) "home", db, Rerun)
      else (s, db,
            FacultyDashboardPage name department
              (option_map (dashboard (tables db) (date_of (env_now env)))
                          (faculty_id s)))
  | _, _ => (s, db, Raised)
  end.

(** *** [admin_dashboard], with [user_management] and
    [announcements_management] in its tabs *)

Record announcement_form : Type := {
  announcement_submitted : bool;
  ann_title : string;
  ann_message : string;
  ann_target : string;
  ann_priority : string
}.

Record admin_dashboard_widgets : Type := {
  admin_logout_clicked : bool;
  generate_new_qr_clicked : bool;
  view_all_attendance_clicked : bool;
  admin_edit_attendance_clicked : bool;
  add_faculty : add_faculty_form;
  new_announcement : announcement_form
}.

(** [announcements_management]: [None] when [st.session_state.faculty_id]
    is read and absent. *)
Definition announcements_management (s : session_state)
    (rows : list announcement_row) (f : announcement_form)
    : option (announcement_message * list announcement_row) :=
  if announcement_submitted f then
    if negb (ann_title f =? "") && negb (ann_message f =? "") then
      match faculty_id s with
      | Some id =>
          Some (AnnouncementCreated,
                (rows ++ [{| title := ann_title f; message := ann_message f;
                             target_audience := ann_target f;
                             priority := ann_priority f;
                             ann_created_by := Some id;
                             ann_is_active := true |}])%list)
      | None => None
      end
    else Some (FillAllFields, rows)
  else Some (NoAnnouncementMessage, rows).

Definition admin_dashboard (s : session_state) (db : school)
    (w : admin_dashboard_widgets) : session_state * school * view :=
  match faculty_name s with
  | Some name =>
      if admin_logout_clicked w then (set_page (log_out s) "home", db, Rerun)
      else if generate_new_qr_clicked w then (set_page s "generate_qr", db, Rerun)
      else if view_all_attendance_clicked w then
        (set_page s "view_attendance", db, Rerun)
      else if admin_edit_attendance_clicked w then
        (set_page s "edit_attendance", db, Rerun)
      else
        let '(m, rows) := user_management (faculty db) (add_faculty w) in
        let db1 := with_faculty db rows in
        match announcements_management s (announcements db1) (new_announcement w) with
        | Some (a, notes) =>
            (s, with_announcements db1 notes, AdminDashboardPage name m a)
        | None => (s, db1, Raised)
        end
  | None => (s, db, Raised)
  end.

(** *** [generate_qr_page], from its back button on *)

Record generate_qr_widgets : Type := {
  back_from_generate : bool;
  qr_generation_form : issue_form
}.

Definition generate_qr_screen (s : session_state) (db : school)
    (w : generate_qr_widgets) (env : environment)
    : session_state * school * view :=
  if back_from_generate w then (set_page s (back_page s), db, Rerun)
  else
    let f := qr_generation_form w in
    if generate_button f && negb (form_subject f =? "") then
      match faculty_id s with
      | Some id =>
          match generate_qr_page (tables db) f (env_uuid env) (env_now env) id with
          | Issued t qr_data (Some img) =>
              match faculty_name s with
              | Some _ => (s, with_tables db t, GenerateQRPage (Some (qr_data, img)))
              | None => (s, with_tables db t, Raised)
              end
          | Issued t qr_data None => (s, with_tables db t, Raised)
          | IssueRaised => (s, db, Raised)
          | NothingIssued => (s, db, GenerateQRPage None)
          end
      | None => (s, db, Raised)
      end
    else (s, db, GenerateQRPage None).

(** *** [view_attendance] and [analytics]: the back button; the tables and
    charts are drawn by pandas and plotly. *)

Definition view_attendance (s : session_state) (db : school) (back : bool)
    : session_state * school * view :=
  if back then (set_page s (back_page s), db, Rerun)
  else (s, db, ViewAttendancePage).

Definition analytics (s : session_state) (db : school) (back : bool)
    : session_state * school * view :=
  if back then (set_page s (back_page s), db, Rerun)
  else (s, db, AnalyticsPage).

(** *** [edit_attendance]: the search, the selection and the form *)

Record edit_widgets : Type := {
  back_from_edit : bool;
  search_name : string;
  search_subject : string;
  search_date : option Z;               (* the day of [st.date_input] *)
  edit_clicked : Z -> bool;             (* the button "Edit" of a record *)
  new_status : status;
  reason_input : string;
  save_changes : bool;
  cancel : bool
}.

(** The query the page builds, with its parameters. *)
Definition search_attendance (rows : list attendance_row) (w : edit_widgets)
    : list attendance_row :=
  let by_name r :=
    if search_name w =? "" then true
    else like ("%" ++ search_name w ++ "%") (student_name r) in
  let by_subject r :=
    if search_subject w =? "" then true
    else like ("%" ++ search_subject w ++ "%") (att_subject r) in
  let by_date r :=
    match search_date w with
    | Some day => (date_of (timestamp r) =? day)%Z
    | None => true
    end in
  firstn 50
    (order_by_timestamp_desc
       (filter (fun r => by_name r && by_subject r && by_date r) rows)).

Definition edit_attendance_screen (s : session_state) (db : school)
    (w : edit_widgets) : session_state * school * view :=
  if back_from_edit w then (set_page s (back_page s), db, Rerun)
  else
    let df := search_attendance (attendance (tables db)) w in
    match df with
    | [] => (s, db, EditAttendancePage [] None)
    | _ :: _ =>
        let clicked :=
          fold_left (fun selected r =>
                       if edit_clicked w (att_id r) then Some (att_id r)
                       else selected)
                    df (edit_record_id s) in
        let s1 := set_edit_record_id s clicked in
        match clicked with
        | None => (s1, db, EditAttendancePage df None)
        | Some record_id =>
            match find (fun r => (att_id r =? record_id)%Z) df with
            | None => (s1, db, Raised)
            | Some selected_record =>
                if save_changes w then
                  match faculty_id s1 with
                  | Some id =>
                      (set_edit_record_id s1 None,
                       with_tables db
                         (edit_attendance (tables db) record_id (new_status w) id
                            (reason_input w)),
                       Rerun)
                  | None => (s1, db, Raised)
                  end
                else if cancel w then (set_edit_record_id s1 None, db, Rerun)
                else (s1, db, EditAttendancePage df (Some selected_record))
            end
        end
    end.

(** *** [student_app], from its back button on *)

Record student_widgets : Type := {
  back_from_student : bool;
  uploaded_file : option image;
  attendance_details : attendance_form
}.

Definition student_app_screen (s : session_state) (db : school)
    (w : student_widgets) (env : environment) : session_state * school * view :=
  if back_from_student w then (set_page s "home", db, Rerun)
  else
    let '(note, o, t) :=
      student_app (tables db) (uploaded_file w) (env_clock env)
        (attendance_details w) (env_uuid env) in
    match o with
    | ApplicationError => (s, with_tables db t, Raised)
    | _ => (s, with_tables db t, StudentAppPage note o)
    end.

(** *** [main] *)

Record widgets : Type := {
  on_home : home_widgets;
  on_login : login_widgets;
  on_faculty_dashboard : faculty_dashboard_widgets;
  on_admin_dashboard : admin_dashboard_widgets;
  on_generate_qr : generate_qr_widgets;
  back_from_view : bool;
  on_edit : edit_widgets;
  back_from_analytics : bool;
  on_student : student_widgets
}.

(** The routing of [main]. *)
Definition route (s : session_state) (db : school) (w : widgets)
    (env : environment) : session_state * school * view :=
  let p := match page s with Some p => p | None => "home" end in
  if p =? "home" then home_page s db (on_home w) env
  else if p =? "faculty_login" then faculty_login s db (on_login w) env
  else if (p =? "faculty_dashboard") && logged_in s then
    faculty_dashboard s db (on_faculty_dashboard w) env
  else if (p =? "admin_dashboard") && logged_in s && is_admin s then
    admin_dashboard s db (on_admin_dashboard w)
  else if (p =? "generate_qr") && logged_in s then
    generate_qr_screen s db (on_generate_qr w) env
  else if (p =? "view_attendance") && logged_in s then
    view_attendance s db (back_from_view w)
  else if (p =? "edit_attendance") && logged_in s then
    edit_attendance_screen s db (on_edit w)
  else if (p =? "analytics") && logged_in s then
    analytics s db (back_from_analytics w)
  else if p =? "student_app" then student_app_screen s db (on_student w) env
  else (set_page s "home", db, Rerun).

(** One run of the script: [None] when [init_database] raises, which no
    handler catches. *)
Definition main (s : session_state) (db : school) (w : widgets)
    (env : environment) : option (session_state * school * view) :=
  db0 <- init_database db ;;
  let '(s', db', v) := route (initialise s) db0 w env in
  match v with
  | Raised => Some (set_page s' "home", db', Raised)
  | _ => Some (s', db', v)
  end.

(** The sessions of an installation: browsers connect to a database file
    that starts empty, and their runs are taken one at a time. *)
Inductive installed : list session_state -> school -> Prop :=
| installed_fresh : installed [] empty_school
| installed_connect (pool : list session_state) (db : school) :
    installed pool db -> installed (pool ++ [new_session])%list db
| installed_run (before after : list session_state) (s s' : session_state)
    (db db' : school) (w : widgets) (env : environment) (v : view) :
    installed (before ++ s :: after)%list db ->
    main s db w env = Some (s', db', v) ->
    installed (before ++ s' :: after)%list db'.

(** The page that draws a view; none for a rerun or the handler. *)
Definition drawn_by (v : view) : string :=
  match v with
  | Rerun | Raised => ""
  | HomePage _ _ _ => "home"
  | FacultyLoginPage _ => "faculty_login"
  | FacultyDashboardPage _ _ _ => "faculty_dashboard"
  | AdminDashboardPage _ _ _ => "admin_dashboard"
  | GenerateQRPage _ => "generate_qr"
  | ViewAttendancePage => "view_attendance"
  | EditAttendancePage _ _ => "edit_attendance"
  | AnalyticsPage => "analytics"
  | StudentAppPage _ _ => "student_app"
  end.

(** The pages behind the login. *)
Definition protected_pages : list string :=
  ["faculty_dashboard"; "admin_dashboard"; "generate_qr"; "view_attendance";
   "edit_attendance"; "analytics"].

(** What a session keeps of an account. *)
Definition account_of (r : faculty_row) : string * string * string * option string :=
  (fac_faculty_id r, fac_name r, role r, fac_department r).

(** The account a session is logged in as. *)
Definition session_account (s : session_state) (r : faculty_row) : Prop :=
  faculty_id s = Some (fac_faculty_id r)
  /\ faculty_name s = Some (fac_name r)
  /\ faculty_role s = Some (role r)
  /\ faculty_department s = Some (fac_department r).

(** The ids [init_database] inserts. *)
Definition seed_ids : list string :=
  ["ADMIN001"; "FAC001"; "FAC002"; "FAC003"; "FAC004"; "FAC005"].

(** An account of the faculty table is stored under the id. *)
Definition known_account (rows : list faculty_row) (id : string) : Prop :=
  In id (map fac_faculty_id rows).

(** The accounts of an installation: one per id, all active; an id is one
    of the seeds or an upper-cased text; the role is 'faculty', or it is
    'admin' on the default admin with its first password. *)
Definition sound_account (r : faculty_row) : Prop :=
  fac_is_active r = true
  /\ (In (fac_faculty_id r) seed_ids \/ exists x, fac_faculty_id r = str_upper x)
  /\ (role r = "faculty"
      \/ (role r = "admin" /\ fac_faculty_id r = "ADMIN001"
          /\ password_hash r = sha256_hexdigest "admin123")).

Definition sound_accounts (rows : list faculty_row) : Prop :=
  NoDup (map fac_faculty_id rows) /\ Forall sound_account rows.

(** A stored token: active, and created by a stored account. *)
Definition sound_token (rows : list faculty_row) (q : qr_row) : Prop :=
  is_active q = true
  /\ exists id, qr_created_by q = Some id /\ known_account rows id.

(** A stored record: never edited, or edited by a stored account. *)
Definition sound_edit (rows : list faculty_row) (a : attendance_row) : Prop :=
  (modified_by a = None /\ modification_reason a = None)
  \/ exists id, modified_by a = Some id /\ known_account rows id.

Definition sound_tables (rows : list faculty_row) (t : database) : Prop :=
  reachable t
  /\ NoDup (map qr_id (qr_codes t))
  /\ Forall (sound_token rows) (qr_codes t)
  /\ Forall (sound_edit rows) (attendance t).

(** A session that is logged in is logged in as a stored account. *)
Definition sound_session (rows : list faculty_row) (s : session_state) : Prop :=
  logged_in s = true -> exists r, In r rows /\ session_account s r.

Definition sound_installation (pool : list session_state) (db : school) : Prop :=
  (db = empty_school \/ admin_exists (faculty db) = true)
  /\ sound_accounts (faculty db)
  /\ sound_tables (faculty db) (tables db)
  /\ Forall (sound_session (faculty db)) pool.

(** The accounts [rows'] keep every account of [rows], as sessions see
    them. *)
Definition keeps_accounts (rows rows' : list faculty_row) : Prop :=
  incl (map account_of rows) (map account_of rows').

(** A run from [(s, db)] to [(s', db')] keeps the installation sound. *)
Definition step_sound (s : session_state) (db : school) (s' : session_state)
    (db' : school) : Prop :=
  sound_accounts (faculty db) ->
  sound_tables (faculty db) (tables db) ->
  sound_session (faculty db) s ->
  sound_accounts (faculty db')
  /\ sound_tables (faculty db') (tables db')
  /\ sound_session (faculty db') s'
  /\ keeps_accounts (faculty db) (faculty db').
End Pages.

(** ** Scripts: runs of an installation, one after the other *)

Section Scripts.
Context {P : Platform} {Rt : Runtime}.

(** The session at position [i] runs [main]. *)
Definition after_run (pool : list session_state) (db : school) (i : nat)
    (w : widgets) (env : environment) : list session_state * school :=
  match nth_error pool i with
  | Some s =>
      match main s db w env with
      | Some (s', db', _) => ((firstn i pool ++ s' :: skipn (S i) pool)%list, db')
      | None => (pool, db)
      end
  | None => (pool, db)
  end.

Fixpoint play (script : list (nat * widgets * environment))
    (pool : list session_state) (db : school) : list session_state * school :=
  match script with
  | [] => (pool, db)
  | (i, w, env) :: rest =>
      let '(pool', db') := after_run pool db i w env in
      play rest pool' db'
  end.
End Scripts.

(** ** A recorded installation

    The runtime on the texts that occur in the examples: the SHA-256
    digests as [hashlib] returns them and [upper] on ASCII; and a day of an
    installation: the administrator adds an account, publishes an
    announcement and issues the code of the class, a student redeems it,
    the administrator edits the record, and a faculty member opens the
    dashboard. *)

Module RecordedSchool.
Import Recorded.

Definition upper_ascii (c : ascii) : ascii :=
  let n := nat_of_ascii c in
  if ((97 <=? n) && (n <=? 122))%nat then ascii_of_nat (n - 32) else c.

Fixpoint upper (s : string) : string :=
  match s with
  | EmptyString => EmptyString
  | String c rest => String (upper_ascii c) (upper rest)
  end.

Definition sha256_table : list (string * string) :=
  [ ("admin123",
     "240be518fabd2724ddb6f04eeb1da5967448d7e831c08c8fa822809f74c720a9");
    ("pass123",
     "9b8769a4a742959a2d0298c36fb70623f2dfacda8436237df08d8dfd5b37374c");
    ("s3cret!",
     "5cb7b35eb7ae9bbd505baa5cde3fb64c1e9a5e8862072013989c0a557ab9eaa2") ].

Definition sha256 (s : string) : string :=
  match find (fun kv => fst kv =? s) sha256_table with
  | Some kv => snd kv
  | None => ""
  end.

#[local] Instance runtime : Runtime := {|
  sha256_hexdigest := sha256;
  str_upper := upper
|}.

#[local] Existing Instance Recorded.platform.

(** The widgets of a run in which nothing is pressed. *)
Definition no_login : login_widgets :=
  {| back_to_home := false; faculty_id_input := ""; password_input := "";
     login_button := false |}.

Definition no_faculty_form : add_faculty_form :=
  {| add_faculty_submitted := false; new_faculty_id := ""; new_name := "";
     new_email := ""; new_department := ""; new_subjects := "";
     new_password := "" |}.

Definition no_announcement : announcement_form :=
  {| announcement_submitted := false; ann_title := ""; ann_message := "";
     ann_target := "all"; ann_priority := "high" |}.

Definition no_issue : issue_form :=
  {| generate_button := false; form_subject := ""; form_period := "Period 1";
     form_latitude := 17.6868; form_longitude := 83.2185; duration := 30 |}.

Definition no_edit : edit_widgets :=
  {| back_from_edit := false; search_name := ""; search_subject := "";
     search_date := Some 19786; edit_clicked := fun _ => false;
     new_status := present; reason_input := ""; save_changes := false;
     cancel := false |}.

Definition no_details : attendance_form :=
  {| submit_attendance := false; form_student_name := "";
     form_student_roll := ""; student_lat := 17.6868; student_lon := 83.2185 |}.

Definition idle : widgets :=
  {| on_home := {| faculty_login_clicked := false; student_app_clicked := false |};
     on_login := no_login;
     on_faculty_dashboard :=
       {| generate_qr_clicked := false; view_records_clicked := false;
          edit_attendance_clicked := false; analytics_clicked := false;
          logout_clicked := false |};
     on_admin_dashboard :=
       {| admin_logout_clicked := false; generate_new_qr_clicked := false;
          view_all_attendance_clicked := false;
          admin_edit_attendance_clicked := false;
          add_faculty := no_faculty_form; new_announcement := no_announcement |};
     on_generate_qr := {| back_from_generate := false; qr_generation_form := no_issue |};
     back_from_view := false;
     on_edit := no_edit;
     back_from_analytics := false;
     on_student :=
       {| back_from_student := false; uploaded_file := None;
          attendance_details := no_details |} |}.

Definition at_home (h : home_widgets) : widgets :=
  {| on_home := h; on_login := on_login idle;
     on_faculty_dashboard := on_faculty_dashboard idle;
     on_admin_dashboard := on_admin_dashboard idle;
     on_generate_qr := on_generate_qr idle; back_from_view := false;
     on_edit := on_edit idle; back_from_analytics := false;
     on_student := on_student idle |}.

Definition at_login (l : login_widgets) : widgets :=
  {| on_home := on_home idle; on_login := l;
     on_faculty_dashboard := on_faculty_dashboard idle;
     on_admin_dashboard := on_admin_dashboard idle;
     on_generate_qr := on_generate_qr idle; back_from_view := false;
     on_edit := on_edit idle; back_from_analytics := false;
     on_student := on_student idle |}.

Definition at_admin_dashboard (a : admin_dashboard_widgets) : widgets :=
  {| on_home := on_home idle; on_login := on_login idle;
     on_faculty_dashboard := on_faculty_dashboard idle;
     on_admin_dashboard := a;
     on_generate_qr := on_generate_qr idle; back_from_view := false;
     on_edit := on_edit idle; back_from_analytics := false;
     on_student := on_student idle |}.

Definition at_generate_qr (g : generate_qr_widgets) : widgets :=
  {| on_home := on_home idle; on_login := on_login idle;
     on_faculty_dashboard := on_faculty_dashboard idle;
     on_admin_dashboard := on_admin_dashboard idle;
     on_generate_qr := g; back_from_view := false;
     on_edit := on_edit idle; back_from_analytics := false;
     on_student := on_student idle |}.

Definition at_edit (e : edit_widgets) : widgets :=
  {| on_home := on_home idle; on_login := on_login idle;
     on_faculty_dashboard := on_faculty_dashboard idle;
     on_admin_dashboard := on_admin_dashboard idle;
     on_generate_qr := on_generate_qr idle; back_from_view := false;
     on_edit := e; back_from_analytics := false;
     on_student := on_student idle |}.

Definition at_student (st : student_widgets) : widgets :=
  {| on_home := on_home idle; on_login := on_login idle;
     on_faculty_dashboard := on_faculty_dashboard idle;
     on_admin_dashboard := on_admin_dashboard idle;
     on_generate_qr := on_generate_qr idle; back_from_view := false;
     on_edit := on_edit idle; back_from_analytics := false;
     on_student := st |}.

(** The buttons and forms of the day. *)
Definition press_faculty_login : widgets :=
  at_home {| faculty_login_clicked := true; student_app_clicked := false |}.

Definition press_student_app : widgets :=
  at_home {| faculty_login_clicked := false; student_app_clicked := true |}.

Definition admin_credentials : login_widgets :=
  {| back_to_home := false; faculty_id_input := "admin001";
     password_input := "admin123"; login_button := true |}.

Definition smith_credentials : login_widgets :=
  {| back_to_home := false; faculty_id_input := "FAC001";
     password_input := "pass123"; login_button := true |}.

Definition wrong_password : login_widgets :=
  {| back_to_home := false; faculty_id_input := "FAC001";
     password_input := "admin123"; login_button := true |}.

Definition new_teacher : add_faculty_form :=
  {| add_faculty_submitted := true; new_faculty_id := "fac100";
     new_name := "Ms. Asha Rao"; new_email := "asha@school.edu";
     new_department := "Mathematics"; new_subjects := "Statistics";
     new_password := "s3cret!" |}.

Definition teacher_credentials : login_widgets :=
  {| back_to_home := false; faculty_id_input := "Fac100";
     password_input := "s3cret!"; login_button := true |}.

Definition add_teacher : widgets :=
  at_admin_dashboard
    {| admin_logout_clicked := false; generate_new_qr_clicked := false;
       view_all_attendance_clicked := false;
       admin_edit_attendance_clicked := false;
       add_faculty := new_teacher; new_announcement := no_announcement |}.

Definition notice : announcement_form :=
  {| announcement_submitted := true; ann_title := "Sports day";
     ann_message := "No classes on Friday afternoon."; ann_target := "all";
     ann_priority := "medium" |}.

Definition publish_notice : widgets :=
  at_admin_dashboard
    {| admin_logout_clicked := false; generate_new_qr_clicked := false;
       view_all_attendance_clicked := false;
       admin_edit_attendance_clicked := false;
       add_faculty := no_faculty_form; new_announcement := notice |}.

Definition press_generate_new_qr : widgets :=
  at_admin_dashboard
    {| admin_logout_clicked := false; generate_new_qr_clicked := true;
       view_all_attendance_clicked := false;
       admin_edit_attendance_clicked := false;
       add_faculty := no_faculty_form; new_announcement := no_announcement |}.

Definition class_form : issue_form :=
  {| generate_button := true; form_subject := "Mathematics";
     form_period := "Period 1"; form_latitude := 17.6868;
     form_longitude := 83.2185; duration := 30 |}.

Definition issue_class_code : widgets :=
  at_generate_qr {| back_from_generate := false; qr_generation_form := class_form |}.

Definition back_to_dashboard : widgets :=
  at_generate_qr {| back_from_generate := true; qr_generation_form := no_issue |}.

Definition press_edit_attendance : widgets :=
  at_admin_dashboard
    {| admin_logout_clicked := false; generate_new_qr_clicked := false;
       view_all_attendance_clicked := false;
       admin_edit_attendance_clicked := true;
       add_faculty := no_faculty_form; new_announcement := no_announcement |}.

Definition scan_class_code : widgets :=
  at_student {| back_from_student := false; uploaded_file := Some class_picture;
                attendance_details := john_at_anchor |}.


(** The search for "john" on the day, with the button "Edit" of record 1. *)
Definition select_john : widgets :=
  at_edit {| back_from_edit := false; search_name := "john"; search_subject := "";
             search_date := Some 19786; edit_clicked := fun id => (id =? 1)%Z;
             new_status := present; reason_input := ""; save_changes := false;
             cancel := false |}.

Definition mark_john_absent : widgets :=
  at_edit {| back_from_edit := false; search_name := "john"; search_subject := "";
             search_date := Some 19786; edit_clicked := fun _ => false;
             new_status := absent; reason_input := "Left early";
             save_changes := true; cancel := false |}.

(** What the clock and [uuid4] return: at the issue of the code, during
    the scan, and an hour later. *)
Definition at_issue : environment :=
  {| env_now := issued_at; env_clock := in_time; env_uuid := class_id |}.

Definition at_scan : environment :=
  {| env_now := now_display in_time; env_clock := in_time; env_uuid := device |}.

Definition at_eleven : environment :=
  {| env_now := 1709550000000000; env_clock := too_late; env_uuid := device' |}.

(** The day: session 0 is the administrator's browser, session 1 a
    student's, session 2 a teacher's. *)
Definition morning : list (nat * widgets * environment) :=
  [ (0%nat, press_faculty_login, at_issue);
    (0%nat, at_login admin_credentials, at_issue);
    (0%nat, add_teacher, at_issue);
    (0%nat, publish_notice, at_issue);
    (0%nat, press_generate_new_qr, at_issue);
    (0%nat, issue_class_code, at_issue);
    (1%nat, press_student_app, at_scan);
    (1%nat, scan_class_code, at_scan);
    (0%nat, back_to_dashboard, at_eleven);
    (0%nat, press_edit_attendance, at_eleven);
    (0%nat, select_john, at_eleven);
    (0%nat, mark_john_absent, at_eleven);
    (2%nat, press_faculty_login, at_eleven);
    (2%nat, at_login smith_credentials, at_eleven) ].

Definition browsers : list session_state :=
  [new_session; new_session; new_session].

Definition noon : list session_state * school :=
  play morning browsers empty_school.

(** The database after the first run, with the seeds. *)
Definition seeded : school :=
  snd (play [(0%nat, idle, at_issue)] browsers empty_school).

(** A payload of the class whose anchor and claimant are nearly antipodal. *)
Definition far_payload : json :=
  JObj [ ("qr_id", JStr class_id);
         ("subject", JStr "Mathematics");
         ("period", JStr "Period 1");
         ("latitude", JFloat 86.9738);
         ("longitude", JFloat (-73.2269));
         ("created_at", JStr "2024-03-04T10:00:00.250000");
         ("expires_at", JStr "2024-03-04T10:30:00.250000") ].

Definition john_at_antipode : attendance_form :=
  {| submit_attendance := true;
     form_student_name := "John Smith";
     form_student_roll := "2024001";
     student_lat := -86.9738;
     student_lon := 106.7731 |}.
End RecordedSchool.

(** * Properties *)

(** ** Binary64: signs and rounding in the specification *)

Section SpecFacts.
Variables prec emax : Z.

Lemma binary_round_aux_opp s m e l :
  binary_round_aux prec emax (negb s) m e l = SFopp (binary_round_aux prec emax s m e l).
Proof.
  unfold binary_round_aux.
  destruct (shr_fexp prec emax m e l) as [mrs' e'].
  destruct (shr_fexp prec emax _ e' loc_Exact) as [mrs'' e''].
  destruct (shr_m mrs''); simpl; try reflexivity.
  destruct (Z.leb e'' (emax - prec)); reflexivity.
Qed.

Lemma binary_round_opp s m e :
  binary_round prec emax (negb s) m e = SFopp (binary_round prec emax s m e).
Proof.
  unfold binary_round. destruct (shl_align _ _ _) as [mz ez].
  apply binary_round_aux_opp.
Qed.

Lemma binary_normalize_opp m e :
  m <> 0%Z ->
  binary_normalize prec emax (- m) e false = SFopp (binary_normalize prec emax m e false).
Proof.
  destruct m; simpl; [congruence| |]; intros _.
  - apply (binary_round_opp false).
  - apply (binary_round_opp true).
Qed.

Lemma SFopp_involutive x : SFopp (SFopp x) = x.
Proof. destruct x; simpl; rewrite ?negb_involutive; reflexivity. Qed.

Lemma SFmul_opp_l x y : SFmul prec emax (SFopp x) y = SFopp (SFmul prec emax x y).
Proof.
  destruct x as [sx|sx| |sx mx ex], y as [sy|sy| |sy my ey]; simpl;
    rewrite <- ?negb_xorb_l; try reflexivity.
  apply binary_round_aux_opp.
Qed.

Lemma SFdiv_opp_l x y : SFdiv prec emax (SFopp x) y = SFopp (SFdiv prec emax x y).
Proof.
  destruct x as [sx|sx| |sx mx ex], y as [sy|sy| |sy my ey]; simpl;
    rewrite <- ?negb_xorb_l; try reflexivity.
  destruct (SFdiv_core_binary prec emax (Z.pos mx) ex (Z.pos my) ey) as [[mz ez] lz].
  apply binary_round_aux_opp.
Qed.

Lemma SFmul_comm x y : SFmul prec emax x y = SFmul prec emax y x.
Proof.
  destruct x as [sx|sx| |sx mx ex], y as [sy|sy| |sy my ey]; simpl;
    rewrite ?(xorb_comm sy sx); try reflexivity.
  now rewrite (Pos.mul_comm my mx), (Z.add_comm ey ex).
Qed.

Lemma SFsub_swap x y :
  SFsub prec emax y x = SFsub prec emax x y
  \/ SFsub prec emax y x = SFopp (SFsub prec emax x y).
Proof.
  destruct x as [sx|sx| |sx mx ex], y as [sy|sy| |sy my ey]; simpl.
  all: try (destruct sx, sy; simpl; auto; fail).
  all: try (destruct sx; simpl; auto; fail).
  all: try (destruct sy; simpl; auto; fail).
  all: auto.
  rewrite (Z.min_comm ey ex).
  set (a := cond_Zopp sx _). set (b := cond_Zopp sy _).
  destruct (Z.eq_dec (a - b) 0) as [E|E].
  - left. replace (b - a)%Z with 0%Z by lia. now rewrite E.
  - right. replace (b - a)%Z with (- (a - b))%Z by lia.
    now apply binary_normalize_opp.
Qed.

Lemma SFsub_diag x :
  match x with S754_zero _ | S754_finite _ _ _ => True | _ => False end ->
  SFsub prec emax x x = S754_zero false.
Proof.
  destruct x as [s|s| |s m e]; simpl; try contradiction; intros _.
  - destruct s; reflexivity.
  - now rewrite Z.sub_diag.
Qed.
End SpecFacts.

(** ** Binary64: comparison, negation, NaN *)

Section FloatFacts.
Local Open Scope float_scope.

Lemma SFcompare_swap (x y : spec_float) (c : comparison) :
  SFcompare x y = Some c -> SFcompare y x = Some (CompOpp c).
Proof.
  destruct x as [sx|sx| |sx mx ex], y as [sy|sy| |sy my ey]; simpl;
    try discriminate;
    try (intros [= <-]; repeat match goal with b : bool |- _ => destruct b end;
         reflexivity).
  intros [= <-]. f_equal.
  rewrite (Z.compare_antisym ey ex).
  pose proof (Pos.compare_cont_antisym mx my Eq) as Hm. simpl in Hm.
  destruct sx, sy; simpl; try reflexivity;
    destruct (ey ?= ex)%Z; simpl; try reflexivity;
    rewrite <- Hm; try rewrite CompOpp_involutive; reflexivity.
Qed.

(** [y < x] excludes [x <= y]. *)
Lemma ltb_leb_false (x y : float) : (y <? x) = true -> (x <=? y) = false.
Proof.
  rewrite ltb_spec, leb_spec. unfold SFltb, SFleb.
  destruct (SFcompare (Prim2SF y) (Prim2SF x)) as [c|] eqn:E; try discriminate.
  apply SFcompare_swap in E. rewrite E.
  destruct c; simpl; congruence.
Qed.

(** Negation goes through products and quotients; products commute. *)
Lemma mul_opp_l x y : (- x) * y = - (x * y).
Proof.
  apply Prim2SF_inj. rewrite opp_spec, !mul_spec, opp_spec. apply SFmul_opp_l.
Qed.

Lemma div_opp_l x y : (- x) / y = - (x / y).
Proof.
  apply Prim2SF_inj. rewrite opp_spec, !div_spec, opp_spec. apply SFdiv_opp_l.
Qed.

Lemma mul_comm x y : x * y = y * x.
Proof. apply Prim2SF_inj. rewrite !mul_spec. apply SFmul_comm. Qed.

Lemma opp_involutive x : - - x = x.
Proof. apply Prim2SF_inj. rewrite !opp_spec. apply SFopp_involutive. Qed.

Lemma mul_opp_opp x y : (- x) * (- y) = x * y.
Proof.
  rewrite mul_opp_l, (mul_comm x (- y)), mul_opp_l, opp_involutive.
  apply mul_comm.
Qed.

Lemma sub_swap x y : y - x = x - y \/ y - x = - (x - y).
Proof.
  destruct (SFsub_swap prec emax (Prim2SF x) (Prim2SF y)) as [H|H]; [left|right];
    apply Prim2SF_inj; rewrite ?opp_spec, !sub_spec; exact H.
Qed.

Lemma finite_spec x :
  finite x = true ->
  match Prim2SF x with S754_zero _ | S754_finite _ _ _ => True | _ => False end.
Proof.
  unfold finite. rewrite ltb_spec, abs_spec.
  destruct (Prim2SF x) as [s|s| |s m e]; simpl; auto; discriminate.
Qed.

Lemma sub_diag x : finite x = true -> x - x = 0.
Proof.
  intros H. apply Prim2SF_inj. rewrite sub_spec. unfold SF64sub.
  now rewrite (SFsub_diag _ _ _ (finite_spec x H)).
Qed.

Lemma square_times_zero c : (c * c <=? 1) = true -> c * c * 0 = 0.
Proof.
  rewrite leb_spec, mul_spec. intros H.
  apply Prim2SF_inj. rewrite !mul_spec. unfold SF64mul in *.
  change (Prim2SF 0) with (S754_zero false).
  change (Prim2SF 1) with (S754_finite false 4503599627370496 (-52)) in H.
  set (p := SFmul prec emax (Prim2SF c) (Prim2SF c)) in *.
  assert (Hsign : match p with
                  | S754_zero s | S754_infinity s | S754_finite s _ _ => s = false
                  | S754_nan => True
                  end).
  { subst p. destruct (Prim2SF c) as [s|s| |s m e]; simpl;
      rewrite ?xorb_nilpotent; auto.
    unfold binary_round_aux.
    destruct (shr_fexp prec emax _ _ _) as [mrs' e'].
    destruct (shr_fexp prec emax _ e' loc_Exact) as [mrs'' e''].
    destruct (shr_m mrs''); simpl; auto.
    match goal with |- context [if ?b then _ else _] => destruct b end; reflexivity. }
  destruct p as [s|s| |s m e]; try subst s; simpl in H; try discriminate;
    reflexivity.
Qed.

Lemma SFcompare_refl (x : spec_float) :
  x <> S754_nan -> SFcompare x x = Some Eq.
Proof.
  destruct x as [s|s| |s m e]; simpl; try congruence; intros _.
  - destruct s; reflexivity.
  - rewrite Z.compare_refl, Pos.compare_cont_refl. destruct s; reflexivity.
Qed.

(** There is one NaN. *)
Lemma is_nan_eq (x : float) : is_nan x = true -> x = nan.
Proof.
  unfold is_nan. rewrite negb_true_iff, eqb_spec. unfold SFeqb. intros H.
  apply Prim2SF_inj. change (Prim2SF nan) with S754_nan.
  destruct (Prim2SF x) as [s|s| |s m e] eqn:E; try reflexivity;
    rewrite SFcompare_refl in H by discriminate; discriminate.
Qed.

Lemma sub_nan_l x : nan - x = nan.
Proof. apply Prim2SF_inj. rewrite sub_spec. reflexivity. Qed.

Lemma sub_nan_r x : x - nan = nan.
Proof.
  apply Prim2SF_inj. rewrite sub_spec. change (Prim2SF nan) with S754_nan.
  destruct (Prim2SF x); reflexivity.
Qed.

Lemma mul_nan_r x : x * nan = nan.
Proof.
  apply Prim2SF_inj. rewrite mul_spec. change (Prim2SF nan) with S754_nan.
  destruct (Prim2SF x); reflexivity.
Qed.

Lemma add_nan_l x : nan + x = nan.
Proof. apply Prim2SF_inj. rewrite add_spec. reflexivity. Qed.

Lemma add_nan_r x : x + nan = nan.
Proof.
  apply Prim2SF_inj. rewrite add_spec. change (Prim2SF nan) with S754_nan.
  destruct (Prim2SF x); reflexivity.
Qed.
End FloatFacts.

(** ** GeoMath *)

Section GeoMathFacts.
Context {P : Platform}.
Local Open Scope float_scope.

Lemma radians_opp (x : float) : math_radians (- x) = - math_radians x.
Proof. apply mul_opp_l. Qed.

Lemma radians_zero_half : math_radians 0 / 2 = 0.
Proof. reflexivity. Qed.

Lemma roots_at_zero :
  math_sqrt (0 + 0) = Some 0 /\ math_sqrt (1 - (0 + 0)) = Some 1 /\ R * (2 * 0) = 0.
Proof. repeat split. Qed.

(** The squared sine of half the difference does not see the order of the
    two angles. *)
Lemma squared_sine_swap (x y : float) (k : float -> option float) :
  libm_conventions ->
  (s <- math_sin (math_radians (x - y) / 2) ;; q <- float_pow s 2 ;; k q)
  = (s <- math_sin (math_radians (y - x) / 2) ;; q <- float_pow s 2 ;; k q).
Proof.
  intros (Hodd & Heven & _).
  destruct (sub_swap y x) as [->| ->]; [reflexivity|].
  rewrite radians_opp, div_opp_l, Hodd.
  destruct (math_sin (math_radians (y - x) / 2)) as [s|]; simpl; [|reflexivity].
  now rewrite Heven.
Qed.

(** C9.  With a C library that keeps its conventions, the distance from [a]
    to [b] and the distance from [b] to [a] are the same result for all
    binary64 coordinates (the same value, or an error both ways), so that
    they compare equal with [==] whenever the value is a number; and the
    distance from a point with finite coordinates to itself is 0. *)
Theorem calculate_distance_symmetric :
  libm_conventions ->
  (forall lat1 lon1 lat2 lon2,
     calculate_distance lat1 lon1 lat2 lon2 = calculate_distance lat2 lon2 lat1 lon1)
  /\ (forall lat1 lon1 lat2 lon2 d,
        calculate_distance lat1 lon1 lat2 lon2 = Some d -> is_nan d = false ->
        exists d', calculate_distance lat2 lon2 lat1 lon1 = Some d' /\ (d =? d') = true)
  /\ (forall lat lon, finite lat = true -> finite lon = true ->
        calculate_distance lat lon lat lon = Some 0).
Proof.
  intros Hlibm.
  assert (Hsym : forall lat1 lon1 lat2 lon2,
             calculate_distance lat1 lon1 lat2 lon2
             = calculate_distance lat2 lon2 lat1 lon1).
  { intros lat1 lon1 lat2 lon2. unfold calculate_distance.
    rewrite (squared_sine_swap lat1 lat2 _ Hlibm).
    destruct (math_sin (math_radians (lat2 - lat1) / 2)) as [s1|]; cbn [bind];
      [|reflexivity].
    destruct (float_pow s1 2) as [q1|]; cbn [bind]; [|reflexivity].
    destruct (math_cos (math_radians lat1)) as [c1|],
             (math_cos (math_radians lat2)) as [c2|]; cbn [bind];
      try reflexivity.
    rewrite (squared_sine_swap lon1 lon2 _ Hlibm).
    destruct (math_sin (math_radians (lon2 - lon1) / 2)) as [s2|]; cbn [bind];
      [|reflexivity].
    destruct (float_pow s2 2) as [q2|]; cbn [bind]; [|reflexivity].
    now rewrite (mul_comm c2 c1). }
  split; [exact Hsym|]. split.
  - intros lat1 lon1 lat2 lon2 d Hd Hnan. exists d. split.
    + now rewrite <- Hsym.
    + unfold is_nan in Hnan. now apply negb_false_iff in Hnan.
  - intros lat lon Hlat Hlon.
    destruct Hlibm as (_ & _ & Hsin & Hpow & Hatan & Hcos).
    destruct (Hcos lat Hlat) as (c & Hc & Hle).
    destruct roots_at_zero as (Hra & Hrb & Hd).
    unfold calculate_distance.
    rewrite (sub_diag lat Hlat), (sub_diag lon Hlon), radians_zero_half.
    rewrite Hsin. cbn [bind]. rewrite Hpow. cbn [bind]. rewrite Hc. cbn [bind].
    rewrite (square_times_zero c Hle), Hra. cbn [bind]. rewrite Hrb. cbn [bind].
    rewrite Hatan. cbn [bind]. now rewrite Hd.
Qed.

Lemma half_radians_nan : math_radians nan / 2 = nan.
Proof. reflexivity. Qed.

(** Past a NaN under the square roots, the result is NaN. *)
Lemma nan_under_the_roots :
  math_atan2 nan nan = Some nan ->
  (ra <- math_sqrt nan ;; rb <- math_sqrt (1 - nan) ;; t <- math_atan2 ra rb ;;
   Some (R * (2 * t)))
  = Some nan.
Proof.
  intros H. change (math_sqrt nan) with (Some nan).
  change (math_sqrt (1 - nan)) with (Some nan). cbn [bind]. rewrite H. reflexivity.
Qed.

(** C8, as the code has it.  [calculate_distance] is the haversine formula
    with radius 6,371,000, applied to the latitudes and to the differences
    of latitude and of longitude converted from degrees to radians, for all
    binary64 coordinates: none is range-checked, so that out-of-range
    coordinates go through the same formula; and with a C library that maps
    NaN to NaN, whatever it returns for a NaN coordinate is NaN. *)
Theorem calculate_distance_haversine :
  (forall lat1 lon1 lat2 lon2,
     calculate_distance lat1 lon1 lat2 lon2
     = haversine 6371000 (math_radians lat1) (math_radians lat2)
         (math_radians (lat2 - lat1)) (math_radians (lon2 - lon1)))
  /\ (nan_conventions ->
      forall lat1 lon1 lat2 lon2 d,
        is_nan lat1 || is_nan lon1 || is_nan lat2 || is_nan lon2 = true ->
        calculate_distance lat1 lon1 lat2 lon2 = Some d ->
        is_nan d = true).
Proof.
  split.
  - intros lat1 lon1 lat2 lon2. unfold calculate_distance, haversine, hav.
    destruct (math_sin (math_radians (lat2 - lat1) / 2)) as [s1|]; cbn [bind];
      [|reflexivity].
    destruct (float_pow s1 2) as [q1|]; cbn [bind]; [|reflexivity].
    destruct (math_cos (math_radians lat1)) as [c1|]; cbn [bind]; [|reflexivity].
    destruct (math_cos (math_radians lat2)) as [c2|]; cbn [bind]; [|reflexivity].
    destruct (math_sin (math_radians (lon2 - lon1) / 2)) as [s2|]; cbn [bind];
      [|reflexivity].
    destruct (float_pow s2 2) as [q2|]; reflexivity.
  - intros (Hsin & Hpow & Hatan) lat1 lon1 lat2 lon2 d Hnan Hd.
    assert (Hcase : lat2 - lat1 = nan \/ lon2 - lon1 = nan).
    { rewrite !orb_true_iff in Hnan.
      destruct Hnan as [[[H|H]|H]|H]; apply is_nan_eq in H; subst;
        auto using sub_nan_l, sub_nan_r. }
    unfold calculate_distance in Hd.
    assert (Hres : d = nan); [|now subst].
    destruct Hcase as [E|E]; rewrite E, half_radians_nan, Hsin in Hd;
      cbn [bind] in Hd; rewrite Hpow in Hd; cbn [bind] in Hd.
    + destruct (math_cos (math_radians lat1)) as [c1|]; cbn [bind] in Hd;
        [|discriminate].
      destruct (math_cos (math_radians lat2)) as [c2|]; cbn [bind] in Hd;
        [|discriminate].
      destruct (math_sin (math_radians (lon2 - lon1) / 2)) as [s2|];
        cbn [bind] in Hd; [|discriminate].
      destruct (float_pow s2 2) as [q2|]; cbn [bind] in Hd; [|discriminate].
      rewrite add_nan_l, (nan_under_the_roots Hatan) in Hd. congruence.
    + destruct (math_sin (math_radians (lat2 - lat1) / 2)) as [s1|];
        cbn [bind] in Hd; [|discriminate].
      destruct (float_pow s1 2) as [q1|]; cbn [bind] in Hd; [|discriminate].
      destruct (math_cos (math_radians lat1)) as [c1|]; cbn [bind] in Hd;
        [|discriminate].
      destruct (math_cos (math_radians lat2)) as [c2|]; cbn [bind] in Hd;
        [|discriminate].
      rewrite mul_nan_r, add_nan_r, (nan_under_the_roots Hatan) in Hd. congruence.
Qed.
End GeoMathFacts.

(** ** The shape of an attempt on an issued token *)

Section EngineFacts.
Context {P : Platform}.

Lemma getitem_dict (qr_data : json) (key : string) (v : json) :
  getitem qr_data key = Some v ->
  exists items, qr_data = JObj items /\ dict_get items key = Some v.
Proof.
  destruct qr_data; simpl; try discriminate. intros H. eauto.
Qed.

(** A payload with an id passes the test [qr_data and 'qr_id' in qr_data]. *)
Lemma id_passes_test (qr_data : json) (v : json) :
  getitem qr_data "qr_id" = Some v ->
  (if truthy qr_data then contains "qr_id" qr_data else Some false) = Some true.
Proof.
  intros H. destruct (getitem_dict _ _ _ H) as (items & -> & Hget).
  simpl. destruct items as [|kv items]; [discriminate|].
  now rewrite Hget.
Qed.

Lemma redeem_unfold (db : database) (qr_data : json) (clk : clock)
    (frm : attendance_form) (dev : string) :
  redeem db qr_data clk frm dev
  = (fst (redeem_check db qr_data clk frm dev),
     fst (redeem_commit db (snd (redeem_check db qr_data clk frm dev))),
     snd (redeem_commit db (snd (redeem_check db qr_data clk frm dev)))).
Proof.
  unfold redeem. destruct (redeem_check db qr_data clk frm dev) as [note p].
  simpl. destruct (redeem_commit db p); reflexivity.
Qed.

Lemma redeem_check_token (db : database) (qr_data : json) (clk : clock)
    (frm : attendance_form) (dev : string) (id subject period : string)
    (latitude longitude : float) :
  carries qr_data id subject period latitude longitude ->
  redeem_check db qr_data clk frm dev
  = (Some (shown_validity qr_data (now_display clk)),
     token_reads db id subject period latitude longitude clk frm dev).
Proof.
  intros (Hid & Hs & Hp & Hla & Hlo).
  unfold redeem_check. rewrite (id_passes_test _ _ Hid), Hs, Hp, Hla, Hlo.
  f_equal. unfold verify_and_check, token_reads. rewrite Hid. simpl.
  destruct (select_active_qr (qr_codes db) (SqlText id)); [|reflexivity].
  destruct (submit_attendance frm && _ && _); [|destruct (submit_attendance frm); reflexivity].
  destruct (_ >? 0)%Z; [reflexivity|].
  destruct (calculate_distance _ _ _ _) as [d|]; [|reflexivity].
  simpl. destruct (d <=? 1000)%float; reflexivity.
Qed.

(** The INSERT of an accepted attempt goes through, whatever the table
    holds. *)
Lemma insert_accepted (rows : list attendance_row) (subject period : string)
    (latitude longitude : float) (clk : clock) (frm : attendance_form)
    (dev : string) :
  insert_attendance rows
    (accepted_values subject period latitude longitude clk frm dev)
  = Some (rows ++ [accepted_row rows subject period latitude longitude clk frm dev])%list.
Proof. reflexivity. Qed.

Lemma submitted_test (frm : attendance_form) :
  submitted frm ->
  submit_attendance frm && negb (strip (form_student_name frm) =? "")
    && negb (strip (form_student_roll frm) =? "") = true.
Proof.
  intros (-> & Hn & Hr).
  apply String.eqb_neq in Hn, Hr. now rewrite Hn, Hr.
Qed.

Lemma same_attendance_key (name subject period : string) (day : Z)
    (r : attendance_row) :
  same_attendance name (SqlText subject) (SqlText period) day r = true
  <-> has_key name subject period day r.
Proof.
  unfold same_attendance, has_key, text_eq. simpl.
  rewrite !andb_true_iff, !String.eqb_eq, Z.eqb_eq. tauto.
Qed.

Lemma count_positive (rows : list attendance_row) (name : string)
    (subject period : sqlval) (day : Z) :
  (count_attendance rows name subject period day >? 0)%Z = true
  <-> exists r, In r rows /\ same_attendance name subject period day r = true.
Proof.
  unfold count_attendance. split.
  - intros H. apply Z.gtb_lt in H.
    destruct (filter _ rows) as [|r l] eqn:E; [simpl in H; lia|].
    exists r. apply filter_In. rewrite E. now left.
  - intros (r & Hin & Hr). apply Z.gtb_lt.
    assert (Hf : In r (filter (same_attendance name subject period day) rows))
      by (apply filter_In; auto).
    destruct (filter _ rows); [contradiction|]. simpl. lia.
Qed.
End EngineFacts.

(** ** Redemption on an issued token *)

Section RedemptionFacts.
Context {P : Platform}.

(** Every row of a reachable table was written by a redemption. *)
Lemma reachable_origin (db : database) :
  reachable db -> Forall redemption_origin (attendance db).
Proof.
  induction 1 as [codes|db db' f new_id now fac q img _ IH Hgen
                 |db q clk frm dev _ IH|db rid st fac reason _ IH].
  - constructor.
  - unfold generate_qr_page in Hgen.
    destruct (generate_button f && _); [|discriminate].
    destruct (insert_qr_code _ _); [|discriminate].
    injection Hgen as <- _ _. exact IH.
  - rewrite redeem_unfold. simpl.
    destruct (snd (redeem_check db q clk frm dev)) as [o|d v]; simpl; [exact IH|].
    unfold insert_attendance.
    destruct (sql_text (v_subject v)); simpl; [|exact IH].
    destruct (sql_text (v_period v)); simpl; [|exact IH].
    destruct (sql_bind (v_qr_latitude v)); simpl; [|exact IH].
    destruct (sql_bind (v_qr_longitude v)); simpl; [|exact IH].
    apply Forall_app. split; [exact IH|]. repeat constructor.
  - simpl. apply Forall_forall. intros r' Hin.
    apply in_map_iff in Hin. destruct Hin as (r & <- & Hin).
    rewrite Forall_forall in IH. specialize (IH r Hin).
    unfold update_row, redemption_origin in *.
    destruct (att_id r =? rid)%Z; simpl; exact IH.
Qed.

Lemma update_row_key (record_id : Z) (new_status : status)
    (faculty_id reason : string) (r : attendance_row) :
  row_key (update_row record_id new_status faculty_id reason r) = row_key r.
Proof. unfold update_row. destruct (att_id r =? record_id)%Z; reflexivity. Qed.

(** The outcome of an attempt that reaches the duplicate query. *)
Lemma redeem_at_duplicate_check (db : database) (qr_data : json) (clk : clock)
    (frm : attendance_form) (dev : string) (id subject period : string)
    (latitude longitude : float) (qr_record : qr_row) :
  carries qr_data id subject period latitude longitude ->
  select_active_qr (qr_codes db) (SqlText id) = Some qr_record ->
  submitted frm ->
  snd (redeem_check db qr_data clk frm dev)
  = if (count_attendance (attendance db) (strip (form_student_name frm))
          (SqlText subject) (SqlText period) (date_of (now_check clk)) >? 0)%Z
    then Finished AlreadyMarked
    else match calculate_distance latitude longitude (student_lat frm)
                 (student_lon frm) with
         | Some distance =>
             if (distance <=? 1000)%float then
               ToInsert distance
                 (accepted_values subject period latitude longitude clk frm dev)
             else Finished (OutOfRange distance)
         | None => Finished DatabaseError
         end.
Proof.
  intros Hc Hq Hf. rewrite (redeem_check_token _ _ _ _ _ _ _ _ _ _ Hc). simpl.
  unfold token_reads. rewrite Hq. cbv zeta. now rewrite (submitted_test _ Hf).
Qed.

(** The reading of the clock that is compared with the expiry serves the
    validity line alone: what the attempt ends on and what it writes are the
    same at any other reading. *)
Lemma expiry_is_display_only (db : database) (qr_data : json) (clk clk' : clock)
    (frm : attendance_form) (dev : string) :
  now_check clk = now_check clk' ->
  now_commit clk = now_commit clk' ->
  snd (fst (redeem db qr_data clk frm dev)) = snd (fst (redeem db qr_data clk' frm dev))
  /\ snd (redeem db qr_data clk frm dev) = snd (redeem db qr_data clk' frm dev).
Proof.
  intros Hcheck Hcommit.
  assert (Hreads : snd (redeem_check db qr_data clk frm dev)
                   = snd (redeem_check db qr_data clk' frm dev)).
  { unfold redeem_check.
    destruct (if truthy qr_data then contains "qr_id" qr_data else Some false)
      as [[]|]; try reflexivity.
    destruct (getitem qr_data "subject"), (getitem qr_data "period"),
             (getitem qr_data "latitude"), (getitem qr_data "longitude");
      try reflexivity.
    simpl. unfold verify_and_check. now rewrite Hcheck, Hcommit. }
  rewrite !redeem_unfold. simpl. rewrite Hreads. split; reflexivity.
Qed.

(** C2.  An attempt that reaches the duplicate query, on a table the
    application has produced: when a record written by a redemption exists
    for (stripped name, subject, period, today), the page ends on
    AlreadyMarked and the database is unchanged; AlreadyMarked is shown
    only when such a record exists; and an administrative edit is applied
    without any such test: it sets the status of the row it names and
    changes neither the key nor the origin of any row. *)
Theorem duplicate_yields_already_marked (db : database) (qr_data : json)
    (clk : clock) (frm : attendance_form) (dev : string)
    (id subject period : string) (latitude longitude : float)
    (qr_record : qr_row) :
  reachable db ->
  carries qr_data id subject period latitude longitude ->
  select_active_qr (qr_codes db) (SqlText id) = Some qr_record ->
  submitted frm ->
  let name := strip (form_student_name frm) in
  let today := date_of (now_check clk) in
  ((exists r, In r (attendance db) /\ redemption_origin r
              /\ has_key name subject period today r) ->
   redeem db qr_data clk frm dev
   = (Some (shown_validity qr_data (now_display clk)), AlreadyMarked, db))
  /\ (snd (fst (redeem db qr_data clk frm dev)) = AlreadyMarked ->
      exists r, In r (attendance db) /\ redemption_origin r
                /\ has_key name subject period today r)
  /\ (forall record_id new_status faculty_id reason,
        let db' := edit_attendance db record_id new_status faculty_id reason in
        map row_key (attendance db') = map row_key (attendance db)
        /\ forall r, In r (attendance db) -> att_id r = record_id ->
             exists r', In r' (attendance db') /\ att_id r' = record_id
                        /\ att_status r' = new_status).
Proof.
  intros Hreach Hc Hq Hf name today.
  pose proof (redeem_at_duplicate_check db qr_data clk frm dev _ _ _ _ _ _ Hc Hq Hf)
    as Hsnd.
  pose proof (redeem_check_token db qr_data clk frm dev _ _ _ _ _ Hc) as Hchk.
  fold name today in Hsnd.
  split; [|split].
  - intros (r & Hin & _ & Hkey).
    rewrite redeem_unfold, Hsnd, Hchk. simpl.
    assert (Hpos : (count_attendance (attendance db) name (SqlText subject)
                      (SqlText period) today >? 0)%Z = true).
    { apply count_positive. exists r. split; [exact Hin|].
      now apply same_attendance_key. }
    now rewrite Hpos.
  - rewrite redeem_unfold, Hsnd. simpl.
    destruct (count_attendance _ _ _ _ _ >? 0)%Z eqn:Hcount.
    + intros _. apply count_positive in Hcount.
      destruct Hcount as (r & Hin & Hr). exists r.
      split; [exact Hin|]. split.
      * pose proof (reachable_origin db Hreach) as Hall.
        rewrite Forall_forall in Hall. now apply Hall.
      * now apply same_attendance_key.
    + destruct (calculate_distance _ _ _ _) as [d|]; simpl; [|discriminate].
      destruct (d <=? 1000)%float; simpl; discriminate.
  - intros record_id new_status faculty_id reason db'. subst db'. simpl. split.
    + rewrite map_map. apply map_ext. intros r. apply update_row_key.
    + intros r Hin Hid.
      exists (update_row record_id new_status faculty_id reason r).
      split; [now apply in_map|].
      unfold update_row. apply Z.eqb_eq in Hid. rewrite Hid. simpl.
      apply Z.eqb_eq in Hid. now split.
Qed.

(** C3.  An attempt that reaches the distance check with the computed
    distance [d]: at [d <= 1000] it is accepted and its row is appended, so
    at 1000.0 exactly; at [d > 1000] the page ends on OutOfRange and the
    database is unchanged, so at 1000.01; both pages carry [d]. *)
Theorem geofence_boundary_inclusive (db : database) (qr_data : json)
    (clk : clock) (frm : attendance_form) (dev : string)
    (id subject period : string) (latitude longitude : float)
    (qr_record : qr_row) (d : float) :
  carries qr_data id subject period latitude longitude ->
  select_active_qr (qr_codes db) (SqlText id) = Some qr_record ->
  submitted frm ->
  (count_attendance (attendance db) (strip (form_student_name frm))
     (SqlText subject) (SqlText period) (date_of (now_check clk)) >? 0)%Z = false ->
  calculate_distance latitude longitude (student_lat frm) (student_lon frm)
  = Some d ->
  let note := Some (shown_validity qr_data (now_display clk)) in
  let accepted :=
    (note, Accepted d,
     {| qr_codes := qr_codes db;
        attendance :=
          (attendance db
           ++ [accepted_row (attendance db) subject period latitude longitude
                 clk frm dev])%list |}) in
  ((d <=? 1000)%float = true -> redeem db qr_data clk frm dev = accepted)
  /\ (d = 1000%float -> redeem db qr_data clk frm dev = accepted)
  /\ ((1000 <? d)%float = true ->
      redeem db qr_data clk frm dev = (note, OutOfRange d, db))
  /\ (d = 1000.01%float ->
      redeem db qr_data clk frm dev = (note, OutOfRange d, db)).
Proof.
  intros Hc Hq Hf Hcount Hd note accepted.
  pose proof (redeem_at_duplicate_check db qr_data clk frm dev _ _ _ _ _ _ Hc Hq Hf)
    as Hsnd.
  pose proof (redeem_check_token db qr_data clk frm dev _ _ _ _ _ Hc) as Hchk.
  rewrite Hcount, Hd in Hsnd.
  assert (Hin : (d <=? 1000)%float = true -> redeem db qr_data clk frm dev = accepted).
  { intros Hle. rewrite redeem_unfold, Hsnd, Hchk, Hle.
    cbn [fst snd redeem_commit]. rewrite insert_accepted. reflexivity. }
  assert (Hout : (d <=? 1000)%float = false ->
                 redeem db qr_data clk frm dev = (note, OutOfRange d, db)).
  { intros Hle. rewrite redeem_unfold, Hsnd, Hchk, Hle. reflexivity. }
  repeat split.
  - exact Hin.
  - intros ->. apply Hin. reflexivity.
  - intros Hgt. apply Hout. now apply ltb_leb_false.
  - intros ->. apply Hout. reflexivity.
Qed.
End RedemptionFacts.

(** ** The liveness query and what the engine takes from the store *)

Section StoreFacts.
Context {P : Platform}.

Lemma select_active_some (rows : list qr_row) (id : string) (r : qr_row) :
  select_active_qr rows (SqlText id) = Some r ->
  In r rows /\ qr_id r = id /\ is_active r = true.
Proof.
  unfold select_active_qr. intros H. apply find_some in H.
  destruct H as (Hin & Ht). apply andb_true_iff in Ht. destruct Ht as (Hid & Ha).
  unfold text_eq in Hid. simpl in Hid. apply String.eqb_eq in Hid. auto.
Qed.

Lemma select_active_none (rows : list qr_row) (id : string) :
  (forall r, In r rows -> qr_id r = id -> is_active r = false) ->
  select_active_qr rows (SqlText id) = None.
Proof.
  intros H. unfold select_active_qr.
  destruct (find _ rows) as [r|] eqn:E; [|reflexivity].
  apply find_some in E. destruct E as (Hin & Ht).
  apply andb_true_iff in Ht. destruct Ht as (Hid & Ha).
  unfold text_eq in Hid. simpl in Hid. apply String.eqb_eq in Hid.
  rewrite (H r Hin Hid) in Ha. discriminate.
Qed.

(** Under the UNIQUE constraint an id names one row. *)
Lemma unique_id (rows : list qr_row) (r r' : qr_row) :
  NoDup (map qr_id rows) -> In r rows -> In r' rows -> qr_id r = qr_id r' -> r = r'.
Proof.
  induction rows as [|x rows IH]; simpl; [contradiction|].
  intros Hnd Hr Hr' Heq. inversion Hnd as [|? ? Hnotin Hnd']; subst.
  destruct Hr as [->|Hr], Hr' as [->|Hr'].
  - reflexivity.
  - exfalso. apply Hnotin. rewrite Heq. now apply in_map.
  - exfalso. apply Hnotin. rewrite <- Heq. now apply in_map.
  - now apply IH.
Qed.

(** [insert_qr_code] keeps the ids unique. *)
Lemma insert_qr_code_unique (rows rows' : list qr_row) (r : qr_row) :
  NoDup (map qr_id rows) -> insert_qr_code rows r = Some rows' ->
  NoDup (map qr_id rows').
Proof.
  unfold insert_qr_code. intros Hnd.
  destruct (existsb _ rows) eqn:E; [discriminate|]. intros [= <-].
  rewrite map_app. simpl.
  apply NoDup_app; [exact Hnd|repeat constructor; simpl; tauto|].
  intros a Ha [<-|[]].
  apply in_map_iff in Ha. destruct Ha as (x & Hx & Hin).
  assert (Hex : existsb (fun r' => qr_id r' =? qr_id r) rows = true).
  { apply existsb_exists. exists x. split; [exact Hin|]. now apply String.eqb_eq. }
  congruence.
Qed.

Lemma invalid_page (db : database) (qr_data : json) (clk : clock)
    (frm : attendance_form) (dev : string) (id subject period : string)
    (latitude longitude : float) :
  carries qr_data id subject period latitude longitude ->
  select_active_qr (qr_codes db) (SqlText id) = None ->
  redeem db qr_data clk frm dev
  = (Some (shown_validity qr_data (now_display clk)), InvalidQRCode, db).
Proof.
  intros Hc Hq. rewrite redeem_unfold.
  rewrite (redeem_check_token _ _ _ _ _ _ _ _ _ _ Hc). simpl.
  unfold token_reads. rewrite Hq. reflexivity.
Qed.

(** C6.  With ids unique in the store, the liveness query returns a row
    exactly when that row is stored under the id with its active flag set;
    and an attempt on an id stored with the flag cleared ends on the same
    page as an attempt on an id that was never stored: the invalid code
    page, with the database unchanged. *)
Theorem liveness_query (rows : list qr_row) (id : string) :
  NoDup (map qr_id rows) ->
  (forall r, select_active_qr rows (SqlText id) = Some r
             <-> In r rows /\ qr_id r = id /\ is_active r = true)
  /\ (forall (rows' : list qr_row) (records : list attendance_row)
             (qr_data : json) (clk : clock) (frm : attendance_form) (dev : string)
             (subject period : string) (latitude longitude : float),
        carries qr_data id subject period latitude longitude ->
        (exists r, In r rows /\ qr_id r = id /\ is_active r = false) ->
        (forall r, In r rows' -> qr_id r <> id) ->
        let deactivated := {| qr_codes := rows; attendance := records |} in
        let never_stored := {| qr_codes := rows'; attendance := records |} in
        let page := Some (shown_validity qr_data (now_display clk)) in
        redeem deactivated qr_data clk frm dev = (page, InvalidQRCode, deactivated)
        /\ redeem never_stored qr_data clk frm dev
           = (page, InvalidQRCode, never_stored)).
Proof.
  intros Hnd. split.
  - intros r. split; [apply select_active_some|].
    intros (Hin & Hid & Ha).
    destruct (select_active_qr rows (SqlText id)) as [r'|] eqn:E.
    + apply select_active_some in E. destruct E as (Hin' & Hid' & _).
      f_equal. apply (unique_id rows); congruence.
    + exfalso. unfold select_active_qr in E.
      apply (find_none _ _ E) in Hin. unfold text_eq in Hin. simpl in Hin.
      apply String.eqb_eq in Hid. rewrite Hid, Ha in Hin. discriminate.
  - intros rows' records qr_data clk frm dev subject period latitude longitude
           Hc (r0 & Hin0 & Hid0 & Ha0) Habsent deactivated never_stored page.
    split; apply (invalid_page _ _ _ _ _ _ _ _ _ _ Hc); apply select_active_none.
    + simpl. intros r Hin Hid.
      rewrite (unique_id rows r r0 Hnd Hin Hin0) by congruence. exact Ha0.
    + simpl. intros r Hin Hid. exfalso. exact (Habsent r Hin Hid).
Qed.

(** C10.  Two databases hold the same attendance records and both hold an
    active row for the id of the decoded payload: whatever else the two
    rows say, the attempt ends on the same page and leaves the same
    attendance records. *)
Theorem stored_row_is_not_consulted (db1 db2 : database) (qr_data : json)
    (clk : clock) (frm : attendance_form) (dev : string) (id : json)
    (key : sqlval) (r1 r2 : qr_row) :
  getitem qr_data "qr_id" = Some id ->
  sql_bind id = Some key ->
  select_active_qr (qr_codes db1) key = Some r1 ->
  select_active_qr (qr_codes db2) key = Some r2 ->
  attendance db1 = attendance db2 ->
  fst (redeem db1 qr_data clk frm dev) = fst (redeem db2 qr_data clk frm dev)
  /\ attendance (snd (redeem db1 qr_data clk frm dev))
     = attendance (snd (redeem db2 qr_data clk frm dev)).
Proof.
  intros Hid Hkey H1 H2 Hatt.
  assert (Hchk : redeem_check db1 qr_data clk frm dev
                 = redeem_check db2 qr_data clk frm dev).
  { unfold redeem_check.
    destruct (if truthy qr_data then contains "qr_id" qr_data else Some false)
      as [[]|]; try reflexivity.
    destruct (getitem qr_data "subject") as [subject|]; [|reflexivity].
    destruct (getitem qr_data "period") as [period|]; [|reflexivity].
    destruct (getitem qr_data "latitude") as [latitude|]; [|reflexivity].
    destruct (getitem qr_data "longitude") as [longitude|]; [|reflexivity].
    unfold verify_and_check. rewrite Hid. simpl. rewrite Hkey. simpl.
    rewrite H1, H2, Hatt. reflexivity. }
  rewrite !redeem_unfold, Hchk. simpl.
  destruct (snd (redeem_check db2 qr_data clk frm dev)) as [o|d v]; simpl.
  - auto.
  - rewrite Hatt. destruct (insert_attendance (attendance db2) v); simpl; auto.
Qed.
End StoreFacts.

(** ** Attempts in sequence and in a race *)

Section SessionFacts.
Context {P : Platform}.

Lemma check_accepts (db : database) (a : attempt) (id subject period : string)
    (latitude longitude : float) (q : qr_row) (d : float) :
  carries (at_payload a) id subject period latitude longitude ->
  select_active_qr (qr_codes db) (SqlText id) = Some q ->
  submitted (at_form a) ->
  (count_attendance (attendance db) (strip (form_student_name (at_form a)))
     (SqlText subject) (SqlText period) (date_of (now_check (at_clock a))) >? 0)%Z
  = false ->
  calculate_distance latitude longitude (student_lat (at_form a))
    (student_lon (at_form a)) = Some d ->
  (d <=? 1000)%float = true ->
  snd (redeem_check db (at_payload a) (at_clock a) (at_form a) (at_device a))
  = ToInsert d (accepted_values subject period latitude longitude (at_clock a)
                  (at_form a) (at_device a)).
Proof.
  intros Hc Hq Hf Hcount Hd Hle.
  rewrite (redeem_at_duplicate_check _ _ _ _ _ _ _ _ _ _ _ Hc Hq Hf).
  now rewrite Hcount, Hd, Hle.
Qed.

Lemma check_refuses (db : database) (a : attempt) (id subject period : string)
    (latitude longitude : float) (q : qr_row) (r : attendance_row) :
  carries (at_payload a) id subject period latitude longitude ->
  select_active_qr (qr_codes db) (SqlText id) = Some q ->
  submitted (at_form a) ->
  In r (attendance db) ->
  has_key (strip (form_student_name (at_form a))) subject period
    (date_of (now_check (at_clock a))) r ->
  snd (redeem_check db (at_payload a) (at_clock a) (at_form a) (at_device a))
  = Finished AlreadyMarked.
Proof.
  intros Hc Hq Hf Hin Hkey.
  rewrite (redeem_at_duplicate_check _ _ _ _ _ _ _ _ _ _ _ Hc Hq Hf).
  assert (Hpos : (count_attendance (attendance db)
                    (strip (form_student_name (at_form a))) (SqlText subject)
                    (SqlText period) (date_of (now_check (at_clock a))) >? 0)%Z
                 = true).
  { apply count_positive. exists r. split; [exact Hin|].
    now apply same_attendance_key. }
  now rewrite Hpos.
Qed.

(** C7, as the code has it.  The attendance table has no uniqueness
    constraint: the INSERT of an accepted attempt goes through on a table
    that already holds a row with its key, and duplicates are kept out by
    the query before it alone.  So of two attempts of one claimant for one
    subject and period on one day, each within range: run one after the
    other, the first is accepted and the second ends on AlreadyMarked with
    one row written; run with both queries before both inserts, both are
    accepted and two rows with the same key are written. *)
Theorem duplicates_rest_on_the_prior_query (db : database) (a1 a2 : attempt)
    (id1 id2 subject period : string) (lat1 lon1 lat2 lon2 : float)
    (q1 q2 : qr_row) (d1 d2 : float) (today : Z) :
  carries (at_payload a1) id1 subject period lat1 lon1 ->
  carries (at_payload a2) id2 subject period lat2 lon2 ->
  select_active_qr (qr_codes db) (SqlText id1) = Some q1 ->
  select_active_qr (qr_codes db) (SqlText id2) = Some q2 ->
  submitted (at_form a1) ->
  submitted (at_form a2) ->
  strip (form_student_name (at_form a1)) = strip (form_student_name (at_form a2)) ->
  date_of (now_check (at_clock a1)) = today ->
  date_of (now_commit (at_clock a1)) = today ->
  date_of (now_check (at_clock a2)) = today ->
  date_of (now_commit (at_clock a2)) = today ->
  (count_attendance (attendance db) (strip (form_student_name (at_form a1)))
     (SqlText subject) (SqlText period) today >? 0)%Z = false ->
  calculate_distance lat1 lon1 (student_lat (at_form a1)) (student_lon (at_form a1))
  = Some d1 ->
  (d1 <=? 1000)%float = true ->
  calculate_distance lat2 lon2 (student_lat (at_form a2)) (student_lon (at_form a2))
  = Some d2 ->
  (d2 <=? 1000)%float = true ->
  let name := strip (form_student_name (at_form a1)) in
  let row1 := accepted_row (attendance db) subject period lat1 lon1
                (at_clock a1) (at_form a1) (at_device a1) in
  let db1 := {| qr_codes := qr_codes db;
                attendance := (attendance db ++ [row1])%list |} in
  let row2 := accepted_row (attendance db1) subject period lat2 lon2
                (at_clock a2) (at_form a2) (at_device a2) in
  let db2 := {| qr_codes := qr_codes db;
                attendance := (attendance db1 ++ [row2])%list |} in
  has_key name subject period today row1
  /\ has_key name subject period today row2
  /\ insert_attendance (attendance db1)
       (accepted_values subject period lat2 lon2 (at_clock a2) (at_form a2)
          (at_device a2))
     = Some (attendance db2)
  /\ run [First; First; Second; Second] db (Scanned a1) (Scanned a2)
     = (Shown (Accepted d1), Shown AlreadyMarked, db1)
  /\ run [First; Second; First; Second] db (Scanned a1) (Scanned a2)
     = (Shown (Accepted d1), Shown (Accepted d2), db2).
Proof.
  intros Hc1 Hc2 Hq1 Hq2 Hf1 Hf2 Hname Hk1 Hm1 Hk2 Hm2 Hcount Hd1 Hle1 Hd2 Hle2
         name row1 db1 row2 db2.
  assert (Hrow1 : has_key name subject period today row1)
    by (repeat split; assumption).
  assert (Hrow2 : has_key name subject period today row2)
    by (repeat split; simpl; auto).
  assert (Hchk1 : snd (redeem_check db (at_payload a1) (at_clock a1) (at_form a1)
                         (at_device a1))
                  = ToInsert d1 (accepted_values subject period lat1 lon1
                                   (at_clock a1) (at_form a1) (at_device a1))).
  { apply (check_accepts db a1 id1 _ _ _ _ q1); auto. now rewrite Hk1. }
  assert (Hchk2 : snd (redeem_check db (at_payload a2) (at_clock a2) (at_form a2)
                         (at_device a2))
                  = ToInsert d2 (accepted_values subject period lat2 lon2
                                   (at_clock a2) (at_form a2) (at_device a2))).
  { apply (check_accepts db a2 id2 _ _ _ _ q2); auto. now rewrite Hk2, <- Hname. }
  assert (Hchk2' : snd (redeem_check db1 (at_payload a2) (at_clock a2) (at_form a2)
                          (at_device a2))
                   = Finished AlreadyMarked).
  { apply (check_refuses db1 a2 id2 subject period lat2 lon2 q2 row1); auto.
    - simpl. apply in_or_app. right. now left.
    - rewrite Hk2, <- Hname. exact Hrow1. }
  split; [exact Hrow1|]. split; [exact Hrow2|]. split; [reflexivity|]. split.
  - cbn [run step]. rewrite Hchk1. cbn [step redeem_commit].
    rewrite insert_accepted. fold row1 db1. cbn [step]. rewrite Hchk2'.
    reflexivity.
  - cbn [run step]. rewrite Hchk1, Hchk2. cbn [step redeem_commit].
    rewrite insert_accepted. fold row1 db1. cbn [attendance qr_codes].
    rewrite insert_accepted. reflexivity.
Qed.
End SessionFacts.

(** ** The codec *)

Section CodecFacts.
Context {P : Platform}.


End CodecFacts.

(** ** The classroom scenario, computed *)

Section Scenario.
Import Recorded.
#[local] Existing Instance Recorded.platform.

(** The payload of the scenario is the one [generate_qr_page] builds. *)
Lemma class_payload_issued :
  qr_payload class_id "Mathematics" "Period 1" 17.6868 83.2185 issued_at expires
  = class_payload.
Proof. reflexivity. Qed.

Lemma class_payload_carries :
  carries class_payload class_id "Mathematics" "Period 1" 17.6868 83.2185.
Proof. repeat split. Qed.

Lemma john_submitted : submitted john_at_anchor.
Proof. repeat split; discriminate. Qed.

Lemma john_far_submitted : submitted john_far_away.
Proof. repeat split; discriminate. Qed.

(** C1, on the code.  The clock reads 11:45, past the expiry at 10:30 of a
    token whose row is active: the page shows the expiry warning, and the
    attempt is accepted all the same, with its row written. *)
Theorem expired_code_is_still_accepted :
  (now_display too_late >? expires)%Z = true
  /\ (now_check too_late >? expires)%Z = true
  /\ select_active_qr (qr_codes class_db) (SqlText class_id) = Some class_row
  /\ student_app class_db (Some class_picture) too_late john_at_anchor device
     = (Some (QRExpired expires), Accepted 0,
        {| qr_codes := [class_row];
           attendance := [john_row (now_commit too_late) device 1] |}).
Proof. repeat split. Qed.


(** C7 fails as stated: with both queries before both inserts, the two
    attempts of one claimant are both accepted and the table holds two
    rows for one claimant, subject, period and day. *)
Lemma two_attempts_both_accepted :
  run [First; Second; First; Second] class_db (Scanned first_scan)
      (Scanned second_scan)
  = (Shown (Accepted 0), Shown (Accepted 0),
     {| qr_codes := [class_row];
        attendance := [john_row (now_commit in_time) device 1;
                       john_row (now_commit a_minute_later) device' 2] |})
  /\ row_key (john_row (now_commit in_time) device 1)
     = row_key (john_row (now_commit a_minute_later) device' 2).
Proof. split; reflexivity. Qed.

(** The table after the first scan is reachable and holds John's row. *)
Lemma after_first_scan_reachable : reachable after_first_scan.
Proof. unfold after_first_scan. apply reach_redeem. apply reach_fresh. Defined.

Lemma after_first_scan_rows :
  after_first_scan
  = {| qr_codes := [class_row];
       attendance := [john_row (now_commit in_time) device 1] |}.
Proof. reflexivity. Qed.

(** The second scan of the day, from far away, is reported as a
    duplicate. *)
Lemma duplicate_yields_already_marked_witness :
  redeem after_first_scan class_payload a_minute_later john_far_away device'
  = (Some (ValidUntil expires), AlreadyMarked, after_first_scan).
Proof.
  pose proof (duplicate_yields_already_marked after_first_scan class_payload
                a_minute_later john_far_away device' class_id "Mathematics"
                "Period 1" 17.6868 83.2185 class_row after_first_scan_reachable
                class_payload_carries eq_refl john_far_submitted) as H.
  cbv zeta in H. destruct H as [H _]. apply H.
  exists (john_row (now_commit in_time) device 1).
  split; [now left|]. split; [reflexivity|]. repeat split.
Defined.

(** At the anchor the distance is 0 and the attempt is accepted; at
    (17.70, 83.23) it is 1907.48 m and the attempt is out of range. *)
Lemma geofence_boundary_inclusive_witness :
  redeem class_db class_payload in_time john_at_anchor device
  = (Some (ValidUntil expires), Accepted 0,
     {| qr_codes := [class_row];
        attendance := [john_row (now_commit in_time) device 1] |})
  /\ redeem class_db class_payload in_time john_far_away device
     = (Some (ValidUntil expires), OutOfRange 0x1.dcdf02d0d73c2p+10, class_db).
Proof.
  split.
  - pose proof (geofence_boundary_inclusive class_db class_payload in_time
                  john_at_anchor device class_id "Mathematics" "Period 1"
                  17.6868 83.2185 class_row 0 class_payload_carries eq_refl
                  john_submitted eq_refl eq_refl) as H.
    cbv zeta in H. destruct H as [H _]. apply H. reflexivity.
  - pose proof (geofence_boundary_inclusive class_db class_payload in_time
                  john_far_away device class_id "Mathematics" "Period 1"
                  17.6868 83.2185 class_row 0x1.dcdf02d0d73c2p+10
                  class_payload_carries eq_refl john_far_submitted eq_refl
                  eq_refl) as H.
    cbv zeta in H. destruct H as (_ & _ & H & _). apply H. reflexivity.
Defined.


(** The deactivated row is not returned, and the page is the page of an
    empty store. *)
Lemma liveness_query_witness :
  select_active_qr [deactivated_row] (SqlText class_id) = None
  /\ redeem {| qr_codes := [deactivated_row]; attendance := [] |}
            class_payload in_time john_at_anchor device
     = (Some (ValidUntil expires), InvalidQRCode,
        {| qr_codes := [deactivated_row]; attendance := [] |})
  /\ redeem {| qr_codes := []; attendance := [] |}
            class_payload in_time john_at_anchor device
     = (Some (ValidUntil expires), InvalidQRCode,
        {| qr_codes := []; attendance := [] |}).
Proof.
  assert (Hnd : NoDup (map qr_id [deactivated_row])).
  { simpl. constructor; [simpl; tauto|constructor]. }
  destruct (liveness_query [deactivated_row] class_id Hnd) as [Hiff Hpage].
  split; [reflexivity|].
  apply (Hpage [] [] class_payload in_time john_at_anchor device
               "Mathematics" "Period 1" 17.6868%float 83.2185%float
               class_payload_carries).
  - exists deactivated_row. repeat split. now left.
  - intros r [].
Defined.

(** The two scans of one claimant, in sequence and in a race. *)
Lemma duplicates_rest_on_the_prior_query_witness :
  run [First; First; Second; Second] class_db (Scanned first_scan)
      (Scanned second_scan)
  = (Shown (Accepted 0), Shown AlreadyMarked, after_first_scan)
  /\ run [First; Second; First; Second] class_db (Scanned first_scan)
         (Scanned second_scan)
     = (Shown (Accepted 0), Shown (Accepted 0),
        {| qr_codes := [class_row];
           attendance := [john_row (now_commit in_time) device 1;
                          john_row (now_commit a_minute_later) device' 2] |}).
Proof.
  pose proof (duplicates_rest_on_the_prior_query class_db first_scan second_scan
                class_id class_id "Mathematics" "Period 1" 17.6868 83.2185
                17.6868 83.2185 class_row class_row 0 0 19786
                class_payload_carries class_payload_carries eq_refl eq_refl
                john_submitted john_submitted eq_refl eq_refl eq_refl eq_refl
                eq_refl eq_refl eq_refl eq_refl eq_refl eq_refl) as H.
  cbv zeta in H. destruct H as (_ & _ & _ & Hseq & Hrace).
  split; [exact Hseq|exact Hrace].
Defined.

(** The stored row may name another subject, period, place and expiry:
    the attempt is accepted with the fields of the payload. *)
Lemma stored_row_is_not_consulted_witness :
  fst (redeem class_db class_payload in_time john_at_anchor device)
  = fst (redeem {| qr_codes := [altered_row]; attendance := [] |}
                class_payload in_time john_at_anchor device)
  /\ attendance (snd (redeem class_db class_payload in_time john_at_anchor device))
     = attendance
         (snd (redeem {| qr_codes := [altered_row]; attendance := [] |}
                      class_payload in_time john_at_anchor device)).
Proof.
  apply (stored_row_is_not_consulted class_db
           {| qr_codes := [altered_row]; attendance := [] |}
           class_payload in_time john_at_anchor device (JStr class_id)
           (SqlText class_id) class_row altered_row);
    reflexivity.
Defined.
(** With the recorded values of the C library, the distance between the
    anchor and (17.70, 83.23) is 1907.48 m both ways, and the distance from
    the anchor to itself is 0. *)
Lemma recorded_distance_both_ways :
  calculate_distance 17.6868 83.2185 17.70 83.23 = Some 0x1.dcdf02d0d73c2p+10%float
  /\ calculate_distance 17.70 83.23 17.6868 83.2185 = Some 0x1.dcdf02d0d73c2p+10%float
  /\ calculate_distance 17.6868 83.2185 17.6868 83.2185 = Some 0%float.
Proof. repeat split. Qed.

(** The small-angle platform keeps the conventions. *)
Lemma small_angle_conventions : @libm_conventions small_angle.
Proof.
  repeat split.
  - intros x. simpl. f_equal. apply mul_opp_opp.
  - intros lat _. exists 1%float. split; reflexivity.
Defined.

(** On it, the distance between the anchor and (17.70, 83.23) is the same
    both ways, and the distance from the anchor to itself is 0. *)
Lemma calculate_distance_symmetric_witness :
  @calculate_distance small_angle 17.6868 83.2185 17.70 83.23
  = @calculate_distance small_angle 17.70 83.23 17.6868 83.2185
  /\ @calculate_distance small_angle 17.6868 83.2185 17.6868 83.2185 = Some 0%float.
Proof.
  destruct (@calculate_distance_symmetric small_angle small_angle_conventions)
    as (Hsym & _ & Hzero).
  split; [apply Hsym|apply Hzero; reflexivity].
Defined.
(** C8 fails as stated.  A latitude of 100 degrees is out of range and the
    distance is a number, about 11119 km, not NaN; and for two points that
    are nearly antipodal the rounded [a] exceeds 1, so [math.sqrt(1 - a)]
    raises and there is an error. *)
Lemma out_of_range_is_computed :
  (90 <? 100)%float = true
  /\ calculate_distance 100 0 0 0 = Some 11119492.664455874%float
  /\ is_nan 11119492.664455874 = false
  /\ calculate_distance 86.9738 (-73.2269) (-86.9738) 106.7731 = None.
Proof. repeat split. Qed.

Lemma small_angle_nan : @nan_conventions small_angle.
Proof. repeat split. Defined.

(** A NaN latitude gives a NaN distance. *)
Lemma calculate_distance_haversine_witness :
  exists d, @calculate_distance small_angle nan 83.2185 17.70 83.23 = Some d
            /\ is_nan d = true.
Proof.
  exists nan. split; [reflexivity|].
  destruct (@calculate_distance_haversine small_angle) as [_ Hnan].
  apply (Hnan small_angle_nan nan 83.2185%float 17.70%float 83.23%float);
    reflexivity.
Defined.
End Scenario.

(** * Further properties of the code *)

(** ** [str.strip] *)

Section StripFacts.

Lemma rstrip_idempotent (s : string) : rstrip (rstrip s) = rstrip s.
Proof.
  induction s as [|c s IH]; simpl; [reflexivity|].
  destruct (is_space c && (rstrip s =? "")) eqn:E; simpl; [reflexivity|].
  now rewrite IH, E.
Qed.

Lemma lstrip_head (s : string) :
  lstrip s = "" \/ exists c t, lstrip s = String c t /\ is_space c = false.
Proof.
  induction s as [|c s IH]; simpl; [now left|].
  destruct (is_space c) eqn:E; [exact IH|]. right. eauto.
Qed.

Lemma rstrip_head (c : ascii) (t : string) :
  is_space c = false -> rstrip (String c t) = String c (rstrip t).
Proof. intros E. simpl. now rewrite E. Qed.

Lemma strip_idempotent (s : string) : strip (strip s) = strip s.
Proof.
  unfold strip. destruct (lstrip_head s) as [->|(c & t & -> & E)]; [reflexivity|].
  rewrite (rstrip_head c t E). simpl lstrip. rewrite E.
  rewrite (rstrip_head c _ E). now rewrite rstrip_idempotent.
Qed.

Lemma strip_trimmed (s : string) : strip s <> "" -> trimmed (strip s).
Proof. intros H. split; [exact H|apply strip_idempotent]. Qed.
End StripFacts.

(** ** What an attempt reads and writes *)

Section AttemptFacts.
Context {P : Platform}.

Lemma leb_not_nan (d x : float) : (d <=? x)%float = true -> is_nan d = false.
Proof.
  rewrite leb_spec. unfold SFleb, is_nan. intros H.
  apply negb_false_iff. rewrite eqb_spec. unfold SFeqb.
  destruct (Prim2SF d) as [s|s| |s m e] eqn:E;
    rewrite SFcompare_refl by discriminate; reflexivity.
Qed.

Lemma submitted_of_test (frm : attendance_form) :
  submit_attendance frm && negb (strip (form_student_name frm) =? "")
    && negb (strip (form_student_roll frm) =? "") = true ->
  submitted frm.
Proof.
  unfold submitted. rewrite !andb_true_iff, !negb_true_iff, !String.eqb_neq. tauto.
Qed.

Lemma count_zero_of_test (rows : list attendance_row) (name : string)
    (s p : sqlval) (today : Z) :
  (count_attendance rows name s p today >? 0)%Z = false ->
  count_attendance rows name s p today = 0%Z.
Proof.
  unfold count_attendance. rewrite Z.gtb_ltb, Z.ltb_ge. lia.
Qed.

(** The reads of an attempt end on a page, or on an insert whose values
    passed every check. *)
Lemma verify_and_check_to_insert (db : database)
    (qr_data subject period latitude longitude : json) (clk : clock)
    (frm : attendance_form) (dev : string) (d : float) (v : insert_values) :
  verify_and_check db qr_data subject period latitude longitude clk frm dev
  = Some (ToInsert d v) ->
  exists id key qr_record s p lat lon,
    getitem qr_data "qr_id" = Some id /\ sql_bind id = Some key
    /\ select_active_qr (qr_codes db) key = Some qr_record
    /\ submitted frm
    /\ sql_bind subject = Some s /\ sql_bind period = Some p
    /\ count_attendance (attendance db) (strip (form_student_name frm)) s p
         (date_of (now_check clk)) = 0%Z
    /\ py_float latitude = Some lat /\ py_float longitude = Some lon
    /\ calculate_distance lat lon (student_lat frm) (student_lon frm) = Some d
    /\ (d <=? 1000)%float = true
    /\ v = {| v_student_name := strip (form_student_name frm);
              v_student_roll := strip (form_student_roll frm);
              v_subject := s; v_period := p;
              v_timestamp := now_commit clk; v_device_id := dev;
              v_student_latitude := student_lat frm;
              v_student_longitude := student_lon frm;
              v_qr_latitude := latitude; v_qr_longitude := longitude |}.
Proof.
  unfold verify_and_check.
  destruct (getitem qr_data "qr_id") as [id|] eqn:Hid; simpl; [|discriminate].
  destruct (sql_bind id) as [key|] eqn:Hkey; simpl; [|discriminate].
  destruct (select_active_qr (qr_codes db) key) as [qr_record|] eqn:Hq;
    [|discriminate].
  destruct (submit_attendance frm && _ && _) eqn:Hform;
    [|destruct (submit_attendance frm); discriminate].
  destruct (sql_bind subject) as [s|] eqn:Hs; simpl; [|discriminate].
  destruct (sql_bind period) as [p|] eqn:Hp; simpl; [|discriminate].
  destruct (_ >? 0)%Z eqn:Hcount; [discriminate|].
  destruct (py_float latitude) as [lat|] eqn:Hlat; simpl; [|discriminate].
  destruct (py_float longitude) as [lon|] eqn:Hlon; simpl; [|discriminate].
  destruct (calculate_distance _ _ _ _) as [d'|] eqn:Hd; simpl; [|discriminate].
  destruct (d' <=? 1000)%float eqn:Hle; [|discriminate].
  intros [= <- <-].
  exists id, key, qr_record, s, p, lat, lon.
  apply submitted_of_test in Hform. apply count_zero_of_test in Hcount.
  repeat (split; [solve [auto]|]). reflexivity.
Qed.

Lemma verify_and_check_finished (db : database)
    (qr_data subject period latitude longitude : json) (clk : clock)
    (frm : attendance_form) (dev : string) (o : outcome) :
  verify_and_check db qr_data subject period latitude longitude clk frm dev
  = Some (Finished o) ->
  is_accepted o = false /\ o <> DatabaseError /\ o <> ApplicationError.
Proof.
  unfold verify_and_check.
  destruct (getitem qr_data "qr_id") as [id|]; simpl; [|discriminate].
  destruct (sql_bind id) as [key|]; simpl; [|discriminate].
  destruct (select_active_qr (qr_codes db) key) as [qr_record|];
    [|intros [= <-]; repeat split; discriminate].
  destruct (submit_attendance frm && _ && _);
    [|destruct (submit_attendance frm); intros [= <-]; repeat split; discriminate].
  destruct (sql_bind subject) as [s|]; simpl; [|discriminate].
  destruct (sql_bind period) as [p|]; simpl; [|discriminate].
  destruct (_ >? 0)%Z; [intros [= <-]; repeat split; discriminate|].
  destruct (py_float latitude) as [lat|]; simpl; [|discriminate].
  destruct (py_float longitude) as [lon|]; simpl; [|discriminate].
  destruct (calculate_distance _ _ _ _) as [d'|]; simpl; [|discriminate].
  destruct (d' <=? 1000)%float; [discriminate|].
  intros [= <-]; repeat split; discriminate.
Qed.

(** The reads alone never show the page of success. *)
Lemma redeem_check_finished (db : database) (qr_data : json) (clk : clock)
    (frm : attendance_form) (dev : string) (o : outcome) :
  snd (redeem_check db qr_data clk frm dev) = Finished o -> is_accepted o = false.
Proof.
  unfold redeem_check.
  destruct (if truthy qr_data then contains "qr_id" qr_data else Some false)
    as [[]|]; simpl; try (intros [= <-]; reflexivity).
  destruct (getitem qr_data "subject") as [subject|]; simpl;
    [|intros [= <-]; reflexivity].
  destruct (getitem qr_data "period") as [period|]; simpl;
    [|intros [= <-]; reflexivity].
  destruct (getitem qr_data "latitude") as [latitude|]; simpl;
    [|intros [= <-]; reflexivity].
  destruct (getitem qr_data "longitude") as [longitude|]; simpl;
    [|intros [= <-]; reflexivity].
  destruct (verify_and_check _ _ _ _ _ _ _ _ _) as [p|] eqn:E;
    [|intros [= <-]; reflexivity].
  intros ->. now apply verify_and_check_finished in E.
Qed.

Lemma redeem_check_to_insert (db : database) (qr_data : json) (clk : clock)
    (frm : attendance_form) (dev : string) (d : float) (v : insert_values) :
  snd (redeem_check db qr_data clk frm dev) = ToInsert d v ->
  exists subject period latitude longitude,
    getitem qr_data "subject" = Some subject
    /\ getitem qr_data "period" = Some period
    /\ getitem qr_data "latitude" = Some latitude
    /\ getitem qr_data "longitude" = Some longitude
    /\ verify_and_check db qr_data subject period latitude longitude clk frm dev
       = Some (ToInsert d v).
Proof.
  unfold redeem_check.
  destruct (if truthy qr_data then contains "qr_id" qr_data else Some false)
    as [[]|]; simpl; try discriminate.
  destruct (getitem qr_data "subject") as [subject|]; simpl; [|discriminate].
  destruct (getitem qr_data "period") as [period|]; simpl; [|discriminate].
  destruct (getitem qr_data "latitude") as [latitude|]; simpl; [|discriminate].
  destruct (getitem qr_data "longitude") as [longitude|]; simpl; [|discriminate].
  destruct (verify_and_check _ _ _ _ _ _ _ _ _) as [p|] eqn:E; [|discriminate].
  intros ->. exists subject, period, latitude, longitude. auto.
Qed.

Lemma insert_attendance_appends (rows rows' : list attendance_row)
    (v : insert_values) :
  insert_attendance rows v = Some rows' ->
  exists subject period qlat qlon,
    sql_text (v_subject v) = Some subject /\ sql_text (v_period v) = Some period
    /\ sql_bind (v_qr_latitude v) = Some qlat
    /\ sql_bind (v_qr_longitude v) = Some qlon
    /\ rows' = (rows ++ [present_row (next_id rows) v subject period qlat qlon])%list.
Proof.
  unfold insert_attendance.
  destruct (sql_text (v_subject v)) as [subject|]; simpl; [|discriminate].
  destruct (sql_text (v_period v)) as [period|]; simpl; [|discriminate].
  destruct (sql_bind (v_qr_latitude v)) as [qlat|]; simpl; [|discriminate].
  destruct (sql_bind (v_qr_longitude v)) as [qlon|]; simpl; [|discriminate].
  intros [= <-]. exists subject, period, qlat, qlon. auto.
Qed.

(** An accepted attempt is an insert that went through. *)
Lemma redeem_accepted (db : database) (qr_data : json) (clk : clock)
    (frm : attendance_form) (dev : string) (d : float) :
  snd (fst (redeem db qr_data clk frm dev)) = Accepted d ->
  exists v rows',
    snd (redeem_check db qr_data clk frm dev) = ToInsert d v
    /\ insert_attendance (attendance db) v = Some rows'
    /\ snd (redeem db qr_data clk frm dev)
       = {| qr_codes := qr_codes db; attendance := rows' |}.
Proof.
  rewrite redeem_unfold. simpl.
  destruct (snd (redeem_check db qr_data clk frm dev)) as [o|d' v] eqn:E; simpl.
  - intros ->. apply redeem_check_finished in E. discriminate.
  - destruct (insert_attendance (attendance db) v) as [rows'|] eqn:Hins; simpl;
      [|discriminate].
    intros [= ->]. exists v, rows'. repeat split. exact Hins.
Qed.

(** An attempt that is not accepted leaves the database as it was. *)
Lemma redeem_rejected (db : database) (qr_data : json) (clk : clock)
    (frm : attendance_form) (dev : string) :
  is_accepted (snd (fst (redeem db qr_data clk frm dev))) = false ->
  snd (redeem db qr_data clk frm dev) = db.
Proof.
  rewrite redeem_unfold. simpl.
  destruct (snd (redeem_check db qr_data clk frm dev)) as [o|d' v]; simpl;
    [reflexivity|].
  destruct (insert_attendance (attendance db) v); simpl;
    [discriminate|reflexivity].
Qed.

(** X1.  An attempt is accepted only when every check of [student_app]
    passed: the payload names an id under which the store holds an active
    row, the form was submitted with a name and a roll number, no record
    exists for (stripped name, subject, period, today), and the distance
    between the coordinates of the payload and those of the form was
    computed, is a number and is at most 1000. *)
Theorem accepted_attempt_passed_every_check (db : database) (qr_data : json)
    (clk : clock) (frm : attendance_form) (dev : string) (d : float) :
  snd (fst (redeem db qr_data clk frm dev)) = Accepted d ->
  exists id key qr_record subject period latitude longitude s p lat lon,
    getitem qr_data "qr_id" = Some id /\ sql_bind id = Some key
    /\ select_active_qr (qr_codes db) key = Some qr_record
    /\ submitted frm
    /\ getitem qr_data "subject" = Some subject /\ sql_bind subject = Some s
    /\ getitem qr_data "period" = Some period /\ sql_bind period = Some p
    /\ count_attendance (attendance db) (strip (form_student_name frm)) s p
         (date_of (now_check clk)) = 0%Z
    /\ getitem qr_data "latitude" = Some latitude /\ py_float latitude = Some lat
    /\ getitem qr_data "longitude" = Some longitude
    /\ py_float longitude = Some lon
    /\ calculate_distance lat lon (student_lat frm) (student_lon frm) = Some d
    /\ (d <=? 1000)%float = true /\ is_nan d = false.
Proof.
  intros H. destruct (redeem_accepted _ _ _ _ _ _ H) as (v & rows' & Hchk & _ & _).
  destruct (redeem_check_to_insert _ _ _ _ _ _ _ Hchk)
    as (subject & period & latitude & longitude & Hs & Hp & Hla & Hlo & Hv).
  destruct (verify_and_check_to_insert _ _ _ _ _ _ _ _ _ _ _ Hv)
    as (id & key & qr_record & s & p & lat & lon & Hid & Hkey & Hq & Hf & Hbs
        & Hbp & Hcount & Hlat & Hlon & Hd & Hle & _).
  exists id, key, qr_record, subject, period, latitude, longitude, s, p, lat, lon.
  repeat (split; [assumption|]). now apply leb_not_nan in Hle.
Qed.

(** What a run of [student_app] leaves. *)
Lemma student_app_effect (db : database) (uploaded_file : option image)
    (clk : clock) (frm : attendance_form) (dev : string) :
  qr_codes (snd (student_app db uploaded_file clk frm dev)) = qr_codes db
  /\ (is_accepted (snd (fst (student_app db uploaded_file clk frm dev))) = false ->
      snd (student_app db uploaded_file clk frm dev) = db)
  /\ (is_accepted (snd (fst (student_app db uploaded_file clk frm dev))) = true ->
      exists r,
        attendance (snd (student_app db uploaded_file clk frm dev))
        = (attendance db ++ [r])%list
        /\ att_id r = next_id (attendance db)
        /\ student_name r = strip (form_student_name frm)
        /\ student_roll r = Some (strip (form_student_roll frm))
        /\ timestamp r = now_commit clk
        /\ device_id r = dev
        /\ att_status r = present
        /\ marked_by r = Some "student_app"
        /\ modified_by r = None
        /\ modification_reason r = None).
Proof.
  destruct uploaded_file as [img|]; simpl;
    [|repeat split; auto; discriminate].
  set (q := read_qr_code img).
  assert (Hcodes : qr_codes (snd (redeem db q clk frm dev)) = qr_codes db).
  { rewrite redeem_unfold. simpl.
    destruct (snd (redeem_check db q clk frm dev)) as [o|d v]; simpl;
      [reflexivity|].
    destruct (insert_attendance (attendance db) v); reflexivity. }
  split; [exact Hcodes|]. split; [apply redeem_rejected|].
  intros H.
  destruct (snd (fst (redeem db q clk frm dev))) as [| | | | | | | |d|] eqn:E;
    try discriminate.
  destruct (redeem_accepted _ _ _ _ _ _ E) as (v & rows' & Hchk & Hins & ->).
  destruct (redeem_check_to_insert _ _ _ _ _ _ _ Hchk)
    as (subject & period & latitude & longitude & _ & _ & _ & _ & Hv).
  destruct (verify_and_check_to_insert _ _ _ _ _ _ _ _ _ _ _ Hv)
    as (id & key & qr_record & s & p & lat & lon & _ & _ & _ & _ & _ & _ & _
        & _ & _ & _ & _ & ->).
  destruct (insert_attendance_appends _ _ _ Hins)
    as (subject' & period' & qlat & qlon & _ & _ & _ & _ & ->).
  eexists. split; [reflexivity|]. repeat split.
Qed.

(** X2.  [student_app] never changes the stored tokens; a run that does not
    end on the page of success leaves the whole database as it was; and a
    run that does appends one record and changes no other: the new record
    has the next id, the stripped name and roll number of the form, the
    instant of the commit, the device id, status present, origin
    student_app and no modification. *)
Theorem only_an_accepted_attempt_writes (db : database)
    (uploaded_file : option image) (clk : clock) (frm : attendance_form)
    (dev : string) :
  qr_codes (snd (student_app db uploaded_file clk frm dev)) = qr_codes db
  /\ (is_accepted (snd (fst (student_app db uploaded_file clk frm dev))) = false ->
      snd (student_app db uploaded_file clk frm dev) = db)
  /\ (is_accepted (snd (fst (student_app db uploaded_file clk frm dev))) = true ->
      exists r,
        attendance (snd (student_app db uploaded_file clk frm dev))
        = (attendance db ++ [r])%list
        /\ att_id r = next_id (attendance db)
        /\ student_name r = strip (form_student_name frm)
        /\ student_roll r = Some (strip (form_student_roll frm))
        /\ timestamp r = now_commit clk
        /\ device_id r = dev
        /\ att_status r = present
        /\ marked_by r = Some "student_app"
        /\ modified_by r = None
        /\ modification_reason r = None).
Proof. apply student_app_effect. Qed.

(** X3.  A decoded payload that is not an object never reaches the
    database: the page is the one for an unreadable code when the payload
    is falsy or does not contain ['qr_id'], and an exception leaves
    [student_app] otherwise (a number or a boolean under [in], a list or a
    string under [qr_data['subject']]).  An object without ['qr_id'] is
    unreadable; an object with ['qr_id'] that lacks one of the four fields
    the page displays raises out of [student_app].  None of these writes. *)
Theorem payload_without_its_fields (db : database) (qr_data : json)
    (clk : clock) (frm : attendance_form) (dev : string) :
  ((forall items, qr_data <> JObj items) ->
   (truthy qr_data = false \/ contains "qr_id" qr_data = Some false ->
    redeem db qr_data clk frm dev = (None, Unreadable (truthy qr_data), db))
   /\ (truthy qr_data = true -> contains "qr_id" qr_data <> Some false ->
       redeem db qr_data clk frm dev = (None, ApplicationError, db)))
  /\ (forall items, qr_data = JObj items -> dict_get items "qr_id" = None ->
        redeem db qr_data clk frm dev = (None, Unreadable (truthy qr_data), db))
  /\ (forall items id, qr_data = JObj items -> dict_get items "qr_id" = Some id ->
        dict_get items "subject" = None \/ dict_get items "period" = None
        \/ dict_get items "latitude" = None \/ dict_get items "longitude" = None ->
        redeem db qr_data clk frm dev = (None, ApplicationError, db)).
Proof.
  split; [|split].
  - intros Hobj. split.
    + intros H. unfold redeem, redeem_check.
      destruct (truthy qr_data); simpl; [|reflexivity].
      destruct H as [H|H]; [discriminate|]. now rewrite H.
    + intros Ht Hc. unfold redeem, redeem_check. rewrite Ht.
      destruct (contains "qr_id" qr_data) as [[]|] eqn:E; try congruence;
        [|reflexivity].
      destruct qr_data; simpl; try reflexivity. now destruct (Hobj items).
  - intros items -> Hid. unfold redeem, redeem_check. simpl.
    rewrite Hid. now destruct items.
  - intros items id -> Hid H. unfold redeem, redeem_check. simpl.
    rewrite Hid. destruct items as [|kv items]; [discriminate|].
    destruct H as [H|[H|[H|H]]]; rewrite H;
      repeat match goal with
             | |- context [match ?x with Some _ => _ | None => _ end] => destruct x
             end; reflexivity.
Qed.

(** The page "Database error" is shown with the database as it was, and
    for one of the causes listed in [database_error_cause]. *)
Lemma database_error_from_reads (db : database) (qr_data : json) (clk : clock)
    (frm : attendance_form) (dev : string) :
  snd (redeem_check db qr_data clk frm dev) = Finished DatabaseError ->
  database_error_cause qr_data frm.
Proof.
  unfold redeem_check.
  destruct (if truthy qr_data then contains "qr_id" qr_data else Some false)
    as [[]|] eqn:Htest; simpl; try discriminate.
  destruct (getitem qr_data "subject") as [subject|] eqn:Hs; simpl;
    [|discriminate].
  destruct (getitem qr_data "period") as [period|] eqn:Hp; simpl; [|discriminate].
  destruct (getitem qr_data "latitude") as [latitude|] eqn:Hla; simpl;
    [|discriminate].
  destruct (getitem qr_data "longitude") as [longitude|] eqn:Hlo; simpl;
    [|discriminate].
  destruct (verify_and_check _ _ _ _ _ _ _ _ _) as [p|] eqn:E.
  - intros ->. apply verify_and_check_finished in E. now destruct E as (_ & E & _).
  - intros _. unfold verify_and_check in E.
    destruct (getitem_dict _ _ _ Hs) as (items & -> & _).
    destruct (getitem (JObj items) "qr_id") as [id|] eqn:Hid; simpl in E.
    2:{ simpl in Htest, Hid. rewrite Hid in Htest. now destruct items. }
    destruct (sql_bind id) as [key|] eqn:Hkey; simpl in E;
      [|left; eauto].
    destruct (select_active_qr (qr_codes db) key); [|discriminate].
    destruct (submit_attendance frm && _ && _);
      [|destruct (submit_attendance frm); discriminate].
    destruct (sql_bind subject) as [s|] eqn:Hbs; simpl in E;
      [|right; left; eauto].
    destruct (sql_bind period) as [p|] eqn:Hbp; simpl in E;
      [|right; right; left; eauto].
    destruct (_ >? 0)%Z; [discriminate|].
    destruct (py_float latitude) as [lat|] eqn:Hlat; simpl in E;
      [|right; right; right; left; eauto].
    destruct (py_float longitude) as [lon|] eqn:Hlon; simpl in E;
      [|right; right; right; right; left; eauto].
    destruct (calculate_distance _ _ _ _) as [d'|] eqn:Hd; simpl in E.
    + destruct (d' <=? 1000)%float; discriminate.
    + right; right; right; right; right.
      exists latitude, longitude, lat, lon. auto.
Qed.

Lemma sql_text_none (v : sqlval) : sql_text v = None -> v = SqlNull.
Proof. destruct v; simpl; congruence. Qed.

(** X4.  The page "Database error" of [student_app] is shown with the
    database as it was, and only for one of these causes: the id, the
    subject or the period of the payload cannot be bound as a parameter,
    the subject or the period is null, a coordinate of the payload is
    rejected by [float] or by the binding, or the distance computation
    raised. *)
Theorem database_error_has_a_cause (db : database) (qr_data : json)
    (clk : clock) (frm : attendance_form) (dev : string) :
  snd (fst (redeem db qr_data clk frm dev)) = DatabaseError ->
  snd (redeem db qr_data clk frm dev) = db /\ database_error_cause qr_data frm.
Proof.
  intros H. split; [apply redeem_rejected; now rewrite H|].
  rewrite redeem_unfold in H. simpl in H.
  destruct (snd (redeem_check db qr_data clk frm dev)) as [o|d v] eqn:E;
    simpl in H.
  - subst o. now apply database_error_from_reads in E.
  - destruct (redeem_check_to_insert _ _ _ _ _ _ _ E)
      as (subject & period & latitude & longitude & Hs & Hp & Hla & Hlo & Hv).
    destruct (verify_and_check_to_insert _ _ _ _ _ _ _ _ _ _ _ Hv)
      as (id & key & qr_record & s & p & lat & lon & _ & _ & _ & _ & Hbs & Hbp
          & _ & _ & _ & _ & _ & ->).
    unfold insert_attendance in H. simpl in H.
    destruct (sql_text s) eqn:Hts; simpl in H.
    2:{ apply sql_text_none in Hts. subst s. right; left. eauto. }
    destruct (sql_text p) eqn:Htp; simpl in H.
    2:{ apply sql_text_none in Htp. subst p. right; right; left. eauto. }
    destruct (sql_bind latitude) eqn:Hbla; simpl in H.
    2:{ right; right; right; left. eauto. }
    destruct (sql_bind longitude) eqn:Hblo; simpl in H.
    2:{ right; right; right; right; left. eauto. }
    discriminate.
Qed.
End AttemptFacts.

(** ** Records on the tables the application produces *)

Section RecordFacts.
Context {P : Platform}.

Lemma next_id_above (rows : list attendance_row) :
  Forall (fun r => (att_id r < next_id rows)%Z) rows /\ (0 < next_id rows)%Z.
Proof.
  unfold next_id. induction rows as [|x rows [IH Hpos]]; simpl.
  - split; [constructor|lia].
  - split; [|lia]. constructor; [lia|].
    eapply Forall_impl; [|exact IH]. simpl. intros r Hr. lia.
Qed.

Lemma update_row_id (record_id : Z) (new_status : status)
    (faculty_id reason : string) (r : attendance_row) :
  att_id (update_row record_id new_status faculty_id reason r) = att_id r.
Proof. unfold update_row. destruct (att_id r =? record_id)%Z; reflexivity. Qed.

Lemma update_row_well_formed (record_id : Z) (new_status : status)
    (faculty_id reason : string) (r : attendance_row) :
  well_formed_record r ->
  well_formed_record (update_row record_id new_status faculty_id reason r).
Proof. unfold update_row. destruct (att_id r =? record_id)%Z; auto. Qed.

Lemma reachable_records (db : database) :
  reachable db ->
  NoDup (map att_id (attendance db)) /\ Forall well_formed_record (attendance db).
Proof.
  induction 1 as [codes|db db' f new_id now fac q img _ IH Hgen
                 |db q clk frm dev _ IH|db rid st fac reason _ IH].
  - split; constructor.
  - unfold generate_qr_page in Hgen.
    destruct (generate_button f && _); [|discriminate].
    destruct (insert_qr_code _ _); [|discriminate].
    injection Hgen as <- _ _. exact IH.
  - destruct (is_accepted (snd (fst (redeem db q clk frm dev)))) eqn:Hacc.
    2:{ now rewrite (redeem_rejected _ _ _ _ _ Hacc). }
    destruct (snd (fst (redeem db q clk frm dev))) as [| | | | | | | |d|] eqn:E;
      try discriminate.
    destruct (redeem_accepted _ _ _ _ _ _ E) as (v & rows' & Hchk & Hins & ->).
    destruct (redeem_check_to_insert _ _ _ _ _ _ _ Hchk)
      as (subject & period & latitude & longitude & _ & _ & _ & _ & Hv).
    destruct (verify_and_check_to_insert _ _ _ _ _ _ _ _ _ _ _ Hv)
      as (id & key & qr_record & s & p & lat & lon & _ & _ & _ & Hf & _ & _ & _
          & _ & _ & _ & _ & ->).
    destruct (insert_attendance_appends _ _ _ Hins)
      as (subject' & period' & qlat & qlon & _ & _ & _ & _ & ->).
    destruct IH as [Hnd Hwf]. destruct Hf as (_ & Hname & Hroll).
    destruct (next_id_above (attendance db)) as [Habove Hpos].
    simpl. split.
    + rewrite map_app. simpl. apply NoDup_app; [exact Hnd|repeat constructor; simpl; tauto|].
      intros a Ha [<-|[]]. apply in_map_iff in Ha. destruct Ha as (x & Hx & Hin).
      rewrite Forall_forall in Habove. specialize (Habove x Hin). simpl in Hx. lia.
    + apply Forall_app. split; [exact Hwf|]. repeat constructor; simpl.
      * exact Hpos.
      * exact Hname.
      * apply strip_idempotent.
      * eexists. split; [reflexivity|]. now apply strip_trimmed.
  - destruct IH as [Hnd Hwf]. simpl. split.
    + rewrite map_map. erewrite map_ext; [exact Hnd|]. intros r. apply update_row_id.
    + apply Forall_forall. intros r' Hin.
      apply in_map_iff in Hin. destruct Hin as (r & <- & Hin).
      rewrite Forall_forall in Hwf. apply update_row_well_formed. auto.
Qed.

(** X5.  On every table the application produces (by issuing codes, by
    attempts of redemption on any payload, by administrative edits), the
    ids of the attendance records are pairwise distinct, and every record
    has a positive id, a name and a roll number that are not empty and
    carry no white space at either end, and the origin student_app. *)
Theorem stored_records_are_well_formed (db : database) :
  reachable db ->
  NoDup (map att_id (attendance db)) /\ Forall well_formed_record (attendance db).
Proof. apply reachable_records. Qed.

Lemma update_row_other (record_id : Z) (new_status : status)
    (faculty_id reason : string) (rows : list attendance_row) :
  (forall r, In r rows -> att_id r <> record_id) ->
  map (update_row record_id new_status faculty_id reason) rows = rows.
Proof.
  intros H. induction rows as [|x rows IH]; simpl; [reflexivity|].
  rewrite IH by (intros r Hr; apply H; now right).
  f_equal. unfold update_row.
  destruct (att_id x =? record_id)%Z eqn:E; [|reflexivity].
  apply Z.eqb_eq in E. exfalso. apply (H x); [now left|exact E].
Qed.

(** X6.  An administrative edit changes one record and nothing else: on a
    table the application has produced, the UPDATE that names the id of a
    stored record replaces that record by itself with the new status, the
    editor and the reason, and leaves every other record, the order of the
    records and the stored tokens as they were; an UPDATE that names an id
    no record has changes nothing. *)
Theorem edit_changes_one_record (db : database) (record_id : Z)
    (new_status : status) (faculty_id reason : string) :
  reachable db ->
  (forall r, In r (attendance db) -> att_id r = record_id ->
     exists before after,
       attendance db = (before ++ r :: after)%list
       /\ edit_attendance db record_id new_status faculty_id reason
          = {| qr_codes := qr_codes db;
               attendance :=
                 (before ++ edited new_status faculty_id reason r :: after)%list |})
  /\ ((forall r, In r (attendance db) -> att_id r <> record_id) ->
      edit_attendance db record_id new_status faculty_id reason = db).
Proof.
  intros Hreach. destruct (reachable_records db Hreach) as [Hnd _].
  split.
  - intros r Hin Hid. apply in_split in Hin. destruct Hin as (before & after & E).
    exists before, after. split; [exact E|].
    unfold edit_attendance. f_equal. rewrite E in *.
    rewrite map_app in Hnd. simpl in Hnd. apply NoDup_remove_2 in Hnd.
    rewrite map_app. simpl. f_equal; [|f_equal].
    + apply update_row_other. intros x Hx Hxid. apply Hnd.
      apply in_or_app. left. apply in_map_iff. exists x. split; [congruence|exact Hx].
    + unfold update_row, edited. apply Z.eqb_eq in Hid. now rewrite Hid.
    + apply update_row_other. intros x Hx Hxid. apply Hnd.
      apply in_or_app. right. apply in_map_iff. exists x. split; [congruence|exact Hx].
  - intros H. unfold edit_attendance. rewrite (update_row_other _ _ _ _ _ H).
    now destruct db.
Qed.

Lemma update_row_twice (record_id : Z) (s1 s2 : status) (f1 r1 f2 r2 : string)
    (r : attendance_row) :
  update_row record_id s2 f2 r2 (update_row record_id s1 f1 r1 r)
  = update_row record_id s2 f2 r2 r.
Proof.
  unfold update_row. destruct (att_id r =? record_id)%Z eqn:E; simpl; rewrite E;
    reflexivity.
Qed.

Lemma update_row_swap (id1 id2 : Z) (s1 s2 : status) (f1 r1 f2 r2 : string)
    (r : attendance_row) :
  id1 <> id2 ->
  update_row id2 s2 f2 r2 (update_row id1 s1 f1 r1 r)
  = update_row id1 s1 f1 r1 (update_row id2 s2 f2 r2 r).
Proof.
  intros Hne. unfold update_row.
  destruct (att_id r =? id1)%Z eqn:E1, (att_id r =? id2)%Z eqn:E2; simpl;
    rewrite ?E1, ?E2; try reflexivity.
  apply Z.eqb_eq in E1, E2. congruence.
Qed.

(** X7.  No history of edits is kept: a second edit of a record erases the
    status, the editor and the reason of the first, so that the table is
    what the second edit alone would have left; and edits of two different
    records can be made in either order. *)
Theorem last_edit_wins (db : database) (record_id : Z) (s1 s2 : status)
    (f1 r1 f2 r2 : string) :
  edit_attendance (edit_attendance db record_id s1 f1 r1) record_id s2 f2 r2
  = edit_attendance db record_id s2 f2 r2
  /\ (forall other, other <> record_id ->
        edit_attendance (edit_attendance db record_id s1 f1 r1) other s2 f2 r2
        = edit_attendance (edit_attendance db other s2 f2 r2) record_id s1 f1 r1).
Proof.
  unfold edit_attendance. simpl. split.
  - f_equal. rewrite map_map. apply map_ext. intros r. apply update_row_twice.
  - intros other Hne. f_equal. rewrite !map_map. apply map_ext. intros r.
    apply update_row_swap. congruence.
Qed.

Lemma same_attendance_update (name : string) (s p : sqlval) (today : Z)
    (record_id : Z) (new_status : status) (faculty_id reason : string)
    (r : attendance_row) :
  same_attendance name s p today (update_row record_id new_status faculty_id reason r)
  = same_attendance name s p today r.
Proof. unfold update_row. destruct (att_id r =? record_id)%Z; reflexivity. Qed.

Lemma count_attendance_edit (rows : list attendance_row) (name : string)
    (s p : sqlval) (today : Z) (record_id : Z) (new_status : status)
    (faculty_id reason : string) :
  count_attendance (map (update_row record_id new_status faculty_id reason) rows)
    name s p today
  = count_attendance rows name s p today.
Proof.
  unfold count_attendance. f_equal.
  induction rows as [|x rows IH]; simpl; [reflexivity|].
  rewrite same_attendance_update.
  destruct (same_attendance name s p today x); simpl; now rewrite IH.
Qed.

Lemma insert_attendance_any (rows rows' : list attendance_row) (v : insert_values) :
  insert_attendance rows v = None -> insert_attendance rows' v = None.
Proof.
  unfold insert_attendance.
  destruct (sql_text (v_subject v)); simpl; [|reflexivity].
  destruct (sql_text (v_period v)); simpl; [|reflexivity].
  destruct (sql_bind (v_qr_latitude v)); simpl; [|reflexivity].
  destruct (sql_bind (v_qr_longitude v)); simpl; [|reflexivity].
  discriminate.
Qed.

(** X8.  An administrative edit does not change what a later attempt ends
    on: the duplicate query looks at the name, subject, period and day of a
    record, which no edit touches, and not at its status.  So a claimant
    whose record was set to absent is still told that attendance is
    already marked. *)
Theorem edits_do_not_reopen_a_key (db : database) (record_id : Z)
    (new_status : status) (faculty_id reason : string) (qr_data : json)
    (clk : clock) (frm : attendance_form) (dev : string) :
  fst (redeem (edit_attendance db record_id new_status faculty_id reason)
         qr_data clk frm dev)
  = fst (redeem db qr_data clk frm dev).
Proof.
  set (db' := edit_attendance db record_id new_status faculty_id reason).
  assert (Hchk : redeem_check db' qr_data clk frm dev
                 = redeem_check db qr_data clk frm dev).
  { unfold redeem_check.
    destruct (if truthy qr_data then contains "qr_id" qr_data else Some false)
      as [[]|]; try reflexivity.
    destruct (getitem qr_data "subject") as [subject|]; [|reflexivity].
    destruct (getitem qr_data "period") as [period|]; [|reflexivity].
    destruct (getitem qr_data "latitude") as [latitude|]; [|reflexivity].
    destruct (getitem qr_data "longitude") as [longitude|]; [|reflexivity].
    unfold verify_and_check, db', edit_attendance. simpl.
    destruct (getitem qr_data "qr_id") as [id|]; simpl; [|reflexivity].
    destruct (sql_bind id) as [key|]; simpl; [|reflexivity].
    destruct (select_active_qr (qr_codes db) key); [|reflexivity].
    destruct (submit_attendance frm && _ && _); [|reflexivity].
    destruct (sql_bind subject) as [s|]; simpl; [|reflexivity].
    destruct (sql_bind period) as [p|]; simpl; [|reflexivity].
    now rewrite count_attendance_edit. }
  rewrite !redeem_unfold, Hchk. cbn [fst snd].
  destruct (snd (redeem_check db qr_data clk frm dev)) as [o|d v];
    cbn [redeem_commit]; [reflexivity|].
  destruct (insert_attendance (attendance db) v) as [rows|] eqn:E.
  - destruct (insert_attendance (attendance db') v) as [rows'|] eqn:E';
      [reflexivity|].
    apply (insert_attendance_any _ (attendance db)) in E'. congruence.
  - now rewrite (insert_attendance_any _ (attendance db') _ E).
Qed.
End RecordFacts.

(** ** Issuing a token *)

Section IssueFacts.
Context {P : Platform}.

Lemma find_app_last {A : Type} (f : A -> bool) (l : list A) (x : A) :
  find f (l ++ [x])
  = match find f l with
    | Some y => Some y
    | None => if f x then Some x else None
    end.
Proof.
  induction l as [|y l IH]; simpl; [reflexivity|].
  destruct (f y); [reflexivity|exact IH].
Qed.

Lemma find_fresh_id (rows : list qr_row) (id : string) :
  existsb (fun r' => qr_id r' =? id) rows = false ->
  select_active_qr rows (SqlText id) = None.
Proof.
  intros H. apply select_active_none. intros r Hin Hid. exfalso.
  assert (Hex : existsb (fun r' => qr_id r' =? id) rows = true).
  { apply existsb_exists. exists r. split; [exact Hin|]. now apply String.eqb_eq. }
  congruence.
Qed.

(** What [generate_qr_page] leaves when it issues. *)
Lemma issued_inv (db db' : database) (f : issue_form) (new_id : string) (now : Z)
    (faculty_id : string) (qr_data : json) (img : option image) :
  generate_qr_page db f new_id now faculty_id = Issued db' qr_data img ->
  existsb (fun r' => qr_id r' =? new_id) (qr_codes db) = false
  /\ db' = {| qr_codes := (qr_codes db ++ [issued_row f new_id now faculty_id])%list;
              attendance := attendance db |}
  /\ qr_data = qr_payload new_id (form_subject f) (form_period f) (form_latitude f)
                 (form_longitude f) now (now + duration f * usec_per_minute)%Z
  /\ img = generate_qr_code qr_data.
Proof.
  unfold generate_qr_page, insert_qr_code.
  destruct (generate_button f && _); [|discriminate]. simpl.
  destruct (existsb _ (qr_codes db)) eqn:E; [discriminate|].
  intros H. inversion H. repeat split.
Qed.

(** X9.  [generate_qr_page] stores what it encodes.  When it issues, the
    payload carries the id, subject, period and anchor of the form, the
    store gains one active row with the same fields and an expiry
    [duration] minutes after the creation, the attendance records and the
    rows already stored are untouched, the liveness query finds the new
    row under the new id and still finds every row it found before, and
    ids that were unique stay unique.  Where [fromisoformat] reads back
    what [isoformat] wrote, the validity line of the payload turns to
    "expired" exactly after that expiry. *)
Theorem issued_token_is_stored_and_live (db db' : database) (f : issue_form)
    (new_id : string) (now : Z) (faculty_id : string) (qr_data : json)
    (img : option image) :
  generate_qr_page db f new_id now faculty_id = Issued db' qr_data img ->
  let row := issued_row f new_id now faculty_id in
  let expires := (now + duration f * usec_per_minute)%Z in
  carries qr_data new_id (form_subject f) (form_period f) (form_latitude f)
    (form_longitude f)
  /\ qr_codes db' = (qr_codes db ++ [row])%list
  /\ attendance db' = attendance db
  /\ select_active_qr (qr_codes db') (SqlText new_id) = Some row
  /\ (forall key r, select_active_qr (qr_codes db) key = Some r ->
                    select_active_qr (qr_codes db') key = Some r)
  /\ (NoDup (map qr_id (qr_codes db)) -> NoDup (map qr_id (qr_codes db')))
  /\ (fromisoformat (isoformat expires) = Some expires ->
      forall t, shown_validity qr_data t
                = if (t >? expires)%Z then QRExpired expires else ValidUntil expires).
Proof.
  intros H row expires.
  apply issued_inv in H. destruct H as (Hfresh & -> & -> & _).
  split; [repeat split|]. split; [reflexivity|]. split; [reflexivity|].
  split; [|split; [|split]].
  - simpl. unfold select_active_qr in *. rewrite find_app_last.
    fold (select_active_qr (qr_codes db) (SqlText new_id)).
    rewrite (find_fresh_id _ _ Hfresh). unfold text_eq. simpl.
    now rewrite String.eqb_refl.
  - intros key r Hr. simpl. unfold select_active_qr in *.
    now rewrite find_app_last, Hr.
  - intros Hnd. simpl.
    apply (insert_qr_code_unique (qr_codes db) _ row Hnd).
    unfold insert_qr_code. simpl. now rewrite Hfresh.
  - intros Hiso t. unfold shown_validity. simpl. fold expires. now rewrite Hiso.
Qed.

(** X10.  A token that [generate_qr_page] has just issued can be redeemed:
    an attempt on its payload, with a name and a roll number, by a claimant
    without a record for the subject, period and day, whose distance [d] to
    the anchor of the form is at most 1000, is accepted, and its record
    copies the subject, period and anchor of the form. *)
Theorem issued_token_redeems (db db' : database) (f : issue_form)
    (new_id : string) (now : Z) (faculty_id : string) (qr_data : json)
    (img : option image) (clk : clock) (frm : attendance_form) (dev : string)
    (d : float) :
  generate_qr_page db f new_id now faculty_id = Issued db' qr_data img ->
  submitted frm ->
  count_attendance (attendance db) (strip (form_student_name frm))
    (SqlText (form_subject f)) (SqlText (form_period f))
    (date_of (now_check clk)) = 0%Z ->
  calculate_distance (form_latitude f) (form_longitude f) (student_lat frm)
    (student_lon frm) = Some d ->
  (d <=? 1000)%float = true ->
  redeem db' qr_data clk frm dev
  = (Some (shown_validity qr_data (now_display clk)), Accepted d,
     {| qr_codes := qr_codes db';
        attendance :=
          (attendance db
           ++ [accepted_row (attendance db) (form_subject f) (form_period f)
                 (form_latitude f) (form_longitude f) clk frm dev])%list |}).
Proof.
  intros H Hf Hcount Hd Hle. apply issued_inv in H.
  destruct H as (Hfresh & -> & -> & _).
  set (q := qr_payload _ _ _ _ _ _ _).
  set (db' := {| qr_codes := _; attendance := attendance db |}).
  assert (Hc : carries q new_id (form_subject f) (form_period f) (form_latitude f)
                 (form_longitude f)) by (repeat split).
  assert (Hq : select_active_qr (qr_codes db') (SqlText new_id)
               = Some (issued_row f new_id now faculty_id)).
  { simpl. unfold select_active_qr. rewrite find_app_last.
    fold (select_active_qr (qr_codes db) (SqlText new_id)).
    rewrite (find_fresh_id _ _ Hfresh). unfold text_eq. simpl.
    now rewrite String.eqb_refl. }
  rewrite redeem_unfold.
  rewrite (redeem_at_duplicate_check db' q clk frm dev _ _ _ _ _ _ Hc Hq Hf).
  rewrite (redeem_check_token db' q clk frm dev _ _ _ _ _ Hc).
  cbn [attendance db']. rewrite Hcount, Hd, Hle.
  change (0 >? 0)%Z with false.
  cbn [fst snd redeem_commit attendance]. rewrite insert_accepted. reflexivity.
Qed.
End IssueFacts.

(** ** Accounts *)

Section AccountFacts.
Context {Rt : Runtime}.

Lemma admin_exists_iff (rows : list faculty_row) :
  admin_exists rows = true <-> exists r, In r rows /\ role r = "admin".
Proof.
  unfold admin_exists. rewrite Z.gtb_ltb, Z.ltb_lt. split.
  - intros H. destruct (filter _ rows) as [|r l] eqn:E; [simpl in H; lia|].
    exists r. assert (Hin : In r (filter (fun r => role r =? "admin") rows))
      by (rewrite E; now left).
    apply filter_In in Hin. destruct Hin as [Hin Hr]. split; [exact Hin|].
    now apply String.eqb_eq.
  - intros (r & Hin & Hr).
    assert (Hf : In r (filter (fun r => role r =? "admin") rows)).
    { apply filter_In. split; [exact Hin|]. now apply String.eqb_eq. }
    destruct (filter _ rows); [contradiction|]. simpl. lia.
Qed.

Lemma insert_faculty_inv (rows rows' : list faculty_row) (r : faculty_row) :
  insert_faculty rows r = Some rows' ->
  rows' = (rows ++ [r])%list /\ ~ In (fac_faculty_id r) (map fac_faculty_id rows).
Proof.
  unfold insert_faculty.
  destruct (existsb _ rows) eqn:E; [discriminate|]. intros [= <-].
  split; [reflexivity|]. intros Hin. apply in_map_iff in Hin.
  destruct Hin as (x & Hx & Hin).
  assert (Hex : existsb (fun r' => fac_faculty_id r' =? fac_faculty_id r) rows = true).
  { apply existsb_exists. exists x. split; [exact Hin|]. now apply String.eqb_eq. }
  congruence.
Qed.

Lemma insert_faculty_exists (rows : list faculty_row) (r : faculty_row) :
  insert_faculty rows r = None <-> In (fac_faculty_id r) (map fac_faculty_id rows).
Proof.
  unfold insert_faculty. destruct (existsb _ rows) eqn:E.
  - split; [intros _|reflexivity]. apply existsb_exists in E.
    destruct E as (x & Hin & Hx). apply String.eqb_eq in Hx.
    apply in_map_iff. eauto.
  - split; [discriminate|]. intros Hin. apply in_map_iff in Hin.
    destruct Hin as (x & Hx & Hin).
    assert (Hex : existsb (fun r' => fac_faculty_id r' =? fac_faculty_id r) rows
                  = true).
    { apply existsb_exists. exists x. split; [exact Hin|]. now apply String.eqb_eq. }
    congruence.
Qed.

Lemma insert_all_faculty (new rows rows' : list faculty_row) :
  insert_all insert_faculty rows new = Some rows' -> rows' = (rows ++ new)%list.
Proof.
  revert rows. induction new as [|r new IH]; intros rows; simpl.
  - intros [= <-]. now rewrite app_nil_r.
  - destruct (insert_faculty rows r) as [rows1|] eqn:E; simpl; [|discriminate].
    apply insert_faculty_inv in E. destruct E as [-> _].
    intros H. apply IH in H. now rewrite <- app_assoc in H.
Qed.

(** The seeding of [init_database]. *)
Lemma init_database_inv (db db' : school) :
  init_database db = Some db' ->
  (admin_exists (faculty db) = true /\ db' = db)
  \/ (admin_exists (faculty db) = false
      /\ exists samples pupils,
           faculty db' = (faculty db ++ default_admin :: samples)%list
           /\ students db' = pupils
           /\ tables db' = tables db /\ announcements db' = announcements db).
Proof.
  unfold init_database. destruct (admin_exists (faculty db)) eqn:E.
  - intros [= <-]. now left.
  - destruct (insert_faculty (faculty db) default_admin) as [rows1|] eqn:E1;
      cbn [bind]; [|discriminate].
    destruct (insert_all insert_faculty rows1
                (map sample_faculty_row sample_faculty)) as [rows2|] eqn:E2;
      cbn [bind]; [|discriminate].
    destruct (insert_all insert_student (students db)
                (map sample_student_row sample_students)) as [rows3|];
      cbn [bind]; [|discriminate].
    intros [= <-]. right. split; [reflexivity|].
    apply insert_faculty_inv in E1. destruct E1 as [-> _].
    apply insert_all_faculty in E2. subst rows2.
    eexists. eexists. simpl. rewrite <- app_assoc. repeat split.
Qed.

(** X11.  [init_database] seeds once.  When it returns, an account of role
    'admin' exists, and the tokens, records and announcements are as they
    were; on a database that already holds an admin it changes nothing, so
    a second call changes nothing.  On an empty database file it returns
    with the default admin ADMIN001 and the five sample faculty members,
    each active, and the five sample students. *)
Theorem init_database_seeds_once (db db' : school) :
  init_database db = Some db' ->
  admin_exists (faculty db') = true
  /\ tables db' = tables db
  /\ announcements db' = announcements db
  /\ (admin_exists (faculty db) = true -> db' = db)
  /\ init_database db' = Some db'
  /\ (db = empty_school ->
      map fac_faculty_id (faculty db') = seed_ids
      /\ map role (faculty db')
         = ["admin"; "faculty"; "faculty"; "faculty"; "faculty"; "faculty"]
      /\ forallb fac_is_active (faculty db') = true
      /\ map roll_number (students db')
         = ["2024001"; "2024002"; "2024003"; "2024004"; "2024005"]).
Proof.
  intros H.
  assert (Hadmin : admin_exists (faculty db') = true).
  { destruct (init_database_inv _ _ H) as [[Ha ->]|(_ & samples & pupils & Hf & _)];
      [exact Ha|].
    apply admin_exists_iff. exists default_admin. split; [|reflexivity].
    rewrite Hf. apply in_or_app. right. now left. }
  split; [exact Hadmin|].
  split; [|split; [|split; [|split]]].
  - destruct (init_database_inv _ _ H) as [[_ ->]|(_ & ? & ? & _ & _ & Ht & _)]; auto.
  - destruct (init_database_inv _ _ H) as [[_ ->]|(_ & ? & ? & _ & _ & _ & Ha)]; auto.
  - intros Ha. destruct (init_database_inv _ _ H) as [[_ ->]|(Hn & _)]; congruence.
  - unfold init_database. now rewrite Hadmin.
  - intros ->. vm_compute in H. injection H as <-. repeat split.
Qed.

Lemma user_management_inv (rows : list faculty_row) (f : add_faculty_form) :
  (fst (user_management rows f) = FacultyAdded
   /\ snd (user_management rows f) = (rows ++ [new_faculty_row f])%list
   /\ ~ known_account rows (str_upper (new_faculty_id f))
   /\ add_faculty_submitted f = true
   /\ new_faculty_id f <> "" /\ new_name f <> "" /\ new_password f <> "")
  \/ (fst (user_management rows f) = FacultyIdExists
      /\ snd (user_management rows f) = rows
      /\ known_account rows (str_upper (new_faculty_id f))
      /\ add_faculty_submitted f = true
      /\ new_faculty_id f <> "" /\ new_name f <> "" /\ new_password f <> "")
  \/ (fst (user_management rows f) = RequiredFieldsMissing
      /\ snd (user_management rows f) = rows
      /\ add_faculty_submitted f = true
      /\ (new_faculty_id f = "" \/ new_name f = "" \/ new_password f = ""))
  \/ (fst (user_management rows f) = NoFacultyMessage
      /\ snd (user_management rows f) = rows
      /\ add_faculty_submitted f = false).
Proof.
  unfold user_management.
  destruct (add_faculty_submitted f); [|right; right; right; auto].
  destruct (new_faculty_id f =? "") eqn:E1; simpl.
  { apply String.eqb_eq in E1. right; right; left. repeat split; auto. }
  destruct (new_name f =? "") eqn:E2; simpl.
  { apply String.eqb_eq in E2. right; right; left. repeat split; auto. }
  destruct (new_password f =? "") eqn:E3; simpl.
  { apply String.eqb_eq in E3. right; right; left. repeat split; auto. }
  apply String.eqb_neq in E1, E2, E3.
  destruct (insert_faculty rows (new_faculty_row f)) as [rows'|] eqn:E.
  - left. apply insert_faculty_inv in E. destruct E as [-> Hnew].
    repeat split; auto.
  - right; left. apply insert_faculty_exists in E. repeat split; auto.
Qed.

(** X12.  [user_management] keeps one account per id, whatever the case of
    the letters typed: the id is stored in upper case; the form adds one
    row, of role 'faculty', active, with the hash of the password, exactly
    when it is submitted with an id, a name and a password and no account
    is stored under the upper-cased id; when one is, the page says that the
    id exists; and unless it says that the account was added, the table is
    as it was. *)
Theorem user_management_keeps_ids_unique (rows : list faculty_row)
    (f : add_faculty_form) :
  (fst (user_management rows f) = FacultyAdded
   <-> add_faculty_submitted f = true
       /\ new_faculty_id f <> "" /\ new_name f <> "" /\ new_password f <> ""
       /\ ~ known_account rows (str_upper (new_faculty_id f)))
  /\ (fst (user_management rows f) = FacultyIdExists
      <-> add_faculty_submitted f = true
          /\ new_faculty_id f <> "" /\ new_name f <> "" /\ new_password f <> ""
          /\ known_account rows (str_upper (new_faculty_id f)))
  /\ (fst (user_management rows f) = FacultyAdded ->
      snd (user_management rows f) = (rows ++ [new_faculty_row f])%list
      /\ role (new_faculty_row f) = "faculty"
      /\ fac_is_active (new_faculty_row f) = true
      /\ fac_faculty_id (new_faculty_row f) = str_upper (new_faculty_id f)
      /\ password_hash (new_faculty_row f) = sha256_hexdigest (new_password f))
  /\ (fst (user_management rows f) <> FacultyAdded ->
      snd (user_management rows f) = rows)
  /\ (NoDup (map fac_faculty_id rows) ->
      NoDup (map fac_faculty_id (snd (user_management rows f)))).
Proof.
  destruct (user_management_inv rows f)
    as [(Hm & Hr & Hk & Hs & H1 & H2 & H3)
       |[(Hm & Hr & Hk & Hs & H1 & H2 & H3)
        |[(Hm & Hr & Hs & H)|(Hm & Hr & Hs)]]]; rewrite Hm, Hr.
  - repeat split; auto; try discriminate; try tauto.
    intros Hnd. rewrite map_app. simpl.
    apply NoDup_app; [exact Hnd|repeat constructor; simpl; tauto|].
    intros a Ha [<-|[]]. exact (Hk Ha).
  - repeat split; auto; try discriminate; try tauto.
  - repeat split; auto; try discriminate; try tauto.
  - repeat split; auto; try discriminate; try congruence;
      intros (Hs' & _); congruence.
Qed.

Lemma find_unique_id (rows : list faculty_row) (row : faculty_row) :
  NoDup (map fac_faculty_id rows) -> In row rows ->
  select_faculty rows (fac_faculty_id row) = Some row.
Proof.
  unfold select_faculty. induction rows as [|x rows IH]; simpl; [contradiction|].
  intros Hnd Hin. inversion Hnd as [|? ? Hnotin Hnd']; subst.
  destruct Hin as [->|Hin]; [now rewrite String.eqb_refl|].
  destruct (fac_faculty_id x =? fac_faculty_id row) eqn:E; [|now apply IH].
  apply String.eqb_eq in E. exfalso. apply Hnotin. rewrite E. now apply in_map.
Qed.

Lemma select_faculty_some (rows : list faculty_row) (id : string)
    (row : faculty_row) :
  select_faculty rows id = Some row -> In row rows /\ fac_faculty_id row = id.
Proof.
  unfold select_faculty. intros H. apply find_some in H.
  destruct H as [Hin H]. now apply String.eqb_eq in H.
Qed.
End AccountFacts.

(** ** The login *)

Section LoginFacts.
Context {P : Platform} {Rt : Runtime}.

(** The dashboard a login leads to. *)
Lemma login_success (s : session_state) (db : school) (w : login_widgets)
    (env : environment) (row : faculty_row) :
  back_to_home w = false -> login_button w = true ->
  faculty_id_input w <> "" -> password_input w <> "" ->
  select_faculty (faculty db) (str_upper (faculty_id_input w)) = Some row ->
  fac_is_active row = true ->
  sha256_hexdigest (password_input w) = password_hash row ->
  faculty_login s db w env
  = (set_page (log_in s row)
       (if role row =? "admin" then "admin_dashboard" else "faculty_dashboard"),
     with_faculty db
       (map (touch_last_login (env_now env) (str_upper (faculty_id_input w)))
            (faculty db)),
     Rerun).
Proof.
  intros Hb Hl Hid Hpw Hsel Hact Hhash. unfold faculty_login.
  apply String.eqb_neq in Hid, Hpw.
  rewrite Hb, Hl, Hid, Hpw, Hsel, Hact. simpl.
  unfold verify_password. rewrite Hhash, String.eqb_refl. reflexivity.
Qed.

(** Every other run of the login page leaves the session and the database
    as they were, or goes back to the home page. *)
Lemma login_inv (s s' : session_state) (db db' : school) (w : login_widgets)
    (env : environment) (v : view) :
  faculty_login s db w env = (s', db', v) ->
  (s' = set_page s "home" /\ db' = db /\ v = Rerun /\ back_to_home w = true)
  \/ (exists m, s' = s /\ db' = db /\ v = FacultyLoginPage m)
  \/ (exists row,
        select_faculty (faculty db) (str_upper (faculty_id_input w)) = Some row
        /\ back_to_home w = false /\ login_button w = true
        /\ faculty_id_input w <> "" /\ password_input w <> ""
        /\ fac_is_active row = true
        /\ sha256_hexdigest (password_input w) = password_hash row
        /\ s' = set_page (log_in s row)
                  (if role row =? "admin" then "admin_dashboard"
                   else "faculty_dashboard")
        /\ db' = with_faculty db
                   (map (touch_last_login (env_now env)
                           (str_upper (faculty_id_input w))) (faculty db))
        /\ v = Rerun).
Proof.
  unfold faculty_login.
  destruct (back_to_home w) eqn:Hb; [intros [= <- <- <-]; left; auto|].
  destruct (login_button w) eqn:Hl; [|intros [= <- <- <-]; right; left; eauto].
  destruct (faculty_id_input w =? "") eqn:Hid; simpl;
    [intros [= <- <- <-]; right; left; eauto|].
  destruct (password_input w =? "") eqn:Hpw; simpl;
    [intros [= <- <- <-]; right; left; eauto|].
  destruct (select_faculty _ _) as [row|] eqn:Hsel;
    [|intros [= <- <- <-]; right; left; eauto].
  destruct (fac_is_active row) eqn:Hact;
    [|intros [= <- <- <-]; right; left; eauto].
  unfold verify_password.
  destruct (sha256_hexdigest (password_input w) =? password_hash row) eqn:Hhash;
    [|intros [= <- <- <-]; right; left; eauto].
  intros [= <- <- <-]. right; right. exists row.
  apply String.eqb_neq in Hid, Hpw. apply String.eqb_eq in Hhash.
  repeat split; auto.
Qed.

(** X13.  [faculty_login] logs a session in exactly when the upper-cased
    id names a stored account that is active and the SHA-256 of the
    password is the stored hash.  Then the session takes the id, name,
    role and department of that account, the page becomes the admin
    dashboard for the role 'admin' and the faculty dashboard otherwise, and
    only the last login of that account changes in the database.  When no
    stored account passes these tests, the page shows a message and the
    session and the database are as they were. *)
Theorem login_checks_id_flag_and_password (s : session_state) (db : school)
    (w : login_widgets) (env : environment) :
  NoDup (map fac_faculty_id (faculty db)) ->
  back_to_home w = false ->
  login_button w = true ->
  let id := str_upper (faculty_id_input w) in
  let passes row :=
    In row (faculty db) /\ fac_faculty_id row = id /\ fac_is_active row = true
    /\ faculty_id_input w <> "" /\ password_input w <> ""
    /\ sha256_hexdigest (password_input w) = password_hash row in
  (forall row, passes row ->
     faculty_login s db w env
     = (set_page (log_in s row)
          (if role row =? "admin" then "admin_dashboard" else "faculty_dashboard"),
        with_faculty db (map (touch_last_login (env_now env) id) (faculty db)),
        Rerun)
     /\ session_account (fst (fst (faculty_login s db w env))) row
     /\ logged_in (fst (fst (faculty_login s db w env))) = true)
  /\ ((forall row, ~ passes row) ->
      exists m, faculty_login s db w env = (s, db, FacultyLoginPage m)
                /\ m <> NoLoginMessage).
Proof.
  intros Hnd Hb Hl id passes. split.
  - intros row (Hin & Hid & Hact & Hi & Hp & Hhash).
    assert (Hsel : select_faculty (faculty db) id = Some row).
    { rewrite <- Hid. now apply find_unique_id. }
    rewrite (login_success s db w env row Hb Hl Hi Hp Hsel Hact Hhash).
    repeat split.
  - intros Hnone. unfold faculty_login. rewrite Hb, Hl.
    destruct (faculty_id_input w =? "") eqn:Hid; simpl;
      [eexists; split; [reflexivity|discriminate]|].
    destruct (password_input w =? "") eqn:Hpw; simpl;
      [eexists; split; [reflexivity|discriminate]|].
    fold id. destruct (select_faculty (faculty db) id) as [row|] eqn:Hsel;
      [|eexists; split; [reflexivity|discriminate]].
    destruct (fac_is_active row) eqn:Hact;
      [|eexists; split; [reflexivity|discriminate]].
    unfold verify_password.
    destruct (sha256_hexdigest (password_input w) =? password_hash row) eqn:Hhash;
      [|eexists; split; [reflexivity|discriminate]].
    exfalso. apply (Hnone row). apply select_faculty_some in Hsel.
    apply String.eqb_neq in Hid, Hpw. apply String.eqb_eq in Hhash.
    destruct Hsel. repeat split; auto.
Qed.

(** X14.  An account that [user_management] has just added can log in:
    with the id typed in any case that upper-cases to the stored id and
    with the password of the form, [faculty_login] logs the session in as
    the new account and leads to the faculty dashboard, never to the admin
    dashboard. *)
Theorem added_account_logs_in (db : school) (f : add_faculty_form)
    (s : session_state) (w : login_widgets) (env : environment) :
  fst (user_management (faculty db) f) = FacultyAdded ->
  back_to_home w = false ->
  login_button w = true ->
  faculty_id_input w <> "" ->
  str_upper (faculty_id_input w) = str_upper (new_faculty_id f) ->
  password_input w = new_password f ->
  let rows := snd (user_management (faculty db) f) in
  faculty_login s (with_faculty db rows) w env
  = (set_page (log_in s (new_faculty_row f)) "faculty_dashboard",
     with_faculty db
       (map (touch_last_login (env_now env) (str_upper (new_faculty_id f))) rows),
     Rerun).
Proof.
  intros Hadd Hb Hl Hid Hup Hpw rows.
  destruct (user_management_inv (faculty db) f)
    as [(_ & Hr & Hk & _ & _ & _ & H3)|[(Hm & _)|[(Hm & _)|(Hm & _)]]];
    try congruence.
  subst rows. rewrite Hr.
  assert (Hsel : select_faculty (faculty db ++ [new_faculty_row f])
                   (str_upper (faculty_id_input w))
                 = Some (new_faculty_row f)).
  { rewrite Hup. unfold select_faculty. rewrite find_app_last.
    destruct (find _ (faculty db)) as [x|] eqn:E.
    - apply find_some in E. destruct E as [Hin E]. apply String.eqb_eq in E.
      exfalso. apply Hk. unfold known_account. rewrite <- E. now apply in_map.
    - simpl. now rewrite String.eqb_refl. }
  rewrite (login_success s (with_faculty db _) w env (new_faculty_row f) Hb Hl Hid);
    try assumption; try reflexivity.
  - now rewrite Hup.
  - congruence.
  - now rewrite Hpw.
Qed.
End LoginFacts.

(** ** What every run keeps *)

Section InstallationFacts.
Context {P : Platform} {Rt : Runtime}.

Lemma account_of_touch (now : Z) (id : string) (r : faculty_row) :
  account_of (touch_last_login now id r) = account_of r.
Proof. unfold touch_last_login. destruct (fac_faculty_id r =? id); reflexivity. Qed.

Lemma keeps_accounts_refl (rows : list faculty_row) : keeps_accounts rows rows.
Proof. apply incl_refl. Qed.

Lemma keeps_accounts_touch (now : Z) (id : string) (rows : list faculty_row) :
  keeps_accounts rows (map (touch_last_login now id) rows).
Proof.
  unfold keeps_accounts. rewrite map_map.
  erewrite (map_ext (fun r => account_of (touch_last_login now id r)));
    [apply incl_refl|].
  intros r. apply account_of_touch.
Qed.

Lemma keeps_accounts_app (rows more : list faculty_row) :
  keeps_accounts rows (rows ++ more).
Proof. unfold keeps_accounts. rewrite map_app. apply incl_appl, incl_refl. Qed.

Lemma keeps_accounts_trans (a b c : list faculty_row) :
  keeps_accounts a b -> keeps_accounts b c -> keeps_accounts a c.
Proof. apply incl_tran. Qed.

Lemma keeps_row (rows rows' : list faculty_row) (r : faculty_row) :
  keeps_accounts rows rows' -> In r rows ->
  exists r', In r' rows' /\ account_of r' = account_of r.
Proof.
  intros Hk Hin. apply (in_map account_of) in Hin. apply Hk in Hin.
  apply in_map_iff in Hin. destruct Hin as (r' & E & Hin'). eauto.
Qed.

Lemma known_account_keeps (rows rows' : list faculty_row) (id : string) :
  keeps_accounts rows rows' -> known_account rows id -> known_account rows' id.
Proof.
  unfold known_account. intros Hk Hin. apply in_map_iff in Hin.
  destruct Hin as (r & <- & Hin).
  destruct (keeps_row _ _ _ Hk Hin) as (r' & Hin' & E).
  apply in_map_iff. exists r'. split; [|exact Hin'].
  unfold account_of in E. congruence.
Qed.

Lemma sound_session_keeps (rows rows' : list faculty_row) (s : session_state) :
  keeps_accounts rows rows' -> sound_session rows s -> sound_session rows' s.
Proof.
  intros Hk Hs Hl. destruct (Hs Hl) as (r & Hin & Hid & Hn & Hr & Hd).
  destruct (keeps_row _ _ _ Hk Hin) as (r' & Hin' & E).
  exists r'. split; [exact Hin'|]. unfold account_of in E.
  unfold session_account. injection E as -> -> -> ->. auto.
Qed.

Lemma sound_tables_keeps (rows rows' : list faculty_row) (t : database) :
  keeps_accounts rows rows' -> sound_tables rows t -> sound_tables rows' t.
Proof.
  intros Hk (Hreach & Hnd & Htok & Hed). repeat split; auto.
  - eapply Forall_impl; [|exact Htok]. intros q (Ha & id & Hby & Hkn).
    split; [exact Ha|]. exists id. eauto using known_account_keeps.
  - eapply Forall_impl; [|exact Hed]. intros a [H|(id & Hby & Hkn)]; [now left|].
    right. exists id. eauto using known_account_keeps.
Qed.

Lemma admin_exists_keeps (rows rows' : list faculty_row) :
  keeps_accounts rows rows' -> admin_exists rows = true -> admin_exists rows' = true.
Proof.
  rewrite !admin_exists_iff. intros Hk (r & Hin & Hr).
  destruct (keeps_row _ _ _ Hk Hin) as (r' & Hin' & E).
  exists r'. split; [exact Hin'|]. unfold account_of in E. congruence.
Qed.

Lemma sound_accounts_touch (now : Z) (id : string) (rows : list faculty_row) :
  sound_accounts rows -> sound_accounts (map (touch_last_login now id) rows).
Proof.
  intros [Hnd Hall]. split.
  - rewrite map_map. erewrite map_ext; [exact Hnd|].
    intros r. unfold touch_last_login. now destruct (fac_faculty_id r =? id).
  - apply Forall_forall. intros r' Hin. apply in_map_iff in Hin.
    destruct Hin as (r & <- & Hin). rewrite Forall_forall in Hall.
    specialize (Hall r Hin). unfold touch_last_login.
    destruct (fac_faculty_id r =? id); exact Hall.
Qed.

Lemma sound_accounts_added (rows : list faculty_row) (f : add_faculty_form) :
  sound_accounts rows -> sound_accounts (snd (user_management rows f)).
Proof.
  intros [Hnd Hall].
  destruct (user_management_inv rows f)
    as [(_ & Hr & Hk & _)|[(_ & Hr & _)|[(_ & Hr & _)|(_ & Hr & _)]]];
    rewrite Hr; try (split; assumption).
  split.
  - rewrite map_app. simpl.
    apply NoDup_app; [exact Hnd|repeat constructor; simpl; tauto|].
    intros a Ha [<-|[]]. exact (Hk Ha).
  - apply Forall_app. split; [exact Hall|]. constructor; [|constructor].
    split; [reflexivity|]. split; [right; now exists (new_faculty_id f)|now left].
Qed.

Lemma keeps_accounts_added (rows : list faculty_row) (f : add_faculty_form) :
  keeps_accounts rows (snd (user_management rows f)).
Proof.
  destruct (user_management_inv rows f)
    as [(_ & Hr & _)|[(_ & Hr & _)|[(_ & Hr & _)|(_ & Hr & _)]]];
    rewrite Hr; auto using keeps_accounts_refl, keeps_accounts_app.
Qed.

(** The session keys that the pages change besides the login. *)
Lemma sound_session_set_page (rows : list faculty_row) (s : session_state)
    (p : string) :
  sound_session rows s -> sound_session rows (set_page s p).
Proof. exact (fun H => H). Qed.

Lemma sound_session_set_edit (rows : list faculty_row) (s : session_state)
    (v : option Z) :
  sound_session rows s -> sound_session rows (set_edit_record_id s v).
Proof. exact (fun H => H). Qed.

Lemma sound_session_initialise (rows : list faculty_row) (s : session_state) :
  sound_session rows s -> sound_session rows (initialise s).
Proof.
  unfold sound_session, logged_in, initialise, session_account. simpl.
  destruct (faculty_logged_in s); auto.
Qed.

Lemma sound_session_log_out (rows : list faculty_row) (s : session_state) :
  sound_session rows (log_out s).
Proof. intros H. discriminate. Qed.

Lemma step_sound_same (s s' : session_state) (db : school) :
  (sound_session (faculty db) s -> sound_session (faculty db) s') ->
  step_sound s db s' db.
Proof.
  intros H Ha Ht Hs. auto using keeps_accounts_refl.
Qed.

Lemma home_page_sound (s s' : session_state) (db db' : school) (w : home_widgets)
    (env : environment) (v : view) :
  home_page s db w env = (s', db', v) -> step_sound s db s' db'.
Proof.
  unfold home_page.
  destruct (faculty_login_clicked w); [|destruct (student_app_clicked w)];
    intros [= <- <- <-]; now apply step_sound_same.
Qed.

Lemma faculty_login_sound (s s' : session_state) (db db' : school)
    (w : login_widgets) (env : environment) (v : view) :
  faculty_login s db w env = (s', db', v) -> step_sound s db s' db'.
Proof.
  intros H. apply login_inv in H.
  destruct H as [(-> & -> & _)|[(m & -> & -> & _)
                |(row & Hsel & _ & _ & _ & _ & _ & _ & -> & -> & _)]];
    try now apply step_sound_same.
  intros Ha Ht Hs. simpl.
  pose proof (keeps_accounts_touch (env_now env) (str_upper (faculty_id_input w))
                (faculty db)) as Hk.
  split; [now apply sound_accounts_touch|]. split; [eauto using sound_tables_keeps|].
  split; [|exact Hk].
  intros _. apply select_faculty_some in Hsel. destruct Hsel as [Hin _].
  destruct (keeps_row _ _ _ Hk Hin) as (r' & Hin' & E).
  exists r'. split; [exact Hin'|]. unfold account_of in E.
  injection E as E1 E2 E3 E4. unfold session_account. simpl.
  now rewrite E1, E2, E3, E4.
Qed.

Lemma faculty_dashboard_sound (s s' : session_state) (db db' : school)
    (w : faculty_dashboard_widgets) (env : environment) (v : view) :
  faculty_dashboard s db w env = (s', db', v) -> step_sound s db s' db'.
Proof.
  unfold faculty_dashboard.
  destruct (faculty_name s); [destruct (faculty_department s)|];
    try (intros [= <- <- <-]; now apply step_sound_same).
  destruct (generate_qr_clicked w); [intros [= <- <- <-]; now apply step_sound_same|].
  destruct (view_records_clicked w); [intros [= <- <- <-]; now apply step_sound_same|].
  destruct (edit_attendance_clicked w);
    [intros [= <- <- <-]; now apply step_sound_same|].
  destruct (analytics_clicked w); [intros [= <- <- <-]; now apply step_sound_same|].
  destruct (logout_clicked w); intros [= <- <- <-]; apply step_sound_same; auto.
  intros _. apply sound_session_log_out.
Qed.

Lemma admin_dashboard_sound (s s' : session_state) (db db' : school)
    (w : admin_dashboard_widgets) (v : view) :
  admin_dashboard s db w = (s', db', v) -> step_sound s db s' db'.
Proof.
  unfold admin_dashboard.
  destruct (faculty_name s); [|intros [= <- <- <-]; now apply step_sound_same].
  destruct (admin_logout_clicked w).
  { intros [= <- <- <-]. apply step_sound_same. intros _. apply sound_session_log_out. }
  destruct (generate_new_qr_clicked w);
    [intros [= <- <- <-]; now apply step_sound_same|].
  destruct (view_all_attendance_clicked w);
    [intros [= <- <- <-]; now apply step_sound_same|].
  destruct (admin_edit_attendance_clicked w);
    [intros [= <- <- <-]; now apply step_sound_same|].
  pose proof (sound_accounts_added (faculty db) (add_faculty w)) as Hadd.
  pose proof (keeps_accounts_added (faculty db) (add_faculty w)) as Hk.
  destruct (user_management (faculty db) (add_faculty w)) as [m rows]. simpl in *.
  assert (Hres : step_sound s db s (with_faculty db rows)).
  { intros Ha Ht Hs. simpl. split; [auto|]. split; [|split; [|exact Hk]].
    - exact (sound_tables_keeps _ _ _ Hk Ht).
    - exact (sound_session_keeps _ _ _ Hk Hs). }
  destruct (announcements_management s _ _) as [[a notes]|];
    intros [= <- <- <-]; exact Hres.
Qed.

(** The id of a logged-in session is the id of a stored account. *)
Lemma session_id_known (rows : list faculty_row) (s : session_state) (id : string) :
  sound_session rows s -> logged_in s = true -> faculty_id s = Some id ->
  known_account rows id.
Proof.
  intros Hs Hl Hid. destruct (Hs Hl) as (r & Hin & Hs1 & _).
  unfold known_account. rewrite Hid in Hs1. injection Hs1 as ->.
  now apply in_map.
Qed.

Lemma issue_sound (rows : list faculty_row) (t t' : database) (f : issue_form)
    (new_id : string) (now : Z) (id : string) (qr_data : json)
    (img : option image) :
  generate_qr_page t f new_id now id = Issued t' qr_data img ->
  known_account rows id -> sound_tables rows t -> sound_tables rows t'.
Proof.
  intros Hgen Hkn (Hreach & Hnd & Htok & Hed).
  pose proof (reach_issue _ _ _ _ _ _ _ _ Hreach Hgen) as Hreach'.
  apply issued_inv in Hgen. destruct Hgen as (Hfresh & -> & _ & _).
  split; [exact Hreach'|]. simpl. split; [|split; [|exact Hed]].
  - apply (insert_qr_code_unique (qr_codes t) _ (issued_row f new_id now id) Hnd).
    unfold insert_qr_code. simpl. now rewrite Hfresh.
  - apply Forall_app. split; [exact Htok|]. constructor; [|constructor].
    split; [reflexivity|]. exists id. split; [reflexivity|exact Hkn].
Qed.

Lemma generate_qr_screen_sound (s s' : session_state) (db db' : school)
    (w : generate_qr_widgets) (env : environment) (v : view) :
  logged_in s = true ->
  generate_qr_screen s db w env = (s', db', v) -> step_sound s db s' db'.
Proof.
  intros Hl. unfold generate_qr_screen.
  destruct (back_from_generate w);
    [intros [= <- <- <-]; now apply step_sound_same|].
  destruct (generate_button _ && _);
    [|intros [= <- <- <-]; now apply step_sound_same].
  destruct (faculty_id s) as [id|] eqn:Hid;
    [|intros [= <- <- <-]; now apply step_sound_same].
  destruct (generate_qr_page _ _ _ _ _) as [| |t qr_data img] eqn:Hgen;
    try (intros [= <- <- <-]; now apply step_sound_same).
  assert (Hres : step_sound s db s (with_tables db t)).
  { intros Ha Ht Hs. simpl. split; [exact Ha|].
    split; [|split; [exact Hs|apply keeps_accounts_refl]].
    eapply issue_sound; eauto using session_id_known. }
  destruct img as [img|]; [destruct (faculty_name s)|];
    intros [= <- <- <-]; exact Hres.
Qed.

Lemma view_attendance_sound (s s' : session_state) (db db' : school) (back : bool)
    (v : view) :
  view_attendance s db back = (s', db', v) -> step_sound s db s' db'.
Proof.
  unfold view_attendance.
  destruct back; intros [= <- <- <-]; now apply step_sound_same.
Qed.

Lemma analytics_sound (s s' : session_state) (db db' : school) (back : bool)
    (v : view) :
  analytics s db back = (s', db', v) -> step_sound s db s' db'.
Proof.
  unfold analytics. destruct back; intros [= <- <- <-]; now apply step_sound_same.
Qed.

Lemma edit_sound (rows : list faculty_row) (t : database) (record_id : Z)
    (st : status) (id reason : string) :
  known_account rows id -> sound_tables rows t ->
  sound_tables rows (edit_attendance t record_id st id reason).
Proof.
  intros Hkn (Hreach & Hnd & Htok & Hed).
  split; [now apply reach_edit|]. simpl. split; [exact Hnd|]. split; [exact Htok|].
  apply Forall_forall. intros a' Hin. apply in_map_iff in Hin.
  destruct Hin as (a & <- & Hin). rewrite Forall_forall in Hed.
  unfold update_row. destruct (att_id a =? record_id)%Z; [|now apply Hed].
  right. exists id. split; [reflexivity|exact Hkn].
Qed.

Lemma edit_attendance_screen_sound (s s' : session_state) (db db' : school)
    (w : edit_widgets) (v : view) :
  logged_in s = true ->
  edit_attendance_screen s db w = (s', db', v) -> step_sound s db s' db'.
Proof.
  intros Hl. unfold edit_attendance_screen.
  destruct (back_from_edit w); [intros [= <- <- <-]; now apply step_sound_same|].
  destruct (search_attendance _ w) as [|x df];
    [intros [= <- <- <-]; now apply step_sound_same|].
  destruct (fold_left _ _ _) as [record_id|];
    [|intros [= <- <- <-]; now apply step_sound_same].
  destruct (find _ _) as [selected|];
    [|intros [= <- <- <-]; now apply step_sound_same].
  destruct (save_changes w).
  2:{ destruct (cancel w); intros [= <- <- <-]; now apply step_sound_same. }
  cbn [faculty_id set_edit_record_id].
  destruct (faculty_id s) as [id|] eqn:Hid;
    [|intros [= <- <- <-]; now apply step_sound_same].
  intros [= <- <- <-]. intros Ha Ht Hs. simpl. split; [exact Ha|].
  split; [|split; [exact Hs|apply keeps_accounts_refl]].
  apply edit_sound; eauto using session_id_known.
Qed.

Lemma student_app_sound (rows : list faculty_row) (t : database)
    (uploaded : option image) (clk : clock) (frm : attendance_form) (dev : string) :
  sound_tables rows t ->
  sound_tables rows (snd (student_app t uploaded clk frm dev)).
Proof.
  intros (Hreach & Hnd & Htok & Hed).
  destruct (student_app_effect t uploaded clk frm dev) as (Hcodes & Hrej & Hacc).
  split.
  { destruct uploaded as [img|]; simpl; [now apply reach_redeem|exact Hreach]. }
  rewrite Hcodes. split; [exact Hnd|]. split; [exact Htok|].
  destruct (is_accepted (snd (fst (student_app t uploaded clk frm dev)))) eqn:E.
  - destruct (Hacc eq_refl) as (r & -> & _ & _ & _ & _ & _ & _ & _ & Hm & Hr).
    apply Forall_app. split; [exact Hed|]. constructor; [|constructor]. now left.
  - now rewrite (Hrej eq_refl).
Qed.

Lemma student_app_screen_sound (s s' : session_state) (db db' : school)
    (w : student_widgets) (env : environment) (v : view) :
  student_app_screen s db w env = (s', db', v) -> step_sound s db s' db'.
Proof.
  unfold student_app_screen.
  destruct (back_from_student w);
    [intros [= <- <- <-]; now apply step_sound_same|].
  pose proof (fun rows => student_app_sound rows (tables db) (uploaded_file w)
                (env_clock env) (attendance_details w) (env_uuid env)) as Hsound.
  destruct (student_app _ _ _ _ _) as [[note o] t]. simpl in Hsound.
  assert (Hres : step_sound s db s (with_tables db t)).
  { intros Ha Ht Hs. simpl. split; [exact Ha|].
    split; [|split; [exact Hs|apply keeps_accounts_refl]].
    now apply Hsound. }
  destruct o; intros [= <- <- <-]; exact Hres.
Qed.

Lemma route_sound (s s' : session_state) (db db' : school) (w : widgets)
    (env : environment) (v : view) :
  route s db w env = (s', db', v) -> step_sound s db s' db'.
Proof.
  unfold route. set (p := match page s with Some p => p | None => "home" end).
  destruct (p =? "home"); [apply home_page_sound|].
  destruct (p =? "faculty_login"); [apply faculty_login_sound|].
  destruct ((p =? "faculty_dashboard") && logged_in s);
    [apply faculty_dashboard_sound|].
  destruct ((p =? "admin_dashboard") && logged_in s && is_admin s);
    [apply admin_dashboard_sound|].
  destruct ((p =? "generate_qr") && logged_in s) eqn:E1.
  { apply andb_true_iff in E1. now apply generate_qr_screen_sound. }
  destruct ((p =? "view_attendance") && logged_in s);
    [apply view_attendance_sound|].
  destruct ((p =? "edit_attendance") && logged_in s) eqn:E2.
  { apply andb_true_iff in E2. now apply edit_attendance_screen_sound. }
  destruct ((p =? "analytics") && logged_in s); [apply analytics_sound|].
  destruct (p =? "student_app"); [apply student_app_screen_sound|].
  intros [= <- <- <-]. now apply step_sound_same.
Qed.

(** What [main] does, in two steps. *)
Lemma main_inv (s s' : session_state) (db db' : school) (w : widgets)
    (env : environment) (v : view) :
  main s db w env = Some (s', db', v) ->
  exists db0 s1 v1,
    init_database db = Some db0
    /\ route (initialise s) db0 w env = (s1, db', v1)
    /\ ((v1 = Raised /\ v = Raised /\ s' = set_page s1 "home")
        \/ (v1 <> Raised /\ v = v1 /\ s' = s1)).
Proof.
  unfold main. destruct (init_database db) as [db0|]; cbn [bind]; [|discriminate].
  destruct (route (initialise s) db0 w env) as [[s1 db1] v1] eqn:E.
  intros H. exists db0, s1, v1. split; [reflexivity|].
  destruct v1; injection H as <- <- <-;
    (split; [exact E|]); try (right; repeat split; discriminate).
  left. auto.
Qed.

Lemma seeded_sound (db0 : school) :
  init_database empty_school = Some db0 ->
  sound_accounts (faculty db0) /\ sound_tables (faculty db0) (tables db0).
Proof.
  intros H. vm_compute in H. injection H as <-. split; [split|].
  - simpl. repeat constructor; simpl; intuition discriminate.
  - repeat (apply Forall_cons || apply Forall_nil);
      (split; [reflexivity|]);
      (split; [left; simpl; tauto|]);
      first [left; reflexivity|right; repeat split; reflexivity].
  - split; [apply reach_fresh|]. simpl. repeat constructor.
Qed.

Lemma installed_is_sound (pool : list session_state) (db : school) :
  installed pool db -> sound_installation pool db.
Proof.
  induction 1 as [|pool db _ IH|before after s s' db db' w env v _ IH Hmain].
  - split; [now left|]. split; [split; constructor|]. split; [|constructor].
    split; [apply reach_fresh|]. simpl. repeat constructor.
  - destruct IH as (H0 & Ha & Ht & Hp). repeat split; auto; try apply Ha; try apply Ht.
    apply Forall_app. split; [exact Hp|]. constructor; [|constructor].
    intros H. discriminate.
  - destruct IH as (H0 & Ha & Ht & Hp).
    apply main_inv in Hmain.
    destruct Hmain as (db0 & s1 & v1 & Hinit & Hroute & Hv).
    apply Forall_app in Hp. destruct Hp as [Hbefore Hafter].
    inversion Hafter as [|? ? Hs Hafter']; subst.
    assert (Hinit' : (admin_exists (faculty db0) = true)
                     /\ sound_accounts (faculty db0)
                     /\ sound_tables (faculty db0) (tables db0)
                     /\ keeps_accounts (faculty db) (faculty db0)).
    { destruct H0 as [->|Hadm].
      - pose proof (seeded_sound _ Hinit) as [Ha0 Ht0].
        destruct (init_database_inv _ _ Hinit) as [[Hx _]|(_ & ? & ? & Hf & _)].
        + discriminate.
        + repeat split; try apply Ha0; try apply Ht0.
          * apply admin_exists_iff. exists default_admin. rewrite Hf.
            split; [now left|reflexivity].
          * intros a [].
      - destruct (init_database_inv _ _ Hinit) as [[_ ->]|(Hx & _)]; [|congruence].
        repeat split; auto using keeps_accounts_refl; try apply Ha; try apply Ht. }
    destruct Hinit' as (Hadm0 & Ha0 & Ht0 & Hk0).
    pose proof (route_sound _ _ _ _ _ _ _ Hroute Ha0 Ht0
                  (sound_session_initialise _ _
                     (sound_session_keeps _ _ _ Hk0 Hs)))
      as (Ha' & Ht' & Hs' & Hk').
    pose proof (keeps_accounts_trans _ _ _ Hk0 Hk') as Hk.
    split; [right; eauto using admin_exists_keeps|].
    split; [exact Ha'|]. split; [exact Ht'|].
    apply Forall_app. split.
    + eapply Forall_impl; [|exact Hbefore]. intros x. now apply sound_session_keeps.
    + constructor.
      * destruct Hv as [(_ & _ & ->)|(_ & _ & ->)]; exact Hs'.
      * eapply Forall_impl; [|exact Hafter']. intros x. now apply sound_session_keeps.
Qed.
End InstallationFacts.

(** ** Which page draws what *)

Section RoutingFacts.
Context {P : Platform} {Rt : Runtime}.

Lemma home_page_view (s s' : session_state) (db db' : school) (w : home_widgets)
    (env : environment) (v : view) :
  home_page s db w env = (s', db', v) ->
  db' = db /\ (v = Rerun \/ (drawn_by v = "home" /\ s' = s)).
Proof.
  unfold home_page.
  destruct (faculty_login_clicked w); [|destruct (student_app_clicked w)];
    intros [= <- <- <-]; auto.
Qed.

Lemma faculty_login_view (s s' : session_state) (db db' : school)
    (w : login_widgets) (env : environment) (v : view) :
  faculty_login s db w env = (s', db', v) ->
  v = Rerun \/ (drawn_by v = "faculty_login" /\ s' = s /\ db' = db).
Proof.
  intros H. apply login_inv in H.
  destruct H as [(_ & _ & -> & _)|[(m & -> & -> & ->)|(row & H)]]; auto.
  left. apply H.
Qed.

Lemma faculty_dashboard_view (s s' : session_state) (db db' : school)
    (w : faculty_dashboard_widgets) (env : environment) (v : view) :
  faculty_dashboard s db w env = (s', db', v) ->
  db' = db
  /\ (v = Rerun
      \/ (v = Raised /\ (faculty_name s = None \/ faculty_department s = None))
      \/ (exists name department,
            faculty_name s = Some name /\ faculty_department s = Some department
            /\ s' = s
            /\ v = FacultyDashboardPage name department
                     (option_map (dashboard (tables db) (date_of (env_now env)))
                                 (faculty_id s)))).
Proof.
  unfold faculty_dashboard.
  destruct (faculty_name s) as [name|];
    [destruct (faculty_department s) as [department|]|];
    try (intros [= <- <- <-]; solve [auto 8]).
  destruct (generate_qr_clicked w); [intros [= <- <- <-]; auto|].
  destruct (view_records_clicked w); [intros [= <- <- <-]; auto|].
  destruct (edit_attendance_clicked w); [intros [= <- <- <-]; auto|].
  destruct (analytics_clicked w); [intros [= <- <- <-]; auto|].
  destruct (logout_clicked w); intros [= <- <- <-]; auto.
  split; [reflexivity|]. right; right. exists name, department. auto.
Qed.

Lemma admin_dashboard_view (s s' : session_state) (db db' : school)
    (w : admin_dashboard_widgets) (v : view) :
  admin_dashboard s db w = (s', db', v) ->
  v = Rerun
  \/ (v = Raised /\ (faculty_name s = None \/ faculty_id s = None))
  \/ drawn_by v = "admin_dashboard".
Proof.
  unfold admin_dashboard.
  destruct (faculty_name s) as [name|]; [|intros [= <- <- <-]; auto 8].
  destruct (admin_logout_clicked w); [intros [= <- <- <-]; auto|].
  destruct (generate_new_qr_clicked w); [intros [= <- <- <-]; auto|].
  destruct (view_all_attendance_clicked w); [intros [= <- <- <-]; auto|].
  destruct (admin_edit_attendance_clicked w); [intros [= <- <- <-]; auto|].
  destruct (user_management _ _) as [m rows].
  unfold announcements_management.
  destruct (announcement_submitted _); [|intros [= <- <- <-]; auto].
  destruct (negb _ && negb _); [|intros [= <- <- <-]; auto].
  destruct (faculty_id s); intros [= <- <- <-]; auto 8.
Qed.

Lemma generate_qr_screen_view (s s' : session_state) (db db' : school)
    (w : generate_qr_widgets) (env : environment) (v : view) :
  generate_qr_screen s db w env = (s', db', v) ->
  v = Rerun \/ v = Raised \/ drawn_by v = "generate_qr".
Proof.
  unfold generate_qr_screen.
  destruct (back_from_generate w); [intros [= <- <- <-]; auto|].
  destruct (generate_button _ && _); [|intros [= <- <- <-]; auto].
  destruct (faculty_id s); [|intros [= <- <- <-]; auto].
  destruct (generate_qr_page _ _ _ _ _) as [| |t q [img|]];
    try (intros [= <- <- <-]; auto).
  destruct (faculty_name s); intros [= <- <- <-]; auto.
Qed.

Lemma edit_attendance_screen_view (s s' : session_state) (db db' : school)
    (w : edit_widgets) (v : view) :
  edit_attendance_screen s db w = (s', db', v) ->
  v = Rerun \/ v = Raised \/ drawn_by v = "edit_attendance".
Proof.
  unfold edit_attendance_screen.
  destruct (back_from_edit w); [intros [= <- <- <-]; auto|].
  destruct (search_attendance _ w); [intros [= <- <- <-]; auto|].
  destruct (fold_left _ _ _); [|intros [= <- <- <-]; auto].
  destruct (find _ _); [|intros [= <- <- <-]; auto].
  destruct (save_changes w).
  - cbn [faculty_id set_edit_record_id].
    destruct (faculty_id s); intros [= <- <- <-]; auto.
  - destruct (cancel w); intros [= <- <- <-]; auto.
Qed.

Lemma student_app_screen_view (s s' : session_state) (db db' : school)
    (w : student_widgets) (env : environment) (v : view) :
  student_app_screen s db w env = (s', db', v) ->
  s' = s \/ s' = set_page s "home".
Proof.
  unfold student_app_screen.
  destruct (back_from_student w); [intros [= <- <- <-]; auto|].
  destruct (student_app _ _ _ _ _) as [[note o] t].
  destruct o; intros [= <- <- <-]; auto.
Qed.

Lemma student_app_screen_draws (s s' : session_state) (db db' : school)
    (w : student_widgets) (env : environment) (v : view) :
  student_app_screen s db w env = (s', db', v) ->
  v = Rerun \/ v = Raised \/ drawn_by v = "student_app".
Proof.
  unfold student_app_screen.
  destruct (back_from_student w); [intros [= <- <- <-]; auto|].
  destruct (student_app _ _ _ _ _) as [[note o] t].
  destruct o; intros [= <- <- <-]; auto.
Qed.

(** The page a view was drawn for, and the test it passed. *)
Lemma route_view (s s' : session_state) (db db' : school) (w : widgets)
    (env : environment) (v : view) :
  route s db w env = (s', db', v) ->
  drawn_by v = ""
  \/ (page s = Some (drawn_by v) \/ (page s = None /\ drawn_by v = "home"))
     /\ (In (drawn_by v) protected_pages -> logged_in s = true)
     /\ (drawn_by v = "admin_dashboard" -> is_admin s = true).
Proof.
  unfold route.
  assert (Hp : forall q, (match page s with Some p => p | None => "home" end) = q ->
                         page s = Some q \/ (page s = None /\ q = "home")).
  { intros q <-. destruct (page s); auto. }
  set (p := match page s with Some p => p | None => "home" end) in *.
  destruct (p =? "home") eqn:E0.
  { apply String.eqb_eq in E0. intros H. apply home_page_view in H.
    destruct H as [_ [->|[Hv _]]]; [now left|right]. rewrite Hv.
    split; [auto|]. split; [simpl; intuition discriminate|discriminate]. }
  destruct (p =? "faculty_login") eqn:E1.
  { apply String.eqb_eq in E1. intros H. apply faculty_login_view in H.
    destruct H as [->|[Hv _]]; [now left|right]. rewrite Hv.
    split; [auto|]. split; [simpl; intuition discriminate|discriminate]. }
  destruct ((p =? "faculty_dashboard") && logged_in s) eqn:E2.
  { apply andb_true_iff in E2. destruct E2 as [E2 Hl]. apply String.eqb_eq in E2.
    intros H. apply faculty_dashboard_view in H.
    destruct H as [_ [->|[[-> _]|(name & dept & _ & _ & _ & ->)]]];
      [now left|now left|right].
    simpl. split; [auto|]. split; [auto|discriminate]. }
  destruct ((p =? "admin_dashboard") && logged_in s && is_admin s) eqn:E3.
  { apply andb_true_iff in E3. destruct E3 as [E3 Ha].
    apply andb_true_iff in E3. destruct E3 as [E3 Hl]. apply String.eqb_eq in E3.
    intros H. apply admin_dashboard_view in H.
    destruct H as [->|[[-> _]|Hv]]; [now left|now left|right]. rewrite Hv.
    split; [auto|]. split; auto. }
  destruct ((p =? "generate_qr") && logged_in s) eqn:E4.
  { apply andb_true_iff in E4. destruct E4 as [E4 Hl]. apply String.eqb_eq in E4.
    intros H. apply generate_qr_screen_view in H.
    destruct H as [->|[->|Hv]]; [now left|now left|right]. rewrite Hv.
    split; [auto|]. split; [auto|discriminate]. }
  destruct ((p =? "view_attendance") && logged_in s) eqn:E5.
  { apply andb_true_iff in E5. destruct E5 as [E5 Hl]. apply String.eqb_eq in E5.
    unfold view_attendance. destruct (back_from_view w); intros [= <- <- <-];
      [now left|right]. simpl. split; [auto|]. split; [auto|discriminate]. }
  destruct ((p =? "edit_attendance") && logged_in s) eqn:E6.
  { apply andb_true_iff in E6. destruct E6 as [E6 Hl]. apply String.eqb_eq in E6.
    intros H. apply edit_attendance_screen_view in H.
    destruct H as [->|[->|Hv]]; [now left|now left|right]. rewrite Hv.
    split; [auto|]. split; [auto|discriminate]. }
  destruct ((p =? "analytics") && logged_in s) eqn:E7.
  { apply andb_true_iff in E7. destruct E7 as [E7 Hl]. apply String.eqb_eq in E7.
    unfold analytics. destruct (back_from_analytics w); intros [= <- <- <-];
      [now left|right]. simpl. split; [auto|]. split; [auto|discriminate]. }
  destruct (p =? "student_app") eqn:E8.
  { apply String.eqb_eq in E8. intros H. apply student_app_screen_draws in H.
    destruct H as [->|[->|Hv]]; [now left|now left|right]. rewrite Hv.
    split; [auto|]. split; [simpl; intuition discriminate|discriminate]. }
  intros [= <- <- <-]. now left.
Qed.

Lemma logged_in_initialise (s : session_state) :
  logged_in (initialise s) = logged_in s.
Proof. unfold logged_in, initialise. simpl. now destruct (faculty_logged_in s). Qed.

(** The dashboard of a faculty member is drawn by [faculty_dashboard]. *)
Lemma route_faculty_dashboard (s s' : session_state) (db db' : school)
    (w : widgets) (env : environment) (name : string) (department : option string)
    (stats : option dashboard_stats) :
  route s db w env = (s', db', FacultyDashboardPage name department stats) ->
  logged_in s = true /\ db' = db /\ s' = s
  /\ stats = option_map (dashboard (tables db) (date_of (env_now env)))
                        (faculty_id s).
Proof.
  unfold route. set (p := match page s with Some p => p | None => "home" end).
  destruct (p =? "home").
  { intros H. apply home_page_view in H. simpl in H. intuition discriminate. }
  destruct (p =? "faculty_login").
  { intros H. apply faculty_login_view in H. simpl in H. intuition discriminate. }
  destruct ((p =? "faculty_dashboard") && logged_in s) eqn:E2.
  { apply andb_true_iff in E2. destruct E2 as [_ Hl].
    intros H. apply faculty_dashboard_view in H.
    destruct H as [-> [H|[[H _]|(n & d & _ & _ & -> & H)]]]; try discriminate.
    injection H as _ _ ->. auto. }
  destruct ((p =? "admin_dashboard") && logged_in s && is_admin s).
  { intros H. apply admin_dashboard_view in H. simpl in H. intuition discriminate. }
  destruct ((p =? "generate_qr") && logged_in s).
  { intros H. apply generate_qr_screen_view in H. simpl in H.
    intuition discriminate. }
  destruct ((p =? "view_attendance") && logged_in s).
  { unfold view_attendance. destruct (back_from_view w); discriminate. }
  destruct ((p =? "edit_attendance") && logged_in s).
  { intros H. apply edit_attendance_screen_view in H. simpl in H.
    intuition discriminate. }
  destruct ((p =? "analytics") && logged_in s).
  { unfold analytics. destruct (back_from_analytics w); discriminate. }
  destruct (p =? "student_app").
  { intros H. apply student_app_screen_draws in H. simpl in H.
    intuition discriminate. }
  discriminate.
Qed.

Lemma filter_none {A : Type} (f : A -> bool) (l : list A) :
  (forall x, In x l -> f x = false) -> filter f l = [].
Proof.
  induction l as [|x l IH]; simpl; intros H; [reflexivity|].
  rewrite (H x) by now left. apply IH. intros y Hy. apply H. now right.
Qed.

(** No record is marked by a faculty id. *)
Lemma dashboard_counts_nothing (t : database) (today : Z) (id : string) :
  Forall redemption_origin (attendance t) -> id <> "student_app" ->
  attendance_today (dashboard t today id) = 0%Z
  /\ avg_attendance (dashboard t today id) = "0%"
  /\ recent_attendance (dashboard t today id) = [].
Proof.
  intros Horigin Hid. rewrite Forall_forall in Horigin.
  assert (Hmarked : forall r, In r (attendance t) ->
            match marked_by r with
            | Some by_whom => by_whom =? id
            | None => false
            end = false).
  { intros r Hin. rewrite (Horigin r Hin). apply String.eqb_neq. congruence. }
  unfold dashboard. cbn [attendance_today avg_attendance recent_attendance].
  rewrite (filter_none (fun r => (date_of (timestamp r) =? today)%Z && _)).
  2:{ intros r Hin. rewrite (Hmarked r Hin). apply andb_false_r. }
  rewrite (filter_none _ _ Hmarked). repeat split.
Qed.

(** The runs of a session that is not logged in. *)
Lemma route_anonymous (s s' : session_state) (db db' : school) (w : widgets)
    (env : environment) (v : view) :
  logged_in s = false ->
  route s db w env = (s', db', v) ->
  students db' = students db /\ announcements db' = announcements db
  /\ (tables db' = tables db
      \/ tables db'
         = snd (student_app (tables db) (uploaded_file (on_student w))
                  (env_clock env) (attendance_details (on_student w))
                  (env_uuid env)))
  /\ (faculty db' = faculty db
      \/ (v = Rerun /\ logged_in s' = true
          /\ exists row,
               In row (faculty db)
               /\ fac_faculty_id row = str_upper (faculty_id_input (on_login w))
               /\ password_hash row = sha256_hexdigest (password_input (on_login w))
               /\ session_account s' row
               /\ faculty db'
                  = map (touch_last_login (env_now env) (fac_faculty_id row))
                        (faculty db))).
Proof.
  intros Hl. unfold route. rewrite Hl, !andb_false_r. cbn [andb].
  set (p := match page s with Some p => p | None => "home" end).
  destruct (p =? "home").
  { intros H. apply home_page_view in H. destruct H as [-> _]. auto. }
  destruct (p =? "faculty_login").
  { intros H. apply login_inv in H.
    destruct H as [(_ & -> & _)|[(m & _ & -> & _)
                  |(row & Hsel & _ & _ & _ & _ & _ & Hhash & -> & -> & ->)]];
      auto.
    apply select_faculty_some in Hsel. destruct Hsel as [Hin Hid].
    repeat split; auto. right. repeat split.
    exists row. rewrite Hid. repeat split; auto. }
  destruct (p =? "student_app").
  { unfold student_app_screen. destruct (back_from_student (on_student w));
      [intros [= <- <- <-]; auto|].
    destruct (student_app _ _ _ _ _) as [[note o] t].
    destruct o; intros [= <- <- <-]; simpl; auto. }
  intros [= <- <- <-]. auto.
Qed.

End RoutingFacts.

(** ** The search and the form of the edit page *)

Section EditFacts.
Context {P : Platform} {Rt : Runtime}.

Lemma in_insert_by_timestamp (x r : attendance_row) (l : list attendance_row) :
  In x (insert_by_timestamp r l) <-> x = r \/ In x l.
Proof.
  induction l as [|y l IH]; simpl; [intuition|].
  destruct (timestamp y <=? timestamp r)%Z; simpl; [intuition|].
  rewrite IH. intuition.
Qed.

Lemma in_order_by_timestamp (x : attendance_row) (l : list attendance_row) :
  In x (order_by_timestamp_desc l) <-> In x l.
Proof.
  unfold order_by_timestamp_desc. induction l as [|y l IH]; simpl; [tauto|].
  rewrite in_insert_by_timestamp, IH. intuition.
Qed.

Lemma in_firstn {A : Type} (n : nat) (l : list A) (x : A) :
  In x (firstn n l) -> In x l.
Proof.
  revert l. induction n as [|n IH]; intros [|y l]; simpl; try tauto.
  intros [->|H]; auto.
Qed.

(** What the search returns is stored and passes the three filters. *)
Lemma search_attendance_in (rows : list attendance_row) (w : edit_widgets)
    (r : attendance_row) :
  In r (search_attendance rows w) ->
  In r rows
  /\ (search_name w <> "" ->
      like ("%" ++ search_name w ++ "%") (student_name r) = true)
  /\ (search_subject w <> "" ->
      like ("%" ++ search_subject w ++ "%") (att_subject r) = true)
  /\ (forall day, search_date w = Some day -> date_of (timestamp r) = day).
Proof.
  unfold search_attendance. intros H. apply in_firstn in H.
  apply (proj1 (in_order_by_timestamp _ _)) in H.
  apply (proj1 (filter_In _ _ _)) in H. destruct H as [Hin H].
  apply andb_true_iff in H. destruct H as [H Hdate].
  apply andb_true_iff in H. destruct H as [Hname Hsubject].
  split; [exact Hin|]. split; [|split].
  - intros Hne. apply String.eqb_neq in Hne. now rewrite Hne in Hname.
  - intros Hne. apply String.eqb_neq in Hne. now rewrite Hne in Hsubject.
  - intros day Hday. rewrite Hday in Hdate. now apply Z.eqb_eq.
Qed.

(** X23.  The edit page changes a record that its search shows.  The
    search returns at most 50 records, each stored and each passing the
    filters typed (name and subject under LIKE between two [%], the day of
    the timestamp); and a run of the page leaves the database as it was
    unless "Save Changes" is pressed, in which case the UPDATE names a
    record of that search result, with the status and the reason of the
    form and the faculty id of the session, and the selection is
    cleared. *)
Theorem save_changes_a_found_record (s s' : session_state) (db db' : school)
    (w : edit_widgets) (v : view) :
  (List.length (search_attendance (attendance (tables db)) w) <= 50)%nat
  /\ (forall r, In r (search_attendance (attendance (tables db)) w) ->
        In r (attendance (tables db))
        /\ (search_name w <> "" ->
            like ("%" ++ search_name w ++ "%") (student_name r) = true)
        /\ (search_subject w <> "" ->
            like ("%" ++ search_subject w ++ "%") (att_subject r) = true)
        /\ (forall day, search_date w = Some day -> date_of (timestamp r) = day))
  /\ (edit_attendance_screen s db w = (s', db', v) ->
      db' = db
      \/ exists r id,
           In r (search_attendance (attendance (tables db)) w)
           /\ save_changes w = true
           /\ faculty_id s = Some id
           /\ v = Rerun
           /\ edit_record_id s' = None
           /\ db' = with_tables db
                      (edit_attendance (tables db) (att_id r) (new_status w) id
                         (reason_input w))).
Proof.
  split; [apply firstn_le_length|]. split; [apply search_attendance_in|].
  unfold edit_attendance_screen.
  destruct (back_from_edit w); [intros [= <- <- <-]; now left|].
  destruct (search_attendance _ w) as [|x df] eqn:Hdf;
    [intros [= <- <- <-]; now left|].
  destruct (fold_left _ _ _) as [record_id|]; [|intros [= <- <- <-]; now left].
  destruct (find _ _) as [selected|] eqn:Hfind; [|intros [= <- <- <-]; now left].
  destruct (save_changes w).
  2:{ destruct (cancel w); intros [= <- <- <-]; now left. }
  cbn [faculty_id set_edit_record_id].
  destruct (faculty_id s) as [id|]; [|intros [= <- <- <-]; now left].
  intros [= <- <- <-]. right. apply find_some in Hfind.
  destruct Hfind as [Hin Hid]. apply Z.eqb_eq in Hid. subst record_id.
  exists selected, id. repeat split; auto.
Qed.
End EditFacts.

(** ** The count of the home page *)

Section HomeFacts.
Context {P : Platform} {Rt : Runtime}.

Lemma attendance_on_app (rows : list attendance_row) (r : attendance_row)
    (today : Z) :
  attendance_on (rows ++ [r]) today
  = (attendance_on rows today
     + if (date_of (timestamp r) =? today)%Z then 1 else 0)%Z.
Proof.
  unfold attendance_on. rewrite filter_app, length_app. simpl.
  destruct (date_of (timestamp r) =? today)%Z; simpl; lia.
Qed.

Lemma attendance_on_edit (rows : list attendance_row) (today : Z) (record_id : Z)
    (new_status : status) (faculty_id reason : string) :
  attendance_on (map (update_row record_id new_status faculty_id reason) rows) today
  = attendance_on rows today.
Proof.
  unfold attendance_on. f_equal.
  induction rows as [|x rows IH]; simpl; [reflexivity|].
  replace (timestamp (update_row record_id new_status faculty_id reason x))
    with (timestamp x)
    by (unfold update_row; now destruct (att_id x =? record_id)%Z).
  destruct (date_of (timestamp x) =? today)%Z; simpl; now rewrite IH.
Qed.

(** X25.  "Today's Attendance" of the home page counts records, not
    presences.  The count for a day is the number of stored records whose
    timestamp falls on it: a run of [student_app] that ends on the page of
    success raises the count of the day of its commit by one and no other,
    a run that does not leaves every count as it was, and an
    administrative edit leaves every count as it was, so that a record set
    to absent is still counted. *)
Theorem todays_attendance_counts_records (t : database)
    (uploaded : option image) (clk : clock) (frm : attendance_form) (dev : string)
    (today : Z) :
  attendance_on (attendance (snd (student_app t uploaded clk frm dev))) today
  = (attendance_on (attendance t) today
     + if is_accepted (snd (fst (student_app t uploaded clk frm dev)))
          && (date_of (now_commit clk) =? today)%Z
       then 1 else 0)%Z
  /\ forall record_id new_status faculty_id reason,
       attendance_on
         (attendance (edit_attendance t record_id new_status faculty_id reason))
         today
       = attendance_on (attendance t) today.
Proof.
  split; [|intros; apply attendance_on_edit].
  destruct (student_app_effect t uploaded clk frm dev) as (_ & Hrej & Hacc).
  destruct (is_accepted (snd (fst (student_app t uploaded clk frm dev)))) eqn:E.
  - destruct (Hacc eq_refl) as (r & -> & _ & _ & _ & Hts & _).
    rewrite attendance_on_app, Hts. reflexivity.
  - rewrite (Hrej eq_refl). simpl. lia.
Qed.
End HomeFacts.

(** ** Properties of every installation *)

Section InstallationTheorems.
Context {P : Platform} {Rt : Runtime}.

(** The announcement a run of the admin dashboard appends. *)
Lemma route_announcements (s s' : session_state) (db db' : school) (w : widgets)
    (env : environment) (v : view) :
  route s db w env = (s', db', v) ->
  announcements db' = announcements db
  \/ (logged_in s = true /\ is_admin s = true
      /\ exists id a,
           faculty_id s = Some id
           /\ announcements db' = (announcements db ++ [a])%list
           /\ ann_created_by a = Some id
           /\ title a <> "" /\ message a <> "" /\ ann_is_active a = true).
Proof.
  unfold route. set (p := match page s with Some p => p | None => "home" end).
  destruct (p =? "home").
  { intros H. apply home_page_view in H. destruct H as [-> _]. now left. }
  destruct (p =? "faculty_login").
  { intros H. apply login_inv in H.
    destruct H as [(_ & -> & _)|[(m & _ & -> & _)|(row & H)]]; [now left..|].
    destruct H as (_ & _ & _ & _ & _ & _ & _ & _ & -> & _). now left. }
  destruct ((p =? "faculty_dashboard") && logged_in s).
  { intros H. apply faculty_dashboard_view in H. destruct H as [-> _]. now left. }
  destruct ((p =? "admin_dashboard") && logged_in s && is_admin s) eqn:E3.
  { apply andb_true_iff in E3. destruct E3 as [E3 Ha].
    apply andb_true_iff in E3. destruct E3 as [_ Hl].
    unfold admin_dashboard.
    destruct (faculty_name s); [|intros [= <- <- <-]; now left].
    destruct (admin_logout_clicked _); [intros [= <- <- <-]; now left|].
    destruct (generate_new_qr_clicked _); [intros [= <- <- <-]; now left|].
    destruct (view_all_attendance_clicked _); [intros [= <- <- <-]; now left|].
    destruct (admin_edit_attendance_clicked _); [intros [= <- <- <-]; now left|].
    destruct (user_management _ _) as [m rows].
    unfold announcements_management. cbn [announcements with_faculty].
    destruct (announcement_submitted _); [|intros [= <- <- <-]; now left].
    destruct (ann_title _ =? "") eqn:Et; cbn [negb andb];
      [intros [= <- <- <-]; now left|].
    destruct (ann_message _ =? "") eqn:Em; cbn [negb andb];
      [intros [= <- <- <-]; now left|].
    apply String.eqb_neq in Et, Em.
    destruct (faculty_id s) as [id|]; [|intros [= <- <- <-]; now left].
    intros [= <- <- <-]. right. split; [exact Hl|]. split; [exact Ha|].
    eexists. eexists. split; [reflexivity|]. split; [reflexivity|].
    repeat split; assumption. }
  destruct ((p =? "generate_qr") && logged_in s).
  { unfold generate_qr_screen.
    destruct (back_from_generate _); [intros [= <- <- <-]; now left|].
    destruct (generate_button _ && _); [|intros [= <- <- <-]; now left].
    destruct (faculty_id s); [|intros [= <- <- <-]; now left].
    destruct (generate_qr_page _ _ _ _ _) as [| |t q [img|]];
      try (intros [= <- <- <-]; now left).
    destruct (faculty_name s); intros [= <- <- <-]; now left. }
  destruct ((p =? "view_attendance") && logged_in s).
  { unfold view_attendance. destruct (back_from_view w); intros [= <- <- <-];
      now left. }
  destruct ((p =? "edit_attendance") && logged_in s).
  { unfold edit_attendance_screen.
    destruct (back_from_edit _); [intros [= <- <- <-]; now left|].
    destruct (search_attendance _ _); [intros [= <- <- <-]; now left|].
    destruct (fold_left _ _ _); [|intros [= <- <- <-]; now left].
    destruct (find _ _); [|intros [= <- <- <-]; now left].
    destruct (save_changes _).
    - cbn [faculty_id set_edit_record_id].
      destruct (faculty_id s); intros [= <- <- <-]; now left.
    - destruct (cancel _); intros [= <- <- <-]; now left. }
  destruct ((p =? "analytics") && logged_in s).
  { unfold analytics. destruct (back_from_analytics w); intros [= <- <- <-];
      now left. }
  destruct (p =? "student_app").
  { unfold student_app_screen.
    destruct (back_from_student _); [intros [= <- <- <-]; now left|].
    destruct (student_app _ _ _ _ _) as [[note o] t].
    destruct o; intros [= <- <- <-]; now left. }
  intros [= <- <- <-]. now left.
Qed.

(** The seeding keeps an installation sound. *)
Lemma init_keeps_sound (pool : list session_state) (db db0 : school) :
  sound_installation pool db -> init_database db = Some db0 ->
  sound_installation pool db0.
Proof.
  intros (H0 & Ha & Ht & Hp) Hinit. destruct H0 as [->|Hadm].
  - pose proof (seeded_sound _ Hinit) as [Ha0 Ht0].
    destruct (init_database_inv _ _ Hinit) as [[Hx _]|(_ & ? & ? & Hf & _)];
      [discriminate|].
    split.
    { right. apply admin_exists_iff. exists default_admin. rewrite Hf.
      split; [now left|reflexivity]. }
    split; [exact Ha0|]. split; [exact Ht0|].
    eapply Forall_impl; [|exact Hp]. intros sess Hsess.
    apply (sound_session_keeps [] _ sess); [intros a []|exact Hsess].
  - destruct (init_database_inv _ _ Hinit) as [[_ ->]|(Hx & _)]; [|congruence].
    repeat split; auto; try apply Ha; try apply Ht.
Qed.

(** An administrator's session is the session of ADMIN001. *)
Lemma admin_session_id (rows : list faculty_row) (s : session_state) (id : string) :
  sound_accounts rows -> sound_session rows s ->
  logged_in s = true -> is_admin s = true -> faculty_id s = Some id ->
  id = "ADMIN001".
Proof.
  intros [_ Hall] Hs Hl Hadm Hid. rewrite Forall_forall in Hall.
  destruct (Hs Hl) as (r & Hr & Hid' & _ & Hrole & _).
  unfold is_admin in Hadm. rewrite Hrole in Hadm. apply String.eqb_eq in Hadm.
  destruct (Hall r Hr) as (_ & _ & [Hr'|(_ & Hid'' & _)]); congruence.
Qed.

Lemma announcements_by_admin (pool : list session_state) (db : school) :
  installed pool db ->
  Forall (fun a => ann_created_by a = Some "ADMIN001" /\ title a <> ""
                   /\ message a <> "" /\ ann_is_active a = true)
         (announcements db).
Proof.
  induction 1 as [|pool db _ IH|before after s s' db db' w env v Hinst IH Hmain];
    [constructor|exact IH|].
  apply installed_is_sound in Hinst.
  apply main_inv in Hmain.
  destruct Hmain as (db0 & s1 & v1 & Hinit & Hroute & _).
  pose proof (init_keeps_sound _ _ _ Hinst Hinit) as (_ & Ha0 & _ & Hp0).
  apply Forall_app in Hp0. destruct Hp0 as [_ Hp0].
  inversion Hp0 as [|? ? Hs _]; subst.
  assert (Hann0 : announcements db0 = announcements db).
  { destruct (init_database_inv _ _ Hinit) as [[_ ->]|(_ & ? & ? & _ & _ & _ & E)];
      auto. }
  apply route_announcements in Hroute. rewrite Hann0 in Hroute.
  destruct Hroute as [->|(Hl & Hadm & id & a & Hid & -> & Hby & Ht & Hm & Hact)];
    [exact IH|].
  apply Forall_app. split; [exact IH|]. constructor; [|constructor].
  rewrite logged_in_initialise in Hl.
  apply sound_session_initialise in Hs.
  rewrite <- logged_in_initialise in Hl.
  rewrite (admin_session_id _ _ _ Ha0 Hs Hl Hadm Hid) in Hby. auto.
Qed.

(** X15.  There is one administrator.  On every installation the accounts
    have distinct ids and are all active, each has the role 'faculty' or
    'admin', and the only account of role 'admin' is ADMIN001 with the
    password it was seeded with; so a session that passes the test of the
    admin dashboard is logged in as ADMIN001.  No run creates or promotes an
    administrator, deactivates an account or changes a password. *)
Theorem one_administrator (pool : list session_state) (db : school) :
  installed pool db ->
  NoDup (map fac_faculty_id (faculty db))
  /\ (forall r, In r (faculty db) ->
        fac_is_active r = true /\ (role r = "faculty" \/ role r = "admin"))
  /\ (forall r, In r (faculty db) -> role r = "admin" ->
        fac_faculty_id r = "ADMIN001"
        /\ password_hash r = sha256_hexdigest "admin123")
  /\ (forall s, In s pool -> logged_in s = true -> is_admin s = true ->
        faculty_id s = Some "ADMIN001").
Proof.
  intros H. apply installed_is_sound in H.
  destruct H as (_ & [Hnd Hall] & _ & Hpool).
  rewrite Forall_forall in Hall, Hpool.
  split; [exact Hnd|]. split; [|split].
  - intros r Hin. destruct (Hall r Hin) as (Ha & _ & [Hr|(Hr & _)]); auto.
  - intros r Hin Hr. destruct (Hall r Hin) as (_ & _ & [Hr'|(_ & Hid & Hpw)]);
      [congruence|auto].
  - intros s Hin Hl Hadm. destruct (Hpool s Hin Hl) as (r & Hr & Hid & _ & Hrole & _).
    unfold is_admin in Hadm. rewrite Hrole in Hadm. apply String.eqb_eq in Hadm.
    destruct (Hall r Hr) as (_ & _ & [Hr'|(_ & Hid' & _)]); congruence.
Qed.

(** X16.  A session is logged in only as a stored account: on every
    installation, a session whose login flag is set holds the id, the
    name, the role and the department of an account of the faculty table,
    and that account is active; in particular the four session keys the
    dashboards read are present. *)
Theorem sessions_are_stored_accounts (pool : list session_state) (db : school)
    (s : session_state) :
  installed pool db -> In s pool -> logged_in s = true ->
  exists r, In r (faculty db) /\ fac_is_active r = true
            /\ faculty_id s = Some (fac_faculty_id r)
            /\ faculty_name s = Some (fac_name r)
            /\ faculty_role s = Some (role r)
            /\ faculty_department s = Some (fac_department r).
Proof.
  intros H Hin Hl. apply installed_is_sound in H.
  destruct H as (_ & [_ Hall] & _ & Hpool).
  rewrite Forall_forall in Hall, Hpool.
  destruct (Hpool s Hin Hl) as (r & Hr & Hacc).
  exists r. split; [exact Hr|]. split; [apply (Hall r Hr)|exact Hacc].
Qed.

(** X17.  Every stored token names its issuer and stays live.  On every
    installation the ids of the tokens are distinct, every token is active
    and was created by an account of the faculty table, and the liveness
    query of [student_app] returns every stored token under its id: no run
    deactivates or removes a token. *)
Theorem tokens_name_their_issuer_and_stay_live (pool : list session_state)
    (db : school) :
  installed pool db ->
  NoDup (map qr_id (qr_codes (tables db)))
  /\ forall q, In q (qr_codes (tables db)) ->
       is_active q = true
       /\ (exists r, In r (faculty db) /\ qr_created_by q = Some (fac_faculty_id r))
       /\ select_active_qr (qr_codes (tables db)) (SqlText (qr_id q)) = Some q.
Proof.
  intros H. apply installed_is_sound in H.
  destruct H as (_ & _ & (_ & Hnd & Htok & _) & _).
  rewrite Forall_forall in Htok. split; [exact Hnd|].
  intros q Hin. destruct (Htok q Hin) as (Ha & id & Hby & Hkn). split; [exact Ha|].
  split.
  - unfold known_account in Hkn. apply in_map_iff in Hkn.
    destruct Hkn as (r & <- & Hr). eauto.
  - destruct (select_active_qr _ _) as [q'|] eqn:E.
    + apply select_active_some in E. destruct E as (Hin' & Hid & _).
      f_equal. now apply (unique_id (qr_codes (tables db))).
    + unfold select_active_qr in E. apply (find_none _ _ E) in Hin.
      unfold text_eq in Hin. simpl in Hin. now rewrite String.eqb_refl, Ha in Hin.
Qed.

(** X18.  Every record comes from [student_app] and every edit names its
    editor.  On every installation each attendance record has the origin
    student_app, and either was never modified, with no editor and no
    reason, or names as its editor an account of the faculty table. *)
Theorem records_name_their_editor (pool : list session_state) (db : school) :
  installed pool db ->
  forall a, In a (attendance (tables db)) ->
    marked_by a = Some "student_app"
    /\ ((modified_by a = None /\ modification_reason a = None)
        \/ exists r, In r (faculty db) /\ modified_by a = Some (fac_faculty_id r)).
Proof.
  intros H. apply installed_is_sound in H.
  destruct H as (_ & _ & (Hreach & _ & _ & Hed) & _).
  pose proof (reachable_origin _ Hreach) as Horigin.
  rewrite Forall_forall in Hed, Horigin. intros a Hin.
  split; [exact (Horigin a Hin)|].
  destruct (Hed a Hin) as [Hno|(id & Hby & Hkn)]; [now left|right].
  unfold known_account in Hkn. apply in_map_iff in Hkn.
  destruct Hkn as (r & <- & Hr). eauto.
Qed.

(** X19.  The dashboard of a faculty member counts no attendance.  Its
    queries select the records marked by the faculty id of the session,
    and every record is marked by student_app, which is no faculty id
    since ids are stored in upper case: on every installation, whenever
    the faculty dashboard is drawn, "Students Attended Today" is 0, the
    average is "0%" and the recent activity is empty. *)
Theorem faculty_dashboard_counts_nothing (before after : list session_state)
    (s s' : session_state) (db db' : school) (w : widgets) (env : environment)
    (name : string) (department : option string) (stats : option dashboard_stats) :
  (forall x, str_upper x <> "student_app") ->
  installed (before ++ s :: after)%list db ->
  main s db w env = Some (s', db', FacultyDashboardPage name department stats) ->
  exists st, stats = Some st
             /\ attendance_today st = 0%Z
             /\ avg_attendance st = "0%"
             /\ recent_attendance st = [].
Proof.
  intros Hupper Hinst Hmain.
  pose proof (installed_run _ _ _ _ _ _ _ _ _ Hinst Hmain) as Hinst'.
  apply installed_is_sound in Hinst'.
  destruct Hinst' as (_ & [_ Hacc] & (Hreach & _) & Hpool).
  apply main_inv in Hmain.
  destruct Hmain as (db0 & s1 & v1 & _ & Hroute & [(_ & Hv & _)|(_ & <- & ->)]);
    [discriminate|].
  apply Forall_app in Hpool. destruct Hpool as [_ Hpool].
  inversion Hpool as [|? ? Hs _]; subst.
  apply route_faculty_dashboard in Hroute.
  destruct Hroute as (Hl & -> & -> & ->).
  destruct (Hs Hl) as (r & Hin & Hid & _). rewrite Hid.
  simpl. eexists. split; [reflexivity|].
  apply dashboard_counts_nothing; [now apply reachable_origin|].
  rewrite Forall_forall in Hacc. destruct (Hacc r Hin) as (_ & [Hseed|[x Hx]] & _).
  - simpl in Hseed. intuition (subst; try discriminate; congruence).
  - rewrite Hx. apply Hupper.
Qed.

(** X20.  The pages behind the login are drawn for logged-in sessions
    only, the admin dashboard for a session of role 'admin' only; and a
    run of a session that is not logged in writes nothing but the record
    of an attendance by [student_app] and the last login of the account
    whose id and password it presents: it issues no token, edits no
    record and adds no account, student or announcement. *)
Theorem protected_pages_need_a_login (s s' : session_state)
    (db db0 db' : school) (w : widgets) (env : environment) (v : view) :
  init_database db = Some db0 ->
  main s db w env = Some (s', db', v) ->
  (In (drawn_by v) protected_pages ->
   logged_in s = true /\ page s = Some (drawn_by v))
  /\ (drawn_by v = "admin_dashboard" -> is_admin s = true)
  /\ (logged_in s = false ->
      students db' = students db0 /\ announcements db' = announcements db0
      /\ qr_codes (tables db') = qr_codes (tables db0)
      /\ (tables db' = tables db0
          \/ tables db'
             = snd (student_app (tables db0) (uploaded_file (on_student w))
                      (env_clock env) (attendance_details (on_student w))
                      (env_uuid env)))
      /\ (faculty db' = faculty db0
          \/ (v = Rerun /\ logged_in s' = true
              /\ exists row,
                   In row (faculty db0)
                   /\ fac_faculty_id row
                      = str_upper (faculty_id_input (on_login w))
                   /\ password_hash row
                      = sha256_hexdigest (password_input (on_login w))
                   /\ session_account s' row
                   /\ faculty db'
                      = map (touch_last_login (env_now env) (fac_faculty_id row))
                            (faculty db0)))).
Proof.
  intros Hinit Hmain. apply main_inv in Hmain.
  destruct Hmain as (db0' & s1 & v1 & Hinit' & Hroute & Hv).
  rewrite Hinit in Hinit'. injection Hinit' as <-.
  assert (Hview : drawn_by v = drawn_by v1).
  { destruct Hv as [(-> & -> & _)|(_ & -> & _)]; reflexivity. }
  rewrite Hview. split; [|split].
  - intros Hin. destruct (route_view _ _ _ _ _ _ _ Hroute) as [E|(Hpage & Hlog & _)].
    { rewrite E in Hin. simpl in Hin. intuition discriminate. }
    rewrite logged_in_initialise in Hlog. split; [auto|].
    destruct Hpage as [Hpage|[Hpage _]]; [|discriminate].
    simpl in Hpage. destruct (page s) as [p|]; [exact Hpage|].
    injection Hpage as Hpage. rewrite <- Hpage in Hin. simpl in Hin.
    intuition discriminate.
  - intros Hadm. destruct (route_view _ _ _ _ _ _ _ Hroute) as [E|(_ & _ & Ha)].
    { rewrite E in Hadm. discriminate. }
    apply Ha in Hadm. exact Hadm.
  - intros Hl. rewrite <- logged_in_initialise in Hl.
    destruct (route_anonymous _ _ _ _ _ _ _ Hl Hroute) as (Hs & Ha & Ht & Hf).
    split; [exact Hs|]. split; [exact Ha|]. split; [|split; [exact Ht|]].
    + destruct Ht as [Ht|Ht]; rewrite Ht; [reflexivity|]. apply student_app_effect.
    + destruct Hf as [Hf|(Hrerun & Hl' & row & Hrow)]; [now left|right].
      subst v1. destruct Hv as [(Hv1 & _)|(_ & Hv & Hs')]; [discriminate|].
      subst v s'. repeat split; auto. exists row. exact Hrow.
Qed.



(** X24.  Announcements come from the administrator.  On every
    installation each stored announcement has a title and a message that
    are not empty, is active, and names ADMIN001 as its creator: the form
    is reached through the admin dashboard alone, which is drawn for
    ADMIN001 alone. *)
Theorem announcements_come_from_the_administrator (pool : list session_state)
    (db : school) :
  installed pool db ->
  forall a, In a (announcements db) ->
    ann_created_by a = Some "ADMIN001"
    /\ title a <> "" /\ message a <> "" /\ ann_is_active a = true.
Proof.
  intros H. apply announcements_by_admin in H. now rewrite Forall_forall in H.
Qed.
End InstallationTheorems.

(** ** Scripts *)

Section ScriptFacts.
Context {P : Platform} {Rt : Runtime}.

Lemma nth_error_parts {A : Type} (l : list A) (i : nat) (a : A) :
  nth_error l i = Some a -> l = (firstn i l ++ a :: skipn (S i) l)%list.
Proof.
  revert i. induction l as [|x l IH]; intros [|i]; simpl; try discriminate.
  - now intros [= ->].
  - intros H. f_equal. now apply IH.
Qed.

Lemma after_run_installed (pool : list session_state) (db : school) (i : nat)
    (w : widgets) (env : environment) :
  installed pool db ->
  installed (fst (after_run pool db i w env)) (snd (after_run pool db i w env)).
Proof.
  intros H. unfold after_run.
  destruct (nth_error pool i) as [s|] eqn:E; [|exact H].
  destruct (main s db w env) as [[[s' db'] v]|] eqn:Hmain; [|exact H].
  cbn [fst snd]. apply (installed_run _ _ s s' db db' w env v); [|exact Hmain].
  now rewrite <- (nth_error_parts _ _ _ E).
Qed.

Lemma play_installed (script : list (nat * widgets * environment))
    (pool : list session_state) (db : school) :
  installed pool db ->
  installed (fst (play script pool db)) (snd (play script pool db)).
Proof.
  revert pool db. induction script as [|[[i w] env] rest IH]; intros pool db H;
    [exact H|].
  simpl. pose proof (after_run_installed pool db i w env H) as H'.
  destruct (after_run pool db i w env) as [pool' db']. now apply IH.
Qed.
End ScriptFacts.

(** ** The recorded day, computed *)

Section SchoolDay.
Import Recorded RecordedSchool.
#[local] Existing Instance Recorded.platform.
#[local] Existing Instance RecordedSchool.runtime.

Lemma browsers_installed : installed browsers empty_school.
Proof.
  exact (installed_connect _ _
           (installed_connect _ _ (installed_connect _ _ installed_fresh))).
Qed.

Lemma noon_installed : installed (fst noon) (snd noon).
Proof. apply play_installed, browsers_installed. Qed.

(** The three sessions at noon. *)
Lemma noon_pool :
  fst noon = [nth 0 (fst noon) new_session; nth 1 (fst noon) new_session;
              nth 2 (fst noon) new_session].
Proof. vm_compute. reflexivity. Qed.

(** The third browser is in the pool, and logged in. *)
Lemma noon_third : In (nth 2 (fst noon) new_session) (fst noon).
Proof. apply nth_In. vm_compute. exact (le_n 3). Qed.

Lemma noon_third_logged_in : logged_in (nth 2 (fst noon) new_session) = true.
Proof. vm_compute. reflexivity. Qed.

Lemma noon_around_third :
  installed ([nth 0 (fst noon) new_session; nth 1 (fst noon) new_session]
             ++ nth 2 (fst noon) new_session :: [])%list (snd noon).
Proof.
  change (installed [nth 0 (fst noon) new_session; nth 1 (fst noon) new_session;
                     nth 2 (fst noon) new_session] (snd noon)).
  rewrite <- noon_pool. exact noon_installed.
Qed.



Lemma noon_second_anonymous : logged_in (nth 1 (fst noon) new_session) = false.
Proof. vm_compute. reflexivity. Qed.

(** At noon the seeding is over. *)
Lemma noon_seeded : init_database (snd noon) = Some (snd noon).
Proof. vm_compute. reflexivity. Qed.

(** The runs of eleven o'clock. *)
Lemma smith_opens_the_dashboard :
  main (nth 2 (fst noon) new_session) (snd noon) idle at_eleven
  = Some (nth 2 (fst noon) new_session, snd noon,
          FacultyDashboardPage "Dr. Smith Johnson" (Some "Mathematics")
            (Some (dashboard (tables (snd noon)) (date_of (env_now at_eleven))
                     "FAC001"))).
Proof. vm_compute. reflexivity. Qed.

Lemma student_waits :
  option_map snd (main (nth 1 (fst noon) new_session) (snd noon) idle at_eleven)
  = Some (StudentAppPage None AwaitingUpload).
Proof. vm_compute. reflexivity. Qed.


Lemma noon_counts :
  attendance_on (attendance (tables (snd noon))) (date_of (env_now at_eleven)) = 1%Z
  /\ List.length (qr_codes (tables (snd noon))) = 1%nat
  /\ map modified_by (attendance (tables (snd noon))) = [Some "ADMIN001"].
Proof. vm_compute. repeat split. Qed.

Lemma noon_notice :
  exists a, In a (announcements (snd noon)) /\ title a = "Sports day".
Proof. eexists. split; [vm_compute; left; reflexivity|reflexivity]. Qed.

Lemma upper_ascii_not_s (c : ascii) : upper_ascii c <> "s"%char.
Proof.
  destruct c as [[] [] [] [] [] [] [] []]; vm_compute; discriminate.
Qed.

Lemma upper_never_student_app (x : string) : str_upper x <> "student_app".
Proof.
  change (upper x <> "student_app").
  destruct x as [|c x]; simpl; [discriminate|].
  intros [= H _]. exact (upper_ascii_not_s c H).
Qed.

Lemma seeded_ids_unique : NoDup (map fac_faculty_id (faculty seeded)).
Proof. vm_compute. repeat constructor; simpl; intuition discriminate. Qed.

Lemma seeded_is_seeded : init_database empty_school = Some seeded.
Proof. vm_compute. reflexivity. Qed.

(** John's accepted scan passed every check. *)
Lemma accepted_attempt_passed_every_check_witness :
  exists qr_record lat lon,
    select_active_qr (qr_codes class_db) (SqlText class_id) = Some qr_record
    /\ submitted john_at_anchor
    /\ calculate_distance lat lon 17.6868 83.2185 = Some 0%float
    /\ is_nan 0 = false.
Proof.
  assert (Haccepted : snd (fst (redeem class_db class_payload in_time
                                  john_at_anchor device)) = Accepted 0)
    by reflexivity.
  destruct (accepted_attempt_passed_every_check class_db class_payload in_time
              john_at_anchor device 0 Haccepted)
    as (id & key & qr_record & subject & period & latitude & longitude & s & p
        & lat & lon & Hid & Hkey & Hq & Hf & _ & _ & _ & _ & _ & _ & _ & _ & _
        & Hd & _ & Hnan).
  injection Hid as <-. injection Hkey as <-.
  exists qr_record, lat, lon. auto.
Defined.

(** From the antipode of the anchor the distance computation raises, and
    the page says "Database error". *)
Lemma database_error_has_a_cause_witness :
  snd (fst (redeem class_db far_payload in_time john_at_antipode device))
  = DatabaseError
  /\ snd (redeem class_db far_payload in_time john_at_antipode device) = class_db
  /\ database_error_cause far_payload john_at_antipode.
Proof.
  split; [reflexivity|].
  apply (database_error_has_a_cause class_db far_payload in_time john_at_antipode
           device).
  reflexivity.
Defined.

(** The table after the first scan. *)
Lemma stored_records_are_well_formed_witness :
  NoDup (map att_id (attendance after_first_scan))
  /\ Forall well_formed_record (attendance after_first_scan).
Proof.
  exact (stored_records_are_well_formed after_first_scan after_first_scan_reachable).
Defined.

(** John's record is marked absent by the administrator. *)
Lemma edit_changes_one_record_witness :
  (exists before after,
     attendance after_first_scan
     = (before ++ john_row (now_commit in_time) device 1 :: after)%list
     /\ edit_attendance after_first_scan 1 absent "ADMIN001" "Left early"
        = {| qr_codes := [class_row];
             attendance :=
               (before
                ++ edited absent "ADMIN001" "Left early"
                     (john_row (now_commit in_time) device 1) :: after)%list |})
  /\ edit_attendance after_first_scan 2 absent "ADMIN001" "Left early"
     = after_first_scan.
Proof.
  destruct (edit_changes_one_record after_first_scan 1 absent "ADMIN001"
              "Left early" after_first_scan_reachable) as [Hone _].
  destruct (edit_changes_one_record after_first_scan 2 absent "ADMIN001"
              "Left early" after_first_scan_reachable) as [_ Hnone].
  split.
  - apply Hone; [now left|reflexivity].
  - apply Hnone. intros r [<-|[]]. discriminate.
Defined.

(** The code of the class, issued on an empty store. *)
Lemma issued_token_is_stored_and_live_witness :
  carries class_payload class_id "Mathematics" "Period 1" 17.6868 83.2185
  /\ select_active_qr (qr_codes class_db) (SqlText class_id) = Some class_row
  /\ shown_validity class_payload (now_display in_time) = ValidUntil expires
  /\ shown_validity class_payload (now_display too_late) = QRExpired expires.
Proof.
  assert (Hissued : generate_qr_page {| qr_codes := []; attendance := [] |}
                      class_form class_id issued_at "FAC001"
                    = Issued class_db class_payload (Some class_picture))
    by reflexivity.
  pose proof (issued_token_is_stored_and_live _ _ _ _ _ _ _ _ Hissued) as H.
  cbv zeta in H. destruct H as (Hc & _ & _ & Hq & _ & _ & Hv).
  split; [exact Hc|]. split; [exact Hq|].
  split; [apply (Hv eq_refl)|apply (Hv eq_refl)].
Defined.

(** The code of the class is redeemed at its anchor. *)
Lemma issued_token_redeems_witness :
  redeem class_db class_payload in_time john_at_anchor device
  = (Some (ValidUntil expires), Accepted 0,
     {| qr_codes := [class_row];
        attendance := [john_row (now_commit in_time) device 1] |}).
Proof.
  assert (Hissued : generate_qr_page {| qr_codes := []; attendance := [] |}
                      class_form class_id issued_at "FAC001"
                    = Issued class_db class_payload (Some class_picture))
    by reflexivity.
  apply (issued_token_redeems _ _ _ _ _ _ _ _ in_time john_at_anchor device 0
           Hissued john_submitted); reflexivity.
Defined.

(** The seeds of an empty database file. *)
Lemma init_database_seeds_once_witness :
  admin_exists (faculty seeded) = true
  /\ init_database seeded = Some seeded
  /\ map fac_faculty_id (faculty seeded) = seed_ids.
Proof.
  destruct (init_database_seeds_once empty_school seeded seeded_is_seeded)
    as (Hadmin & _ & _ & _ & Hagain & Hfresh).
  split; [exact Hadmin|]. split; [exact Hagain|]. apply (Hfresh eq_refl).
Defined.

(** The administrator logs in with the id in lower case; the password of
    the administrator does not open the account of Dr. Smith. *)
Lemma login_checks_id_flag_and_password_witness :
  logged_in (fst (fst (faculty_login new_session seeded admin_credentials at_issue)))
  = true
  /\ page (fst (fst (faculty_login new_session seeded admin_credentials at_issue)))
     = Some "admin_dashboard"
  /\ exists m, faculty_login new_session seeded wrong_password at_issue
               = (new_session, seeded, FacultyLoginPage m)
               /\ m <> NoLoginMessage.
Proof.
  destruct (login_checks_id_flag_and_password new_session seeded admin_credentials
              at_issue seeded_ids_unique eq_refl eq_refl) as [Hpass _].
  destruct (login_checks_id_flag_and_password new_session seeded wrong_password
              at_issue seeded_ids_unique eq_refl eq_refl) as [_ Hfail].
  assert (Hadmin : In default_admin (faculty seeded)) by (now left).
  destruct (Hpass default_admin) as (Hrun & _ & Hl).
  { split; [exact Hadmin|]. repeat split; discriminate. }
  split; [exact Hl|]. split; [now rewrite Hrun|].
  apply Hfail. intros row (Hin & Hid & _ & _ & _ & Hhash).
  vm_compute in Hin.
  repeat (destruct Hin as [<-|Hin]; [discriminate|]). exact Hin.
Defined.

(** The teacher added as "fac100" logs in as "Fac100". *)
Lemma added_account_logs_in_witness :
  fst (user_management (faculty seeded) new_teacher) = FacultyAdded
  /\ session_account
       (fst (fst (faculty_login new_session
                    (with_faculty seeded
                       (snd (user_management (faculty seeded) new_teacher)))
                    teacher_credentials at_eleven)))
       (new_faculty_row new_teacher)
  /\ page (fst (fst (faculty_login new_session
                       (with_faculty seeded
                          (snd (user_management (faculty seeded) new_teacher)))
                       teacher_credentials at_eleven)))
     = Some "faculty_dashboard".
Proof.
  assert (Hadded : fst (user_management (faculty seeded) new_teacher)
                   = FacultyAdded) by reflexivity.
  split; [exact Hadded|].
  pose proof (added_account_logs_in seeded new_teacher new_session
                teacher_credentials at_eleven Hadded eq_refl eq_refl) as H.
  cbv zeta in H. rewrite H; [|discriminate|reflexivity|reflexivity].
  split; [repeat split|reflexivity].
Defined.

(** At noon: one administrator. *)
Lemma one_administrator_witness :
  NoDup (map fac_faculty_id (faculty (snd noon)))
  /\ (forall r, In r (faculty (snd noon)) -> role r = "admin" ->
        fac_faculty_id r = "ADMIN001").
Proof.
  destruct (one_administrator (fst noon) (snd noon) noon_installed)
    as (Hnd & _ & Hadmin & _).
  split; [exact Hnd|]. intros r Hin Hr. exact (proj1 (Hadmin r Hin Hr)).
Defined.

(** At noon the third browser is logged in as Dr. Smith. *)
Lemma sessions_are_stored_accounts_witness :
  exists r, In r (faculty (snd noon))
            /\ faculty_id (nth 2 (fst noon) new_session) = Some (fac_faculty_id r)
            /\ faculty_name (nth 2 (fst noon) new_session) = Some (fac_name r).
Proof.
  destruct (sessions_are_stored_accounts (fst noon) (snd noon)
              (nth 2 (fst noon) new_session) noon_installed noon_third
              noon_third_logged_in)
    as (r & Hin & _ & Hid & Hname & _).
  exists r. exact (conj Hin (conj Hid Hname)).
Defined.

(** At noon the code of the class is stored, active and found. *)
Lemma tokens_name_their_issuer_and_stay_live_witness :
  List.length (qr_codes (tables (snd noon))) = 1%nat
  /\ Forall (fun q =>
               is_active q = true
               /\ select_active_qr (qr_codes (tables (snd noon)))
                    (SqlText (qr_id q)) = Some q)
            (qr_codes (tables (snd noon))).
Proof.
  split; [ exact (proj1 (proj2 noon_counts)) | ].
  destruct (tokens_name_their_issuer_and_stay_live (fst noon) (snd noon)
              noon_installed) as [_ H].
  apply Forall_forall. intros q Hin. destruct (H q Hin) as (Ha & _ & Hq).
  exact (conj Ha Hq).
Defined.

(** At noon John's record names the administrator as its editor. *)
Lemma records_name_their_editor_witness :
  map modified_by (attendance (tables (snd noon))) = [Some "ADMIN001"]
  /\ Forall (fun a =>
               marked_by a = Some "student_app"
               /\ ((modified_by a = None /\ modification_reason a = None)
                   \/ exists r, In r (faculty (snd noon))
                                /\ modified_by a = Some (fac_faculty_id r)))
            (attendance (tables (snd noon))).
Proof.
  split; [ exact (proj2 (proj2 noon_counts)) | ].
  apply Forall_forall.
  exact (records_name_their_editor (fst noon) (snd noon) noon_installed).
Defined.

(** Dr. Smith's dashboard at eleven, after John's scan. *)
Lemma faculty_dashboard_counts_nothing_witness :
  attendance_on (attendance (tables (snd noon))) (date_of (env_now at_eleven)) = 1%Z
  /\ exists st,
       option_map snd (main (nth 2 (fst noon) new_session) (snd noon) idle at_eleven)
       = Some (FacultyDashboardPage "Dr. Smith Johnson" (Some "Mathematics")
                 (Some st))
       /\ attendance_today st = 0%Z /\ avg_attendance st = "0%"
       /\ recent_attendance st = [].
Proof.
  split; [exact (proj1 noon_counts)|].
  destruct (faculty_dashboard_counts_nothing _ _ _ _ _ _ _ _ _ _ _
              upper_never_student_app noon_around_third smith_opens_the_dashboard)
    as (st & Hst & H0).
  exists st. split; [|exact H0].
  rewrite smith_opens_the_dashboard. cbn [option_map snd].
  rewrite Hst. reflexivity.
Defined.

(** At eleven the student's browser is not logged in: its run draws the
    student page and writes nothing. *)
Lemma protected_pages_need_a_login_witness :
  logged_in (nth 1 (fst noon) new_session) = false
  /\ option_map snd (main (nth 1 (fst noon) new_session) (snd noon) idle at_eleven)
     = Some (StudentAppPage None AwaitingUpload)
  /\ forall s' db' v,
       main (nth 1 (fst noon) new_session) (snd noon) idle at_eleven
       = Some (s', db', v) ->
       qr_codes (tables db') = qr_codes (tables (snd noon))
       /\ announcements db' = announcements (snd noon).
Proof.
  split; [exact noon_second_anonymous|]. split; [exact student_waits|].
  intros s' db' v Hmain.
  destruct (protected_pages_need_a_login _ _ _ _ _ _ _ _ noon_seeded Hmain)
    as (_ & _ & Hanon).
  destruct (Hanon noon_second_anonymous) as (_ & Ha & Hq & _).
  exact (conj Hq Ha).
Defined.



(** At noon the announcement of the morning names the administrator. *)
Lemma announcements_come_from_the_administrator_witness :
  exists a, In a (announcements (snd noon))
            /\ title a = "Sports day"
            /\ ann_created_by a = Some "ADMIN001".
Proof.
  destruct noon_notice as (a & Hin & Ht). exists a. split; [exact Hin|]. split; [exact Ht|].
  apply (announcements_come_from_the_administrator (fst noon) (snd noon)
           noon_installed a Hin).
Defined.
End SchoolDay.
